(** * Host-metrics snapshot engine ([Naman/app.py]): model and properties

    The development embeds the snapshot aggregation code of [app.py]:
    the rate tracker kept in the module-level dictionary [_prev], the GPU
    fallback chain [safe_gpu_info], the process ranker [get_top_processes],
    the byte formatter [bytes_to_human] and the request handler [stats].

    Python values are modelled as the interpreter has them: [int] is an
    unbounded integer ([Z]), [float] is an IEEE-754 binary64 number (the
    primitive type [float] of the Floats library, specified bit for bit by
    [SpecFloat]), a raised exception is the [Raise] branch of [result], and
    the module-level dictionary [_prev] is a state threaded through [stats]. *)

From Stdlib Require Import ZArith List String Ascii Bool Lia.
From Stdlib Require Import Sorting.Sorted Sorting.Permutation.
From Stdlib Require Import Floats.
From stdpp Require Import gmap strings.
Import ListNotations.

#[local] Open Scope string_scope.
#[local] Open Scope Z_scope.

(** ** Exceptions and fallible computations *)

(** The exceptions the modelled code can meet.  All of them are subclasses
    of Python's [Exception], so every [except Exception] handler of the
    source catches each of them. *)
Inductive exn : Type :=
| OverflowError      (* an int too large for a float *)
| ZeroDivisionError  (* division by zero *)
| ValueError         (* float(str) on text that is not a number; int(nan) *)
| AttributeError     (* attribute read on an object that lacks it *)
| OSError.           (* a failing operating-system or library query *)

Inductive result (A : Type) : Type :=
| Ok (a : A)
| Raise (e : exn).
Arguments Ok {A} a.
Arguments Raise {A} e.

(** Sequencing: the first raised exception aborts what follows.  The
    instances give [result] the notations [x ← r; k] and [mret]. *)
#[global] Instance result_bind : MBind result := fun A B k r =>
  match r with
  | Ok a => k a
  | Raise e => Raise e
  end.

#[global] Instance result_ret : MRet result := fun A a => Ok a.

(** [try: ... except Exception: handler] around a computation. *)
Definition try_except {A : Type} (r : result A) (handler : A) : A :=
  match r with
  | Ok a => a
  | Raise _ => handler
  end.

Definition is_ok {A : Type} (r : result A) : bool :=
  match r with Ok _ => true | Raise _ => false end.

(** ** Python numbers *)

Module PyNum.

(** A Python number of the kinds the code handles: [int] or [float]. *)
Inductive num : Type :=
| PyInt (z : Z)
| PyFloat (f : float).

(** The binary64 value nearest to an integer, ties to even, as a
    [spec_float]; [S754_infinity] when the integer is out of range. *)
Definition Z2SF (z : Z) : spec_float := binary_normalize prec emax z 0 false.

(** [float(z)] for an int [z]: round to nearest, ties to even;
    [OverflowError] ("int too large to convert to float") when the rounded
    value is not finite. *)
Definition int_to_float (z : Z) : result float :=
  match Z2SF z with
  | S754_infinity _ => Raise OverflowError
  | sf => Ok (SF2Prim sf)
  end.

(** Conversion of an operand of a float operation. *)
Definition to_float (n : num) : result float :=
  match n with
  | PyInt z => int_to_float z
  | PyFloat f => Ok f
  end.

(** Truth value: a number is false exactly when it equals zero
    ([-0.0] is false, [nan] is true). *)
Definition float_truthy (f : float) : bool := negb (f =? 0)%float.

Definition truthy (n : num) : bool :=
  match n with
  | PyInt z => negb (z =? 0)
  | PyFloat f => float_truthy f
  end.

(** The exact comparison of an int with a float.  Python compares the
    mathematical values, without converting the int to a float; against
    an infinity only the sign of the infinity matters, and a comparison
    with [nan] has no result. *)
Definition sf_scaled (s : bool) (m : positive) (e : Z) : Z :=
  cond_Zopp s (Z.pos m * 2 ^ Z.max 0 e).

Definition int_compare_float (z : Z) (f : float) : option comparison :=
  match Prim2SF f with
  | S754_nan => None
  | S754_infinity s => Some (if s then Gt else Lt)
  | S754_zero _ => Some (z ?= 0)
  | S754_finite s m e => Some (z * 2 ^ Z.max 0 (- e) ?= sf_scaled s m e)
  end.

Definition float_compare_int (f : float) (z : Z) : option comparison :=
  option_map CompOpp (int_compare_float z f).

(** [a < b] *)
Definition lt (a b : num) : bool :=
  match a, b with
  | PyInt x, PyInt y => x <? y
  | PyFloat x, PyFloat y => (x <? y)%float
  | PyInt x, PyFloat y =>
      match int_compare_float x y with Some Lt => true | _ => false end
  | PyFloat x, PyInt y =>
      match float_compare_int x y with Some Lt => true | _ => false end
  end.

(** [a > b] is evaluated as [b < a]. *)
Definition gt (a b : num) : bool := lt b a.

(** [a <= b] *)
Definition le (a b : num) : bool :=
  match a, b with
  | PyInt x, PyInt y => x <=? y
  | PyFloat x, PyFloat y => (x <=? y)%float
  | PyInt x, PyFloat y =>
      match int_compare_float x y with Some (Lt | Eq) => true | _ => false end
  | PyFloat x, PyInt y =>
      match float_compare_int x y with Some (Lt | Eq) => true | _ => false end
  end.

(** [a - b]: exact on ints, binary64 as soon as one operand is a float. *)
Definition sub (a b : num) : result num :=
  match a, b with
  | PyInt x, PyInt y => Ok (PyInt (x - y))
  | _, _ => x ← to_float a; y ← to_float b; Ok (PyFloat (x - y)%float)
  end.

(** [x / y] on floats: [ZeroDivisionError] on a zero divisor, otherwise
    the IEEE quotient (which may be infinite or [nan]: no error). *)
Definition float_div (x y : float) : result float :=
  if (y =? 0)%float then Raise ZeroDivisionError else Ok (x / y)%float.

(** The correctly rounded quotient of two integers, [b > 0]. *)
Definition Zdiv2SF (a b : Z) : spec_float :=
  match a with
  | Z0 => S754_zero false
  | _ =>
      let '(q, e, l) := SFdiv_core_binary prec emax (Z.abs a) 0 b 0 in
      binary_round_aux prec emax (a <? 0) q e l
  end.

(** [a / b] (true division).  Two ints give the correctly rounded
    quotient, [OverflowError] when it is out of range; otherwise both
    operands are converted to float first. *)
Definition truediv (a b : num) : result num :=
  match a, b with
  | PyInt x, PyInt y =>
      if y =? 0 then Raise ZeroDivisionError
      else
        match Zdiv2SF (x * Z.sgn y) (Z.abs y) with
        | S754_infinity _ => Raise OverflowError
        | sf => Ok (PyFloat (SF2Prim sf))
        end
  | _, _ =>
      x ← to_float a; y ← to_float b;
      q ← float_div x y; Ok (PyFloat q)
  end.

(** *** Decimal rendering *)

(** [m * 2^e * 10^nd] rounded to the nearest integer, ties to even. *)
Definition round_half_even (num den : Z) : Z :=
  let q := num / den in
  let r := num mod den in
  match 2 * r ?= den with
  | Lt => q
  | Gt => q + 1
  | Eq => if Z.even q then q else q + 1
  end.

Definition scaled_digits (nd : Z) (m : positive) (e : Z) : Z :=
  round_half_even (Z.pos m * 10 ^ nd * 2 ^ Z.max 0 e) (2 ^ Z.max 0 (- e)).

Definition digit_char (d : Z) : ascii :=
  ascii_of_nat (48 + Z.to_nat d).

(** The decimal digits of a non-negative integer, most significant first;
    [fuel] bounds the number of digits produced. *)
Fixpoint digits_of (fuel : nat) (z : Z) (acc : string) : string :=
  match fuel with
  | O => acc
  | S fuel' =>
      let acc' := String (digit_char (z mod 10)) acc in
      if z <? 10 then acc' else digits_of fuel' (z / 10) acc'
  end.

Definition string_of_nonneg (z : Z) : string :=
  digits_of (S (Z.to_nat (Z.log2 z))) z "".

(** [format(f, ".1f")] for a float: the exact binary value rounded to one
    decimal, ties to even; the sign is kept even when the digits are all
    zero. *)
Definition float_format_1f (f : float) : string :=
  match Prim2SF f with
  | S754_nan => "nan"
  | S754_infinity s => if s then "-inf" else "inf"
  | S754_zero s => if s then "-0.0" else "0.0"
  | S754_finite s m e =>
      let t := scaled_digits 1 m e in
      (if s then "-" else "") ++ string_of_nonneg (t / 10) ++ "."
        ++ String (digit_char (t mod 10)) ""
  end.

(** [f"{n:.1f}"]: an int is converted to float first. *)
Definition format_1f (n : num) : result string :=
  f ← to_float n; Ok (float_format_1f f).

(** [round(f, nd)] for a float and [nd] decimals (1 or 2 in this code):
    the decimal rendering with [nd] decimals, read back as the nearest
    float. Infinities and [nan] are returned unchanged. *)
Definition float_round (f : float) (nd : Z) : float :=
  match Prim2SF f with
  | S754_finite s m e =>
      match scaled_digits nd m e with
      | Z0 => if s then (-0)%float else 0%float
      | t =>
          let '(q, e', l) := SFdiv_core_binary prec emax t 0 (10 ^ nd) 0 in
          SF2Prim (binary_round_aux prec emax s q e' l)
      end
  | _ => f
  end.

(** [round(n, nd)] with [nd >= 0]: an int is returned as it is. *)
Definition round (n : num) (nd : Z) : num :=
  match n with
  | PyInt z => PyInt z
  | PyFloat f => PyFloat (float_round f nd)
  end.

(** [int(f)]: truncation toward zero; [nan] and the infinities raise. *)
Definition float_to_int (f : float) : result Z :=
  match Prim2SF f with
  | S754_nan => Raise ValueError
  | S754_infinity _ => Raise OverflowError
  | S754_zero _ => Ok 0
  | S754_finite s m e =>
      Ok (cond_Zopp s (Z.pos m * 2 ^ Z.max 0 e / 2 ^ Z.max 0 (- e)))
  end.

End PyNum.

Import PyNum.

(** ** Text helpers used on the probe output *)

(** The text that the code takes apart, the output of the probe, is a
    Python [str]: a sequence of Unicode code points.  Text that the
    code only builds or passes on is a [string]. *)
Definition text : Type := list N.

(** The text of a literal of ASCII characters. *)
Definition text_of (s : string) : text :=
  map N_of_ascii (list_ascii_of_string s).

Definition comma : N := 44%N.

(** The code points [str.strip()] removes, those for which
    [str.isspace()] holds: U+0009 to U+000D, U+001C to U+0020, U+0085,
    U+00A0, U+1680, U+2000 to U+200A, U+2028, U+2029, U+202F, U+205F
    and U+3000. *)
Definition is_space (c : N) : bool :=
  ((9 <=? c) && (c <=? 13) || (28 <=? c) && (c <=? 32)
   || (c =? 133) || (c =? 160) || (c =? 5760)
   || (8192 <=? c) && (c <=? 8202)
   || (c =? 8232) || (c =? 8233) || (c =? 8239) || (c =? 8287)
   || (c =? 12288))%N.

Fixpoint lstrip (s : text) : text :=
  match s with
  | c :: s' => if is_space c then lstrip s' else s
  | [] => []
  end.

(** Drops the trailing blanks: a blank is kept only when a character that
    is not blank follows it. *)
Fixpoint rstrip (s : text) : text :=
  match s with
  | c :: s' =>
      match rstrip s' with
      | [] => if is_space c then [] else [c]
      | t => c :: t
      end
  | [] => []
  end.

(** [s.strip()] *)
Definition strip (s : text) : text := rstrip (lstrip s).

(** [s.split(sep)] for a one-character separator: never empty, the pieces
    between consecutive separators, empty pieces included. *)
Fixpoint split (sep : N) (s : text) : list text :=
  match s with
  | [] => [[]]
  | c :: s' =>
      if (c =? sep)%N then [] :: split sep s'
      else
        match split sep s' with
        | piece :: pieces => (c :: piece) :: pieces
        | [] => [[c]]
        end
  end.

(** The truth value of a text: false when empty. *)
Definition text_truthy (s : text) : bool :=
  match s with [] => false | _ => true end.

Definition str_truthy (s : string) : bool :=
  match s with EmptyString => false | _ => true end.

(** ** The counter source: values returned by the OS queries *)

(** [psutil.net_io_counters()]: cumulative network counters. *)
Record snetio : Type := {
  bytes_sent : Z;
  bytes_recv : Z;
  packets_sent : Z;
  packets_recv : Z
}.

(** [psutil.disk_io_counters()]: cumulative disk counters. *)
Record sdiskio : Type := {
  read_bytes : Z;
  write_bytes : Z
}.

(** [psutil.virtual_memory()] *)
Record svmem : Type := {
  vm_total : Z;
  vm_used : Z;
  vm_available : Z;
  vm_percent : float
}.

(** [psutil.disk_usage('/')] *)
Record sdiskusage : Type := {
  du_total : Z;
  du_used : Z;
  du_free : Z;
  du_percent : float
}.

(** [psutil.cpu_freq()] *)
Record scpufreq : Type := { freq_current : float }.

(** [psutil.sensors_battery()] *)
Record sbattery : Type := {
  batt_percent : num;
  batt_power_plugged : option bool
}.

(** A device object of [GPUtil.getGPUs()]; reading an attribute may raise. *)
Record GPU : Type := {
  gpu_name : result text;
  gpu_load : result float;
  gpu_memoryUsed : result float;
  gpu_memoryTotal : result float;
  gpu_temperature : result float
}.

(** What [subprocess.run(..., capture_output=True, text=True)] returns. *)
Record CompletedProcess : Type := {
  returncode : Z;
  stdout : text
}.

(** [p.info] of a process yielded by [psutil.process_iter(attrs=...)]:
    an attribute that could not be read is [None]. *)
Record pmem : Type := { rss : Z }.

Record pinfo : Type := {
  info_pid : option Z;
  info_name : option string;
  info_cpu_percent : option float;
  info_memory_info : option pmem
}.

(** ** The rate state [_prev] *)

(** The module-level dictionary [_prev], keys ["net"], ["disk"], ["ts"];
    each is [None] until a sample has been stored, and a counter read
    that answered [None] is stored as [None]. *)
Record RateState : Type := {
  prev_net : option snetio;
  prev_disk : option sdiskio;
  prev_ts : option float
}.

(** [_prev] as the module creates it (lines 17-21). *)
Definition initial_prev : RateState :=
  {| prev_net := None; prev_disk := None; prev_ts := None |}.

(** ** Results *)

(** The dictionary returned by [safe_gpu_info]. *)
Record GpuInfo : Type := {
  g_name : text;
  g_load_percent : float;
  g_memory_used_mb : float;
  g_memory_total_mb : float;
  g_temperature_c : option float
}.

(** One entry of [get_top_processes]. *)
Record ProcessEntry : Type := {
  pid : option Z;
  name : string;
  cpu_percent : num;
  memory_mb : num
}.

(** One entry of the ["interfaces"] mapping. *)
Record NicSummary : Type := {
  nic_bytes_sent : Z;
  nic_bytes_recv : Z;
  nic_packets_sent : Z;
  nic_packets_recv : Z
}.

Record BatteryInfo : Type := {
  b_percent : num;
  b_plugged : bool
}.

Record SysInfo : Type := {
  s_hostname : string;
  s_os : string;
  s_os_version : string;
  s_platform : string;
  s_machine : string;
  s_processor : string;
  s_python_version : string;
  s_boot_time : float;
  s_uptime_seconds : Z
}.

(** The four rates; [None] is Python's [None]. *)
Record Rates : Type := {
  upload_bps : option float;
  download_bps : option float;
  read_bps : option float;
  write_bps : option float
}.

Record HumanSizes : Type := {
  h_total : string;
  h_used : string;
  h_avail : string
}.

(** The payload passed to [jsonify] (lines 195-237). *)
Record Payload : Type := {
  p_timestamp : float;
  p_cpu_percent : float;
  p_cpu_per_core : list float;
  p_cpu_frequency_ghz : option float;
  p_cpu_logical_cores : option Z;
  p_cpu_physical_cores : option Z;
  p_mem_total_bytes : Z;
  p_mem_used_bytes : Z;
  p_mem_available_bytes : Z;
  p_mem_percent : float;
  p_mem_human : HumanSizes;
  p_disk_total_bytes : Z;
  p_disk_used_bytes : Z;
  p_disk_free_bytes : Z;
  p_disk_percent : float;
  p_disk_read_bps : option float;
  p_disk_write_bps : option float;
  p_disk_human : HumanSizes;
  p_net_interfaces : gmap string NicSummary;
  p_net_upload_bps : option float;
  p_net_download_bps : option float;
  p_gpu : option GpuInfo;
  p_processes_top : list ProcessEntry;
  p_battery : option BatteryInfo;
  p_system : SysInfo
}.

(** ** The environment of one request *)

(** What each external query answers during one call of [stats], in the
    order the code asks.  A query that raises is a [Raise].  The two
    counter reads answer [None] on a host without network interface or
    without disk; the process enumeration yields its processes, each
    with attributes that can be read or not, or raises. *)
Record World : Type := {
  time_time : float;                         (* line 99 *)
  cpu_percent_total : result float;          (* line 101 *)
  cpu_percent_percpu : result (list float);  (* line 102 *)
  cpu_freq : result (option scpufreq);       (* line 103 *)
  virtual_memory : result svmem;             (* line 107 *)
  disk_usage : result sdiskusage;            (* line 114 *)
  net_io_counters : result (option snetio);    (* line 121 *)
  disk_io_counters : result (option sdiskio);  (* line 122 *)
  net_io_counters_pernic : result (gmap string snetio);  (* line 150 *)
  getGPUs : result (list GPU);               (* line 27 *)
  nvidia_smi : result CompletedProcess;      (* line 42 *)
  process_iter : result (list (result pinfo));  (* line 63 *)
  sensors_battery : result (option sbattery);  (* line 169 *)
  platform_node : string;
  platform_system : string;
  platform_version : string;
  platform_platform : string;
  platform_machine : string;
  platform_processor : string;
  platform_python_version : string;
  boot_time : float;
  time_time_uptime : float;                  (* line 191 *)
  cpu_count_logical : option Z;
  cpu_count_physical : option Z
}.

(** ** [safe_gpu_info] (lines 24-58) *)

(** The external queries [safe_gpu_info] makes, recorded in call order. *)
Inductive gpu_call : Type :=
| CallGetGPUs     (* GPUtil.getGPUs() *)
| CallNvidiaSmi.  (* subprocess.run(["nvidia-smi", ...], timeout=1) *)

(** [hasattr(obj, attr)]: false on [AttributeError], any other exception
    of the attribute read propagates. *)
Definition hasattr {A : Type} (attr : result A) : result bool :=
  match attr with
  | Ok _ => Ok true
  | Raise AttributeError => Ok false
  | Raise e => Raise e
  end.

(** The body of the first [try] (lines 27-36): [Ok None] when it falls
    through because the device list is empty. *)
Definition gpu_primary (w : World) : result (option GpuInfo) :=
  gpus ← getGPUs w;
  match gpus with
  | gpu :: _ =>
      nm ← gpu_name gpu;
      load ← gpu_load gpu;
      used ← gpu_memoryUsed gpu;
      total ← gpu_memoryTotal gpu;
      has ← hasattr (gpu_temperature gpu);
      temp ← (if has : bool then t ← gpu_temperature gpu; Ok (Some t)
              else Ok None);
      Ok (Some {| g_name := nm;
                  g_load_percent := float_round (load * 100)%float 1;
                  g_memory_used_mb := float_round used 1;
                  g_memory_total_mb := float_round total 1;
                  g_temperature_c := temp |})
  | [] => Ok None
  end.

Section Probe.

(** [float(s)] on a text, a function of the Python runtime. *)
Variable float_of_str : text -> result float.

(** The body of the second [try] (lines 42-54). *)
Definition gpu_probe (w : World) : result (option GpuInfo) :=
  p ← nvidia_smi w;
  if (returncode p =? 0) && text_truthy (strip (stdout p)) then
    let parts := map strip (split comma (stdout p)) in
    if (5 <=? length parts)%nat then
      load ← float_of_str (nth 1 parts []);
      used ← float_of_str (nth 2 parts []);
      total ← float_of_str (nth 3 parts []);
      temp ← float_of_str (nth 4 parts []);
      Ok (Some {| g_name := nth 0 parts [];
                  g_load_percent := load;
                  g_memory_used_mb := used;
                  g_memory_total_mb := total;
                  g_temperature_c := Some temp |})
    else Ok None
  else Ok None.

(** [safe_gpu_info()], with the external queries it made. *)
Definition safe_gpu_info (w : World) : option GpuInfo * list gpu_call :=
  match try_except (gpu_primary w) None with
  | Some info => (Some info, [CallGetGPUs])
  | None => (try_except (gpu_probe w) None, [CallGetGPUs; CallNvidiaSmi])
  end.

End Probe.

(** ** [get_top_processes] (lines 61-78) *)

(** [x or default] on an optional value with a truth test. *)
Definition or_default {A B : Type} (truth : A -> bool) (inj : A -> B)
    (x : option A) (default : B) : B :=
  match x with
  | Some a => if truth a then inj a else default
  | None => default
  end.

(** The body of the [try] for one process whose [info] was read
    (lines 66-72). *)
Definition proc_entry (info : pinfo) : result ProcessEntry :=
  mem_mb ← match info_memory_info info with
            | Some mi => truediv (PyInt (rss mi)) (PyInt (1024 * 1024))
            | None => Ok (PyInt 0)
            end;
  Ok {| pid := info_pid info;
        name := or_default str_truthy id (info_name info) "";
        cpu_percent :=
          round (or_default float_truthy PyFloat (info_cpu_percent info)
                   (PyInt 0)) 1;
        memory_mb := round mem_mb 1 |}.

(** The body of the loop of lines 63-74 over the processes the
    enumeration yields: an entry is appended for each process whose
    attributes could be read; the others are passed over. *)
Fixpoint collect_procs (ps : list (result pinfo)) : list ProcessEntry :=
  match ps with
  | [] => []
  | p :: ps' =>
      match info ← p; proc_entry info with
      | Ok entry => entry :: collect_procs ps'
      | Raise _ => collect_procs ps'
      end
  end.

(** [list.sort(key=key, reverse=True)] on keys that are numbers: a
    stable sort that compares keys with [<] only, each comparison
    reversed.  Written as an insertion sort: an element moves right past
    those with a strictly greater key and stops before the first other
    one.  Where [<] orders the keys, every stable sort returns this
    list; with a [nan] key the result of [list.sort] depends on the
    order in which it compares and is not the one given here, so the
    properties below are stated for keys without [nan]. *)
Fixpoint insert_desc {A : Type} (key : A -> num) (x : A) (l : list A)
    : list A :=
  match l with
  | [] => [x]
  | y :: l' =>
      if lt (key x) (key y) then y :: insert_desc key x l' else x :: l
  end.

Definition sort_desc {A : Type} (key : A -> num) (l : list A) : list A :=
  foldr (insert_desc key) [] l.

(** [l[:n]]: a negative [n] counts from the end. *)
Definition slice_to {A : Type} (l : list A) (n : Z) : list A :=
  if n <? 0 then firstn (length l - Z.to_nat (- n)) l
  else firstn (Z.to_nat n) l.

(** The enumeration of line 63 is consumed outside the [try] of line
    64: when [psutil.process_iter] raises, at the start or between two
    processes, the exception leaves [get_top_processes]. *)
Definition get_top_processes (n : Z)
    (enumeration : result (list (result pinfo)))
    : result (list ProcessEntry) :=
  ps ← enumeration;
  Ok (slice_to (sort_desc cpu_percent (collect_procs ps)) n).

(** ** [bytes_to_human] (lines 81-88) *)

Definition step : float := 1024%float.

Definition units : list string := ["B"; "KB"; "MB"; "GB"; "TB"].

(** The [for] loop over the units still to try, then line 88. *)
Fixpoint bytes_to_human_from (us : list string) (n : num) : result string :=
  match us with
  | unit :: us' =>
      if lt n (PyFloat step) then
        s ← format_1f n; Ok (s ++ " " ++ unit)%string
      else
        n' ← truediv n (PyFloat step); bytes_to_human_from us' n'
  | [] => s ← format_1f n; Ok (s ++ " PB")%string
  end.

Definition bytes_to_human (n : num) : result string :=
  bytes_to_human_from units n.

(** ** [stats] (lines 96-239) *)

(** The values read before the rates are computed (lines 99-122). *)
Record CoreReads : Type := {
  r_cpu_percent : float;
  r_per_core : list float;
  r_cpu_freq_current : option float;
  r_vm : svmem;
  r_disk : sdiskusage;
  r_net_counters : option snetio;
  r_disk_io : option sdiskio
}.

Definition core_reads (w : World) : result CoreReads :=
  cpu ← cpu_percent_total w;
  per_core ← cpu_percent_percpu w;
  freq ← cpu_freq w;
  let freq_current :=
    match freq with
    | Some f => Some (float_round (freq_current f / 1000)%float 2)
    | None => None
    end in
  vm ← virtual_memory w;
  disk ← disk_usage w;
  net ← net_io_counters w;
  disk_io ← disk_io_counters w;
  Ok {| r_cpu_percent := cpu; r_per_core := per_core;
        r_cpu_freq_current := freq_current; r_vm := vm; r_disk := disk;
        r_net_counters := net; r_disk_io := disk_io |}.

(** Line 127: [now - prev_ts if prev_ts else None]. *)
Definition delta_t_of (now : float) (prev_ts : option float) : option float :=
  match prev_ts with
  | Some ts => if float_truthy ts then Some (now - ts)%float else None
  | None => None
  end.

(** The test of lines 134 and 138,
    [prev and prev_ts and delta_t and delta_t > 0]: the stored counters
    (a named tuple, true unless [None]) and the elapsed time when it
    passes. *)
Definition rate_guard {A : Type} (prev : option A)
    (prev_ts delta_t : option float) : option (A * float) :=
  match prev, prev_ts, delta_t with
  | Some p, Some ts, Some d =>
      if float_truthy ts && float_truthy d && gt (PyFloat d) (PyInt 0)
      then Some (p, d) else None
  | _, _, _ => None
  end.

(** [(current - previous) / delta_t] on two int counters. *)
Definition rate (current previous : Z) (delta_t : float) : result float :=
  x ← int_to_float (current - previous); float_div x delta_t.

(** [obj.field] on the answer of a counter read: [None] has no
    attribute. *)
Definition attr {A B : Type} (obj : option A) (field : A -> B) : result B :=
  match obj with
  | Some a => Ok (field a)
  | None => Raise AttributeError
  end.

(** Lines 124-140. *)
Definition compute_rates (st : RateState) (now : float)
    (net_counters : option snetio) (disk_io : option sdiskio)
    : result Rates :=
  let delta_t := delta_t_of now (prev_ts st) in
  net ← match rate_guard (prev_net st) (prev_ts st) delta_t with
         | Some (prev, d) =>
             sent ← attr net_counters bytes_sent;
             up ← rate sent (bytes_sent prev) d;
             recv ← attr net_counters bytes_recv;
             down ← rate recv (bytes_recv prev) d;
             Ok (Some up, Some down)
         | None => Ok (None, None)
         end;
  disk ← match rate_guard (prev_disk st) (prev_ts st) delta_t with
          | Some (prev_disk, d) =>
              read ← attr disk_io read_bytes;
              rd ← rate read (read_bytes prev_disk) d;
              written ← attr disk_io write_bytes;
              wr ← rate written (write_bytes prev_disk) d;
              Ok (Some rd, Some wr)
          | None => Ok (None, None)
          end;
  Ok {| upload_bps := net.1; download_bps := net.2;
        read_bps := disk.1; write_bps := disk.2 |}.

(** Lines 143-145: the sample stored for the next call, the answers of
    the two counter reads as they are. *)
Definition stored_sample (now : float) (net_counters : option snetio)
    (disk_io : option sdiskio) : RateState :=
  {| prev_net := net_counters;
     prev_disk := disk_io;
     prev_ts := Some now |}.

Definition nic_summary (v : snetio) : NicSummary :=
  {| nic_bytes_sent := bytes_sent v;
     nic_bytes_recv := bytes_recv v;
     nic_packets_sent := packets_sent v;
     nic_packets_recv := packets_recv v |}.

(** Lines 148-159: one summary per interface name, and the empty
    mapping when the enumeration raises. *)
Definition net_interfaces (w : World) : gmap string NicSummary :=
  match net_io_counters_pernic w with
  | Ok pernic => nic_summary <$> pernic
  | Raise _ => ∅
  end.

(** Lines 168-179; [bool(None)] is [False]. *)
Definition battery_info (w : World) : option BatteryInfo :=
  try_except
    (batt ← sensors_battery w;
     Ok (match batt with
         | Some b => Some {| b_percent := round (batt_percent b) 1;
                             b_plugged := default false (batt_power_plugged b) |}
         | None => None
         end))
    None.

Definition human_sizes (total used avail : Z) : result HumanSizes :=
  t ← bytes_to_human (PyInt total);
  u ← bytes_to_human (PyInt used);
  a ← bytes_to_human (PyInt avail);
  Ok {| h_total := t; h_used := u; h_avail := a |}.

Section Stats.

Variable float_of_str : text -> result float.

(** Lines 147-239, after [_prev] has been updated. *)
Definition compose (w : World) (rd : CoreReads) (rates : Rates)
    : result Payload :=
  let net_if := net_interfaces w in
  let gpu := (safe_gpu_info float_of_str w).1 in
  top_procs ← get_top_processes 5 (process_iter w);
  let battery := battery_info w in
  uptime ← float_to_int (time_time_uptime w - boot_time w)%float;
  let sysinfo :=
    {| s_hostname := platform_node w; s_os := platform_system w;
       s_os_version := platform_version w;
       s_platform := platform_platform w;
       s_machine := platform_machine w;
       s_processor := platform_processor w;
       s_python_version := platform_python_version w;
       s_boot_time := boot_time w; s_uptime_seconds := uptime |} in
  let vm := r_vm rd in
  let disk := r_disk rd in
  mem_human ← human_sizes (vm_total vm) (vm_used vm) (vm_available vm);
  disk_human ← human_sizes (du_total disk) (du_used disk) (du_free disk);
  Ok {| p_timestamp := time_time w;
        p_cpu_percent := float_round (r_cpu_percent rd) 1;
        p_cpu_per_core := map (fun x => float_round x 1) (r_per_core rd);
        p_cpu_frequency_ghz := r_cpu_freq_current rd;
        p_cpu_logical_cores := cpu_count_logical w;
        p_cpu_physical_cores := cpu_count_physical w;
        p_mem_total_bytes := vm_total vm;
        p_mem_used_bytes := vm_used vm;
        p_mem_available_bytes := vm_available vm;
        p_mem_percent := vm_percent vm;
        p_mem_human := mem_human;
        p_disk_total_bytes := du_total disk;
        p_disk_used_bytes := du_used disk;
        p_disk_free_bytes := du_free disk;
        p_disk_percent := du_percent disk;
        p_disk_read_bps := read_bps rates;
        p_disk_write_bps := write_bps rates;
        p_disk_human := disk_human;
        p_net_interfaces := net_if;
        p_net_upload_bps := upload_bps rates;
        p_net_download_bps := download_bps rates;
        p_gpu := gpu;
        p_processes_top := top_procs;
        p_battery := battery;
        p_system := sysinfo |}.

(** One request, under the lock: the response (or the exception that
    ends the request) and [_prev] afterwards.  [_prev] is written once,
    at lines 143-145, after every statement before them has completed. *)
Definition stats (w : World) (st : RateState) : result Payload * RateState :=
  let now := time_time w in
  match core_reads w with
  | Raise e => (Raise e, st)
  | Ok rd =>
      match compute_rates st now (r_net_counters rd) (r_disk_io rd) with
      | Raise e => (Raise e, st)
      | Ok rates =>
          (compose w rd rates,
           stored_sample now (r_net_counters rd) (r_disk_io rd))
      end
  end.

(** A sequence of requests served one after the other. *)
Fixpoint serve (ws : list World) (st : RateState)
    : list (result Payload) * RateState :=
  match ws with
  | [] => ([], st)
  | w :: ws' =>
      let '(r, st') := stats w st in
      let '(rs, st'') := serve ws' st' in
      (r :: rs, st'')
  end.

End Stats.

(** ** Notions used to state the properties *)

(** A mantissa of exactly 53 bits with an exponent in the range of the
    normal binary64 numbers. *)
Definition normal53 (m : positive) (e : Z) : Prop :=
  2 ^ 52 <= Z.pos m < 2 ^ 53 /\ -1074 <= e <= 971.

(** The four rates all absent. *)
Definition no_rates : Rates :=
  {| upload_bps := None; download_bps := None;
     read_bps := None; write_bps := None |}.

(** No rate can be computed: nothing is stored yet, or the elapsed time
    [now - prev_ts] is not positive. *)
Definition not_computable (st : RateState) (now : float) : Prop :=
  prev_ts st = None
  \/ (prev_net st = None /\ prev_disk st = None)
  \/ exists ts, prev_ts st = Some ts
                /\ le (PyFloat (now - ts)%float) (PyInt 0) = true.

(** The range of a cumulative byte counter of the operating system. *)
Definition counter_ok (z : Z) : Prop := 0 <= z < 2 ^ 64.

(** The answer of a counter read is a tuple of counters, each in
    range. *)
Definition net_in_range (c : option snetio) : Prop :=
  match c with
  | Some c => counter_ok (bytes_sent c) /\ counter_ok (bytes_recv c)
  | None => False
  end.

Definition disk_in_range (c : option sdiskio) : Prop :=
  match c with
  | Some c => counter_ok (read_bytes c) /\ counter_ok (write_bytes c)
  | None => False
  end.

(** The counters stored in [_prev], if any, are in range. *)
Definition state_in_range (st : RateState) : Prop :=
  (forall c, prev_net st = Some c -> net_in_range (Some c))
  /\ (forall c, prev_disk st = Some c -> disk_in_range (Some c)).

(** [_prev] after each request of a sequence served in order. *)
Fixpoint states_after (float_of_str : text -> result float)
    (ws : list World) (st : RateState) : list RateState :=
  match ws with
  | [] => []
  | w :: ws' =>
      let st' := (stats float_of_str w st).2 in
      st' :: states_after float_of_str ws' st'
  end.

(** The same environment with another answer to
    [psutil.net_io_counters(pernic=True)]. *)
Definition with_pernic (r : result (gmap string snetio)) (w : World) : World :=
  {| time_time := time_time w;
     cpu_percent_total := cpu_percent_total w;
     cpu_percent_percpu := cpu_percent_percpu w;
     cpu_freq := cpu_freq w;
     virtual_memory := virtual_memory w;
     disk_usage := disk_usage w;
     net_io_counters := net_io_counters w;
     disk_io_counters := disk_io_counters w;
     net_io_counters_pernic := r;
     getGPUs := getGPUs w;
     nvidia_smi := nvidia_smi w;
     process_iter := process_iter w;
     sensors_battery := sensors_battery w;
     platform_node := platform_node w;
     platform_system := platform_system w;
     platform_version := platform_version w;
     platform_platform := platform_platform w;
     platform_machine := platform_machine w;
     platform_processor := platform_processor w;
     platform_python_version := platform_python_version w;
     boot_time := boot_time w;
     time_time_uptime := time_time_uptime w;
     cpu_count_logical := cpu_count_logical w;
     cpu_count_physical := cpu_count_physical w |}.

(** *** Sample environments *)

(** A [float()] for requests that never reach the probe output. *)
Definition no_float_parser : text -> result float :=
  fun _ => Raise ValueError.

(** A host without GPU, battery, interface list or visible process, whose
    clock reads [now] and whose counters read [net] and [disk]. *)
Definition plain_host (now : float) (net : snetio) (disk : sdiskio) : World :=
  {| time_time := now;
     cpu_percent_total := Ok 0%float;
     cpu_percent_percpu := Ok [];
     cpu_freq := Ok None;
     virtual_memory :=
       Ok {| vm_total := 0; vm_used := 0; vm_available := 0;
             vm_percent := 0%float |};
     disk_usage :=
       Ok {| du_total := 0; du_used := 0; du_free := 0;
             du_percent := 0%float |};
     net_io_counters := Ok (Some net);
     disk_io_counters := Ok (Some disk);
     net_io_counters_pernic := Ok ∅;
     getGPUs := Ok [];
     nvidia_smi := Raise OSError;
     process_iter := Ok [];
     sensors_battery := Ok None;
     platform_node := ""; platform_system := ""; platform_version := "";
     platform_platform := ""; platform_machine := "";
     platform_processor := ""; platform_python_version := "";
     boot_time := 0%float;
     time_time_uptime := now;
     cpu_count_logical := None;
     cpu_count_physical := None |}.

Definition net_sample (sent recv : Z) : snetio :=
  {| bytes_sent := sent; bytes_recv := recv;
     packets_sent := 0; packets_recv := 0 |}.

Definition disk_sample (rd wr : Z) : sdiskio :=
  {| read_bytes := rd; write_bytes := wr |}.

(** One of the queries of lines 101-122 raises. *)
Definition core_read_fails (w : World) : Prop :=
  is_ok (cpu_percent_total w) && is_ok (cpu_percent_percpu w)
  && is_ok (cpu_freq w) && is_ok (virtual_memory w) && is_ok (disk_usage w)
  && is_ok (net_io_counters w) && is_ok (disk_io_counters w) = false.

(** *** Byte formatting, in exact arithmetic *)

(** The six unit names, in the order the code tries them. *)
Definition all_units : list string := units ++ ["PB"].

(** The index of the first of the five units B..TB at which the byte
    count divided by [1024^k] is below 1024, and 5 (PB) when there is
    none. *)
Fixpoint unit_index_from (fuel k : nat) (n : Z) : nat :=
  match fuel with
  | O => k
  | S fuel' =>
      if n <? 1024 * 1024 ^ Z.of_nat k then k
      else unit_index_from fuel' (S k) n
  end.

Definition unit_index (n : Z) : nat := unit_index_from 5 0 n.

(** A float divided [k] times by [1024.0]. *)
Fixpoint scale_down (k : nat) (f : float) : float :=
  match k with
  | O => f
  | S k' => scale_down k' (f / step)%float
  end.

(** A non-negative number of tenths written with one decimal. *)
Definition decimal_1 (tenths : Z) : string :=
  string_of_nonneg (tenths / 10) ++ "." ++ String (digit_char (tenths mod 10)) "".

(** The number of divisions the loop makes on a positive normal float of
    exponent [e] before it is below 1024 or the units are used up. *)
Fixpoint steps_from (us : list string) (e : Z) : nat :=
  match us with
  | [] => O
  | _ :: us' => if e <? -42 then O else S (steps_from us' (e - 10))
  end.

(** *** GPU resolution *)

(** The primary source yields no device, or raises. *)
Definition primary_empty_or_raises (w : World) : Prop :=
  getGPUs w = Ok [] \/ exists e, getGPUs w = Raise e.

(** The fields of the probe output. *)
Definition probe_parts (p : CompletedProcess) : list text :=
  map strip (split comma (stdout p)).

(** The probe gives no data: it raises (command missing, timeout), exits
    with a non-zero code, prints nothing, prints fewer than five fields,
    or one of the four numeric fields is not a number. *)
Definition probe_unusable (float_of_str : text -> result float)
    (w : World) : Prop :=
  (exists e, nvidia_smi w = Raise e)
  \/ exists p, nvidia_smi w = Ok p
       /\ (returncode p <> 0
           \/ strip (stdout p) = []
           \/ (length (probe_parts p) < 5)%nat
           \/ exists i, (1 <= i <= 4)%nat
                /\ is_ok (float_of_str (nth i (probe_parts p) [])) = false).

(** *** The order of Python numbers *)

(** The mathematical value of a number, scaled by [2^1074] so that the
    value of every finite float is an integer. *)
Inductive ext : Type :=
| NegInf
| Fin (z : Z)
| PosInf.

Definition ext_compare (a b : ext) : comparison :=
  match a, b with
  | NegInf, NegInf => Eq
  | NegInf, _ => Lt
  | Fin _, NegInf => Gt
  | Fin x, Fin y => x ?= y
  | Fin _, PosInf => Lt
  | PosInf, PosInf => Eq
  | PosInf, _ => Gt
  end.

Definition sf_value (sf : spec_float) : option ext :=
  match sf with
  | S754_nan => None
  | S754_infinity s => Some (if s then NegInf else PosInf)
  | S754_zero _ => Some (Fin 0)
  | S754_finite s m e => Some (Fin (cond_Zopp s (Z.pos m * 2 ^ (e + 1074))))
  end.

(** [None] for [nan], which has no place in the order. *)
Definition value (n : num) : option ext :=
  match n with
  | PyInt z => Some (Fin (z * 2 ^ 1074))
  | PyFloat f => sf_value (Prim2SF f)
  end.

(** Two keys that compare equal: neither is below the other. *)
Definition tied (a b : num) : bool := negb (lt a b) && negb (lt b a).

(** The CPU reading of a process is a number. *)
Definition cpu_reading_ok (p : result pinfo) : Prop :=
  match p with
  | Ok info =>
      match info_cpu_percent info with
      | Some f => is_nan f = false
      | None => True
      end
  | Raise _ => True
  end.

(** The attributes of a process could be read and turned into an entry. *)
Definition readable (p : result pinfo) : bool :=
  is_ok (info ← p; proc_entry info).

(** The entries whose key is a number, not [nan]. *)
Definition keyed {A : Type} (key : A -> num) (a : A) : Prop :=
  is_Some (value (key a)).

(** [b] may follow [a] in a list sorted greatest first: the key of [b]
    is at most the key of [a]. *)
Definition ge_key {A : Type} (key : A -> num) (a b : A) : Prop :=
  le (key b) (key a) = true.

(** A process with all its attributes readable. *)
Definition sample_process (id : Z) (cpu : float) : pinfo :=
  {| info_pid := Some id; info_name := Some "worker";
     info_cpu_percent := Some cpu;
     info_memory_info := Some {| rss := 3 * 1024 * 1024 |} |}.

(** ** Concurrent requests (lines 14 and 98) *)

(** Where the thread of a request stands in [stats]. *)
Inductive phase : Type :=
| Waiting                                   (* before [with lock:] *)
| Entered                                   (* lock taken, line 99 next *)
| Sampled (rd : CoreReads) (rates : Rates)  (* lines 99-140 done *)
| Leaving (r : result Payload)              (* lines 143-239 done, or an
                                               exception on its way out *)
| Finished (r : result Payload).            (* lock released *)

(** The process: [_prev], the state of [lock], the phase of the thread
    of each request, and the order in which the threads took the lock
    (kept to state the properties; no step reads it). *)
Record config : Type := {
  shared : RateState;
  locked : bool;
  phases : list phase;
  order : list nat
}.

Definition init_config (n : nat) (st0 : RateState) : config :=
  {| shared := st0; locked := false;
     phases := replicate n Waiting; order := [] |}.

(** The thread is between taking and releasing the lock. *)
Definition inside (p : phase) : bool :=
  match p with
  | Entered | Sampled _ _ | Leaving _ => true
  | Waiting | Finished _ => false
  end.

(** One step of one thread; thread [i] serves the request whose
    environment is [ws !! i].  The reads of [_prev] (lines 124-126) and
    its writes (lines 143-145) are separate steps: what keeps another
    thread from running between them is the lock, not the model. *)
Inductive thread_step (float_of_str : text -> result float) (ws : list World)
    (c : config) : config -> Prop :=
| step_acquire i :
    phases c !! i = Some Waiting -> locked c = false ->
    thread_step float_of_str ws c
      {| shared := shared c; locked := true;
         phases := <[i := Entered]> (phases c);
         order := (order c ++ [i])%list |}
| step_sample i w rd rates :
    phases c !! i = Some Entered -> ws !! i = Some w ->
    core_reads w = Ok rd ->
    compute_rates (shared c) (time_time w) (r_net_counters rd) (r_disk_io rd)
    = Ok rates ->
    thread_step float_of_str ws c
      {| shared := shared c; locked := locked c;
         phases := <[i := Sampled rd rates]> (phases c);
         order := order c |}
| step_raise i w e :
    phases c !! i = Some Entered -> ws !! i = Some w ->
    (rd ← core_reads w;
     compute_rates (shared c) (time_time w) (r_net_counters rd) (r_disk_io rd))
    = Raise e ->
    thread_step float_of_str ws c
      {| shared := shared c; locked := locked c;
         phases := <[i := Leaving (Raise e)]> (phases c);
         order := order c |}
| step_update i w rd rates :
    phases c !! i = Some (Sampled rd rates) -> ws !! i = Some w ->
    thread_step float_of_str ws c
      {| shared := stored_sample (time_time w) (r_net_counters rd)
                     (r_disk_io rd);
         locked := locked c;
         phases := <[i := Leaving (compose float_of_str w rd rates)]> (phases c);
         order := order c |}
| step_release i r :
    phases c !! i = Some (Leaving r) ->
    thread_step float_of_str ws c
      {| shared := shared c; locked := false;
         phases := <[i := Finished r]> (phases c);
         order := order c |}.

(** The environments of the requests of the threads [l], in that order. *)
Definition worlds_of (ws : list World) (l : list nat) : list World :=
  omap (fun i => ws !! i) l.

(** What the thread holding the lock has done so far agrees with one
    call of [stats] on the state [st] it found. *)
Definition holder_ok (float_of_str : text -> result float) (c : config)
    (h : nat) (w : World) (st : RateState) : Prop :=
  match phases c !! h with
  | Some Entered => shared c = st
  | Some (Sampled rd rates) =>
      shared c = st /\ core_reads w = Ok rd
      /\ compute_rates st (time_time w) (r_net_counters rd) (r_disk_io rd)
         = Ok rates
  | Some (Leaving r) => (r, shared c) = stats float_of_str w st
  | _ => False
  end.

(** The process looks as if the threads of [done] had run [stats] one
    after the other, in that order, and the threads of [cur] (at most
    one) had started after them. *)
Definition serialized (float_of_str : text -> result float)
    (ws : list World) (st0 : RateState) (c : config)
    (done cur : list nat) : Prop :=
  length (phases c) = length ws
  /\ order c = (done ++ cur)%list
  /\ NoDup (order c)
  /\ (forall i, i ∉ order c -> (i < length ws)%nat ->
        phases c !! i = Some Waiting)
  /\ (forall k i, done !! k = Some i ->
        exists w r, ws !! i = Some w
          /\ (serve float_of_str (worlds_of ws done) st0).1 !! k = Some r
          /\ phases c !! i = Some (Finished r))
  /\ match cur with
     | [] => locked c = false
             /\ shared c = (serve float_of_str (worlds_of ws done) st0).2
     | [h] => locked c = true
              /\ exists w, ws !! h = Some w
                   /\ holder_ok float_of_str c h w
                        (serve float_of_str (worlds_of ws done) st0).2
     | _ => False
     end.

(** Two requests on a plain host: the clock reads 2 and then 3. *)
Definition two_requests : list World :=
  [plain_host 2 (net_sample 3000 2500) (disk_sample 4608 1024);
   plain_host 3 (net_sample 5000 2600) (disk_sample 8704 1024)].

(** The process after the first thread has answered its request and the
    second one has taken the lock. *)
Definition second_entered : config :=
  {| shared := stored_sample 2 (Some (net_sample 3000 2500))
                 (Some (disk_sample 4608 1024));
     locked := true;
     phases :=
       [Finished (stats no_float_parser
                    (plain_host 2 (net_sample 3000 2500)
                       (disk_sample 4608 1024)) initial_prev).1;
        Entered];
     order := [0%nat; 1%nat] |}.

(** *** Further notions *)

(** The [__main__] block (lines 241-246): the baseline stored before the
    server starts, from one read of each counter and of the clock. *)
Definition main_baseline (w : World) : result RateState :=
  net ← net_io_counters w;
  disk ← disk_io_counters w;
  Ok (stored_sample (time_time w) net disk).

(** Two environments that differ at most in the optional sources: the
    interface list, the GPU library, the probe, the battery, and the
    processes that the enumeration yields with their attributes, but not
    in whether the enumeration completes. *)
Definition same_core (w w' : World) : Prop :=
  is_ok (process_iter w) = is_ok (process_iter w')
  /\ time_time w = time_time w'
  /\ cpu_percent_total w = cpu_percent_total w'
  /\ cpu_percent_percpu w = cpu_percent_percpu w'
  /\ cpu_freq w = cpu_freq w'
  /\ virtual_memory w = virtual_memory w'
  /\ disk_usage w = disk_usage w'
  /\ net_io_counters w = net_io_counters w'
  /\ disk_io_counters w = disk_io_counters w'
  /\ boot_time w = boot_time w'
  /\ time_time_uptime w = time_time_uptime w'.

(** The resident set size of every process that was read is in the range
    of a 64-bit byte count. *)
Definition rss_in_range (p : result pinfo) : Prop :=
  match p with
  | Ok info =>
      match info_memory_info info with
      | Some mi => 0 <= rss mi < 2 ^ 64
      | None => True
      end
  | Raise _ => True
  end.

(** The number of occurrences of a code point in a text. *)
Fixpoint count_char (c : N) (s : text) : nat :=
  match s with
  | [] => O
  | c' :: s' => (if (c' =? c)%N then 1 else 0) + count_char c s'
  end.

(** A field of the first device cannot be read: an attribute raises, the
    temperature with anything but [AttributeError]. *)
Definition gpu_field_raises (g : GPU) : Prop :=
  is_ok (gpu_name g) = false \/ is_ok (gpu_load g) = false
  \/ is_ok (gpu_memoryUsed g) = false \/ is_ok (gpu_memoryTotal g) = false
  \/ exists e, gpu_temperature g = Raise e /\ e <> AttributeError.

(** The steps a thread still has to make. *)
Definition steps_left (p : phase) : nat :=
  match p with
  | Waiting => 4
  | Entered => 3
  | Sampled _ _ => 2
  | Leaving _ => 1
  | Finished _ => 0
  end.

Definition finished (p : phase) : Prop :=
  match p with Finished _ => True | _ => False end.

(** The sizes of memory and disk that a request renders are 64-bit byte
    counts. *)
Definition sizes_in_range (rd : CoreReads) : Prop :=
  counter_ok (vm_total (r_vm rd)) /\ counter_ok (vm_used (r_vm rd))
  /\ counter_ok (vm_available (r_vm rd))
  /\ counter_ok (du_total (r_disk rd)) /\ counter_ok (du_used (r_disk rd))
  /\ counter_ok (du_free (r_disk rd)).

(** A float that is a number: neither [nan] nor an infinity. *)
Definition is_number (f : float) : Prop :=
  match Prim2SF f with
  | S754_nan | S754_infinity _ => False
  | _ => True
  end.

(** The same environment with another boot time. *)
Definition with_boot_time (b : float) (w : World) : World :=
  {| time_time := time_time w;
     cpu_percent_total := cpu_percent_total w;
     cpu_percent_percpu := cpu_percent_percpu w;
     cpu_freq := cpu_freq w;
     virtual_memory := virtual_memory w;
     disk_usage := disk_usage w;
     net_io_counters := net_io_counters w;
     disk_io_counters := disk_io_counters w;
     net_io_counters_pernic := net_io_counters_pernic w;
     getGPUs := getGPUs w;
     nvidia_smi := nvidia_smi w;
     process_iter := process_iter w;
     sensors_battery := sensors_battery w;
     platform_node := platform_node w;
     platform_system := platform_system w;
     platform_version := platform_version w;
     platform_platform := platform_platform w;
     platform_machine := platform_machine w;
     platform_processor := platform_processor w;
     platform_python_version := platform_python_version w;
     boot_time := b;
     time_time_uptime := time_time_uptime w;
     cpu_count_logical := cpu_count_logical w;
     cpu_count_physical := cpu_count_physical w |}.

(** The host of the examples: the sample stored at clock [1.0] and the
    request at clock [3.0]. *)
Definition earlier_sample : RateState :=
  stored_sample 1 (Some (net_sample 1000 2000)) (Some (disk_sample 512 0)).

Definition later_host : World :=
  plain_host 3 (net_sample 3000 2500) (disk_sample 4608 1024).

(** The same environment with every optional source failing: the
    interface enumeration, the GPU library, the probe, the attribute
    read of each process that is yielded and the battery sensor
    raise. *)
Definition without_optionals (w : World) : World :=
  {| time_time := time_time w;
     cpu_percent_total := cpu_percent_total w;
     cpu_percent_percpu := cpu_percent_percpu w;
     cpu_freq := cpu_freq w;
     virtual_memory := virtual_memory w;
     disk_usage := disk_usage w;
     net_io_counters := net_io_counters w;
     disk_io_counters := disk_io_counters w;
     net_io_counters_pernic := Raise OSError;
     getGPUs := Raise OSError;
     nvidia_smi := Raise OSError;
     process_iter :=
       match process_iter w with
       | Ok ps => Ok (map (fun _ => Raise OSError) ps)
       | Raise e => Raise e
       end;
     sensors_battery := Raise OSError;
     platform_node := platform_node w;
     platform_system := platform_system w;
     platform_version := platform_version w;
     platform_platform := platform_platform w;
     platform_machine := platform_machine w;
     platform_processor := platform_processor w;
     platform_python_version := platform_python_version w;
     boot_time := boot_time w;
     time_time_uptime := time_time_uptime w;
     cpu_count_logical := cpu_count_logical w;
     cpu_count_physical := cpu_count_physical w |}.

(** A host like [plain_host] at clock [3.0] whose GPU library and probe
    answer [gpus] and [smi]. *)
Definition gpu_host (gpus : result (list GPU))
    (smi : result CompletedProcess) : World :=
  {| time_time := 3%float;
     cpu_percent_total := Ok 0%float;
     cpu_percent_percpu := Ok [];
     cpu_freq := Ok None;
     virtual_memory :=
       Ok {| vm_total := 0; vm_used := 0; vm_available := 0;
             vm_percent := 0%float |};
     disk_usage :=
       Ok {| du_total := 0; du_used := 0; du_free := 0;
             du_percent := 0%float |};
     net_io_counters := Ok (Some (net_sample 0 0));
     disk_io_counters := Ok (Some (disk_sample 0 0));
     net_io_counters_pernic := Ok ∅;
     getGPUs := gpus;
     nvidia_smi := smi;
     process_iter := Ok [];
     sensors_battery := Ok None;
     platform_node := ""; platform_system := ""; platform_version := "";
     platform_platform := ""; platform_machine := "";
     platform_processor := ""; platform_python_version := "";
     boot_time := 0%float;
     time_time_uptime := 3%float;
     cpu_count_logical := None;
     cpu_count_physical := None |}.

(** A device whose [load] attribute cannot be read. *)
Definition broken_gpu : GPU :=
  {| gpu_name := Ok (text_of "RTX 3080"); gpu_load := Raise OSError;
     gpu_memoryUsed := Ok 1024%float; gpu_memoryTotal := Ok 8192%float;
     gpu_temperature := Ok 45%float |}.

(** A line of probe output, with a no-break space before the name and
    the line feed at the end, and a [float()] that knows its numbers. *)
Definition probe_line : CompletedProcess :=
  {| returncode := 0;
     stdout :=
       (160%N :: text_of "RTX 3080, 35, 1024, 8192, 45" ++ [10%N])%list |}.

Definition sample_float_of_str (s : text) : result float :=
  if decide (s = text_of "35") then Ok 35%float
  else if decide (s = text_of "1024") then Ok 1024%float
  else if decide (s = text_of "8192") then Ok 8192%float
  else if decide (s = text_of "45") then Ok 45%float
  else Raise ValueError.

(** The steps all threads together still have to make. *)
Definition remaining (c : config) : nat :=
  sum_list (steps_left <$> phases c).

(** The same environment with another answer of the process
    enumeration. *)
Definition with_process_iter (r : result (list (result pinfo))) (w : World)
    : World :=
  {| time_time := time_time w;
     cpu_percent_total := cpu_percent_total w;
     cpu_percent_percpu := cpu_percent_percpu w;
     cpu_freq := cpu_freq w;
     virtual_memory := virtual_memory w;
     disk_usage := disk_usage w;
     net_io_counters := net_io_counters w;
     disk_io_counters := disk_io_counters w;
     net_io_counters_pernic := net_io_counters_pernic w;
     getGPUs := getGPUs w;
     nvidia_smi := nvidia_smi w;
     process_iter := r;
     sensors_battery := sensors_battery w;
     platform_node := platform_node w;
     platform_system := platform_system w;
     platform_version := platform_version w;
     platform_platform := platform_platform w;
     platform_machine := platform_machine w;
     platform_processor := platform_processor w;
     platform_python_version := platform_python_version w;
     boot_time := boot_time w;
     time_time_uptime := time_time_uptime w;
     cpu_count_logical := cpu_count_logical w;
     cpu_count_physical := cpu_count_physical w |}.

(** The same environment with other answers of the two counter
    reads. *)
Definition with_counters (net : option snetio) (disk : option sdiskio)
    (w : World) : World :=
  {| time_time := time_time w;
     cpu_percent_total := cpu_percent_total w;
     cpu_percent_percpu := cpu_percent_percpu w;
     cpu_freq := cpu_freq w;
     virtual_memory := virtual_memory w;
     disk_usage := disk_usage w;
     net_io_counters := Ok net;
     disk_io_counters := Ok disk;
     net_io_counters_pernic := net_io_counters_pernic w;
     getGPUs := getGPUs w;
     nvidia_smi := nvidia_smi w;
     process_iter := process_iter w;
     sensors_battery := sensors_battery w;
     platform_node := platform_node w;
     platform_system := platform_system w;
     platform_version := platform_version w;
     platform_platform := platform_platform w;
     platform_machine := platform_machine w;
     platform_processor := platform_processor w;
     platform_python_version := platform_python_version w;
     boot_time := boot_time w;
     time_time_uptime := time_time_uptime w;
     cpu_count_logical := cpu_count_logical w;
     cpu_count_physical := cpu_count_physical w |}.

(** * Properties *)

(** ** Binary64 arithmetic: rounding, division by 1024, comparison *)

Lemma digits2_pos_bounds (m : positive) :
  2 ^ (Z.pos (digits2_pos m) - 1) <= Z.pos m < 2 ^ Z.pos (digits2_pos m).
Proof.
  induction m as [m IH|m IH|]; cbn [digits2_pos].
  - rewrite Pos2Z.inj_succ. replace (Z.succ (Z.pos (digits2_pos m)) - 1) with (Z.succ (Z.pos (digits2_pos m) - 1)) by lia.
    rewrite !Z.pow_succ_r by lia. lia.
  - rewrite Pos2Z.inj_succ. replace (Z.succ (Z.pos (digits2_pos m)) - 1) with (Z.succ (Z.pos (digits2_pos m) - 1)) by lia.
    rewrite !Z.pow_succ_r by lia. lia.
  - cbn. lia.
Qed.

Lemma digits2_pos_unique (m : positive) (d : Z) :
  2 ^ (d - 1) <= Z.pos m < 2 ^ d -> Z.pos (digits2_pos m) = d.
Proof.
  intros [Hlo Hhi]. pose proof (digits2_pos_bounds m) as [Blo Bhi].
  assert (0 < d).
  { destruct (Z.lt_trichotomy d 0) as [Hn|[Hz|Hp]]; [|subst d; cbn in Hhi; lia|lia].
    rewrite (Z.pow_neg_r 2 d) in Hhi by lia. lia. }
  destruct (Z.lt_trichotomy (Z.pos (digits2_pos m)) d) as [Hl|[He|Hg]]; [|exact He|].
  - assert (2 ^ Z.pos (digits2_pos m) <= 2 ^ (d - 1)) by (apply Z.pow_le_mono_r; lia). lia.
  - assert (2 ^ d <= 2 ^ (Z.pos (digits2_pos m) - 1)) by (apply Z.pow_le_mono_r; lia). lia.
Qed.

Lemma iter_pos_nat {A} (f : A -> A) (p : positive) (x : A) :
  SpecFloat.iter_pos f p x = Nat.iter (Pos.to_nat p) f x.
Proof.
  revert x. induction p as [p IH|p IH|]; intros x; cbn [SpecFloat.iter_pos].
  - rewrite !IH, Pos2Nat.inj_xI.
    replace (S (2 * Pos.to_nat p)) with (Pos.to_nat p + S (Pos.to_nat p))%nat by lia.
    now rewrite Nat.iter_add, Nat.iter_succ_r.
  - rewrite !IH, Pos2Nat.inj_xO.
    replace (2 * Pos.to_nat p)%nat with (Pos.to_nat p + Pos.to_nat p)%nat by lia.
    now rewrite Nat.iter_add.
  - reflexivity.
Qed.

Lemma shr_1_m (r : shr_record) : 0 <= shr_m r -> shr_m (shr_1 r) = shr_m r / 2.
Proof.
  destruct r as [m b s]. cbn [shr_m]. intros Hm.
  destruct m as [|[p|p|]|p]; cbn [shr_1 shr_m]; try lia;
    solve [ reflexivity | apply Z.div_unique with 1; lia
          | apply Z.div_unique with 0; lia ].
Qed.

Lemma shr_iter_m (k : nat) (r : shr_record) :
  0 <= shr_m r -> shr_m (Nat.iter k shr_1 r) = shr_m r / 2 ^ Z.of_nat k.
Proof.
  intros Hm. induction k as [|k IH].
  - cbn. now rewrite Z.div_1_r.
  - rewrite Nat.iter_succ, shr_1_m.
    + rewrite IH. rewrite Nat2Z.inj_succ, Z.pow_succ_r by lia.
      rewrite Z.div_div by lia. f_equal. lia.
    + rewrite IH. apply Z.div_pos; lia.
Qed.

Lemma Zdigits2_unique (m d : Z) :
  0 < m -> 2 ^ (d - 1) <= m < 2 ^ d -> Zdigits2 m = d.
Proof.
  destruct m as [|p|p]; try lia. intros _ H. cbn [Zdigits2].
  now apply digits2_pos_unique.
Qed.

Lemma shr_spec (mrs : shr_record) (e n : Z) :
  0 <= shr_m mrs -> 0 <= n ->
  exists r', shr mrs e n = (r', e + n) /\ shr_m r' = shr_m mrs / 2 ^ n
             /\ (n = 0 -> r' = mrs).
Proof.
  intros Hm Hn. destruct n as [|p|p]; try lia; cbn [shr].
  - exists mrs. rewrite Z.add_0_r, Z.div_1_r. auto.
  - eexists. split; [reflexivity|]. split; [|lia].
    rewrite iter_pos_nat, shr_iter_m by assumption.
    now rewrite positive_nat_Z.
Qed.

Lemma shr_record_of_loc_m (m : Z) (l : location) :
  shr_m (shr_record_of_loc m l) = m.
Proof. destruct l as [|[]]; reflexivity. Qed.

Lemma loc_of_shr_record_of_loc (m : Z) (l : location) :
  loc_of_shr_record (shr_record_of_loc m l) = l.
Proof. destruct l as [|[]]; reflexivity. Qed.

Lemma round_nearest_even_bounds (m : Z) (l : location) :
  m <= round_nearest_even m l <= m + 1.
Proof.
  unfold round_nearest_even. destruct l as [|[]]; try lia.
  destruct (Z.even m); lia.
Qed.

Lemma fexp_normal (x : Z) : -1074 <= x - 53 -> fexp prec emax x = x - 53.
Proof.
  unfold fexp. change (SpecFloat.emin prec emax) with (-1074).
  change prec with 53. lia.
Qed.

(** Rounding a mantissa of at least 53 digits whose exponent stays in the
    normal range: the result has a 53-digit mantissa, or is infinite. *)
Lemma binary_round_aux_normal (s : bool) (mx ex : Z) (l : location) (d : Z) :
  2 ^ (d - 1) <= mx < 2 ^ d -> 53 <= d -> -1074 <= ex + d - 53 ->
  exists m e,
    binary_round_aux prec emax s mx ex l
      = (if e <=? 971 then S754_finite s m e else S754_infinity s)
    /\ 2 ^ 52 <= Z.pos m < 2 ^ 53
    /\ ex + d - 53 <= e <= ex + d - 52
    /\ (d = 53 -> l = loc_Exact -> Z.pos m = mx /\ e = ex).
Proof.
  intros Hmx Hd He.
  assert (Hpos : 0 < mx).
  { assert (0 < 2 ^ (d - 1)) by (apply Z.pow_pos_nonneg; lia). lia. }
  unfold binary_round_aux, shr_fexp.
  rewrite (Zdigits2_unique mx d Hpos Hmx).
  rewrite fexp_normal by lia.
  destruct (shr_spec (shr_record_of_loc mx l) ex (d + ex - 53 - ex))
    as (r0 & -> & Hr0 & Hr0'); [rewrite shr_record_of_loc_m; lia|lia|].
  rewrite shr_record_of_loc_m in Hr0.
  replace (d + ex - 53 - ex) with (d - 53) in * by lia.
  set (m0 := shr_m r0) in *. set (l0 := loc_of_shr_record r0).
  assert (Hm0 : 2 ^ 52 <= m0 < 2 ^ 53).
  { rewrite Hr0. replace (2 ^ (d - 1)) with (2 ^ 52 * 2 ^ (d - 53)) in Hmx
      by (rewrite <- Z.pow_add_r by lia; f_equal; lia).
    replace (2 ^ d) with (2 ^ 53 * 2 ^ (d - 53)) in Hmx
      by (rewrite <- Z.pow_add_r by lia; f_equal; lia).
    assert (0 < 2 ^ (d - 53)) by (apply Z.pow_pos_nonneg; lia).
    split; [apply Z.div_le_lower_bound; lia|apply Z.div_lt_upper_bound; lia]. }
  pose proof (round_nearest_even_bounds m0 l0) as Hm1.
  assert (Hexact : d = 53 -> l = loc_Exact -> round_nearest_even m0 l0 = mx).
  { intros -> ->. subst m0 l0. rewrite (Hr0' eq_refl).
    now rewrite loc_of_shr_record_of_loc, shr_record_of_loc_m. }
  set (m1 := round_nearest_even m0 l0) in *.
  destruct (Z.eq_dec m1 (2 ^ 53)) as [E|NE].
  - (* the rounding carried: one more shift *)
    rewrite (Zdigits2_unique m1 54) by (rewrite E; cbn; lia).
    rewrite fexp_normal by lia.
    replace (54 + (ex + (d - 53)) - 53 - (ex + (d - 53))) with 1 by lia.
    rewrite E. cbn [shr_record_of_loc shr SpecFloat.iter_pos shr_1 shr_m Z.pow Z.pow_pos Pos.iter Z.mul Pos.mul].
    exists (4503599627370496%positive), (ex + (d - 53) + 1).
    change (emax - prec) with 971.
    split; [reflexivity|]. split; [cbn; lia|]. split; [lia|].
    intros Hd53 Hl. specialize (Hexact Hd53 Hl). subst d. lia.
  - rewrite (Zdigits2_unique m1 53) by (cbn; lia).
    rewrite fexp_normal by lia.
    replace (53 + (ex + (d - 53)) - 53 - (ex + (d - 53))) with 0 by lia.
    cbn [shr]. rewrite shr_record_of_loc_m.
    destruct m1 as [|p1|p1] eqn:Em1; try lia.
    exists p1, (ex + (d - 53)). change (emax - prec) with 971.
    split; [reflexivity|]. split; [lia|]. split; [lia|].
    intros Hd53 Hl. specialize (Hexact Hd53 Hl). lia.
Qed.

Lemma pos_iter_xO (p k : positive) :
  Z.pos (Pos.iter xO p k) = Z.pos p * 2 ^ Z.pos k.
Proof.
  induction k as [|k IH] using Pos.peano_ind.
  - cbn. lia.
  - rewrite Pos.iter_succ, Pos2Z.inj_xO, IH, Pos2Z.inj_succ, Z.pow_succ_r by lia.
    lia.
Qed.

Lemma normal53_valid (s : bool) (m : positive) (e : Z) :
  normal53 m e -> valid_binary (S754_finite s m e) = true.
Proof.
  intros [Hm He]. cbn [SpecFloat.valid_binary]. unfold bounded, canonical_mantissa.
  rewrite (digits2_pos_unique m 53) by (cbn; lia).
  rewrite fexp_normal by lia. change (emax - prec) with 971.
  apply andb_true_intro. split; [apply Z.eqb_eq|apply Z.leb_le]; lia.
Qed.

Lemma normal53_Prim2SF (s : bool) (m : positive) (e : Z) :
  normal53 m e ->
  Prim2SF (SF2Prim (S754_finite s m e)) = S754_finite s m e.
Proof. intros H. apply Prim2SF_SF2Prim, normal53_valid, H. Qed.

(** The float nearest to a non-zero integer: a normal number, or out of
    range; exact when the integer has at most 53 bits. *)
Lemma binary_round_int (s : bool) (p : positive) :
  let d := Z.pos (digits2_pos p) in
  exists m e,
    binary_round prec emax s p 0
      = (if e <=? 971 then S754_finite s m e else S754_infinity s)
    /\ 2 ^ 52 <= Z.pos m < 2 ^ 53
    /\ d - 53 <= e <= d - 52
    /\ (d <= 53 -> Z.pos m = Z.pos p * 2 ^ (53 - d) /\ e = d - 53).
Proof.
  intros d. subst d. pose proof (digits2_pos_bounds p) as Hp.
  unfold binary_round, shl_align.
  remember (Z.pos (digits2_pos p)) as d eqn:Hd.
  assert (0 < d) by lia.
  rewrite fexp_normal by lia. rewrite Z.add_0_r, Z.sub_0_r.
  destruct (d - 53) as [|k|k] eqn:Ek.
  - destruct (binary_round_aux_normal s (Z.pos p) 0 loc_Exact d)
      as (m & e & -> & Hm & He & Hx); try lia.
    assert (Hd53 : d = 53) by lia.
    destruct (Hx Hd53 eq_refl) as [Hx1 Hx2].
    exists m, e. split; [reflexivity|]. split; [lia|]. split; [lia|].
    intros _. replace (53 - d) with 0 by lia. lia.
  - destruct (binary_round_aux_normal s (Z.pos p) 0 loc_Exact d)
      as (m & e & -> & Hm & He & Hx); try lia.
    exists m, e. split; [reflexivity|]. split; [lia|]. split; [lia|]. lia.
  - assert (Hk : Z.pos k = 53 - d) by lia.
    assert (Hmz : 2 ^ (53 - 1) <= Z.pos (Pos.iter xO p k) < 2 ^ 53).
    { rewrite pos_iter_xO, Hk.
      replace (2 ^ (53 - 1)) with (2 ^ (d - 1) * 2 ^ (53 - d))
        by (rewrite <- Z.pow_add_r by lia; f_equal; lia).
      replace (2 ^ 53) with (2 ^ d * 2 ^ (53 - d))
        by (rewrite <- Z.pow_add_r by lia; f_equal; lia).
      assert (0 < 2 ^ (53 - d)) by (apply Z.pow_pos_nonneg; lia). nia. }
    destruct (binary_round_aux_normal s (Z.pos (Pos.iter xO p k)) (Z.neg k)
                loc_Exact 53) as (m & e & -> & Hm & He & Hx); try lia.
    destruct Hx as [Hx1 Hx2]; try reflexivity.
    exists m, e. rewrite pos_iter_xO, Hk in Hx1.
    split; [reflexivity|]. split; [lia|]. split; lia.
Qed.

Lemma xorb_false_r' (s : bool) : xorb s false = s.
Proof. now destruct s. Qed.

(** Dividing a normal number by 1024 only lowers its exponent. *)
Lemma SF64div_step (s : bool) (m : positive) (e : Z) :
  2 ^ 52 <= Z.pos m < 2 ^ 53 -> -1063 <= e <= 971 ->
  SF64div (S754_finite s m e) (Prim2SF step) = S754_finite s m (e - 10).
Proof.
  intros Hm He.
  change (Prim2SF step) with (S754_finite false 4503599627370496 (-42)).
  assert (Hdig : digits2_pos m = 53%positive).
  { pose proof (digits2_pos_unique m 53) as Hu. cbn in Hu.
    specialize (Hu ltac:(lia)). congruence. }
  unfold SF64div, SFdiv, SFdiv_core_binary. cbn [Zdigits2].
  rewrite Hdig. change (Z.pos (digits2_pos 4503599627370496)) with 53.
  rewrite fexp_normal by lia.
  replace (Z.min (53 + e - (53 + -42) - 53) (e - -42)) with (e - 11) by lia.
  replace (e - -42 - (e - 11)) with 53 by lia.
  assert (Hdiv : Z.div_eucl (Z.shiftl (Z.pos m) 53) 4503599627370496
                 = (Z.pos m~0, 0)).
  { rewrite Z.shiftl_mul_pow2 by lia.
    pose proof (Z.div_eucl_eq (Z.pos m * 2 ^ 53) 4503599627370496 ltac:(lia)) as Heq.
    pose proof (Z.mod_pos_bound (Z.pos m * 2 ^ 53) 4503599627370496 ltac:(lia)) as Hb.
    unfold Z.modulo in Hb.
    destruct (Z.div_eucl (Z.pos m * 2 ^ 53) 4503599627370496) as [q r].
    assert (r = 0) by lia. subst r. f_equal. lia. }
  rewrite Hdiv. change (new_location 4503599627370496 0) with loc_Exact.
  rewrite xorb_false_r'.
  unfold binary_round_aux, shr_fexp. cbn [Zdigits2 digits2_pos shr_record_of_loc].
  rewrite Hdig. change (Z.pos (PosDef.Pos.succ 53)) with 54.
  rewrite fexp_normal by lia.
  replace (54 + (e - 11) - 53 - (e - 11)) with 1 by lia.
  cbn [shr SpecFloat.iter_pos shr_1 shr_m loc_of_shr_record round_nearest_even
       Zdigits2 orb].
  rewrite Hdig, fexp_normal by lia.
  replace (53 + (e - 11 + 1) - 53 - (e - 11 + 1)) with 0 by lia.
  cbn [shr shr_m shr_record_of_loc]. change (emax - prec) with 971.
  replace (e - 11 + 1) with (e - 10) by lia.
  destruct (Z.leb_spec (e - 10) 971); [reflexivity|lia].
Qed.

(** A positive normal number is below 1024 exactly when its exponent is
    below that of 1024. *)
Lemma SFltb_step (m : positive) (e : Z) :
  2 ^ 52 <= Z.pos m < 2 ^ 53 ->
  SFltb (S754_finite false m e) (Prim2SF step) = (e <? -42).
Proof.
  intros Hm.
  change (Prim2SF step) with (S754_finite false 4503599627370496 (-42)).
  unfold SFltb, SFcompare.
  destruct (Z.compare_spec e (-42)) as [->|Hlt|Hgt].
  - rewrite Pos.compare_cont_spec. cbn [Pos.switch_Eq].
    change (-42 <? -42) with false.
    destruct (Pos.compare_spec m 4503599627370496) as [Hc|Hc|Hc]; [reflexivity| |reflexivity].
    exfalso. apply Pos2Z.pos_lt_pos in Hc. change (Z.pos 4503599627370496) with (2 ^ 52) in Hc. lia.
  - symmetry. apply Z.ltb_lt. lia.
  - symmetry. apply Z.ltb_ge. lia.
Qed.

Lemma step_nonzero : (step =? 0)%float = false.
Proof. reflexivity. Qed.


(** ** Truth values and signs of floats *)

Lemma Prim2SF_zero : Prim2SF 0 = S754_zero false.
Proof. reflexivity. Qed.

(** [d > 0] holds only for a [d] that is true as a condition. *)
Lemma gt_zero_truthy (d : float) :
  gt (PyFloat d) (PyInt 0) = true -> float_truthy d = true.
Proof.
  unfold gt, lt, int_compare_float, float_truthy.
  rewrite FloatAxioms.eqb_spec, Prim2SF_zero.
  destruct (Prim2SF d) as [s|s| |s m e]; try destruct s; cbn; congruence.
Qed.

(** [d <= 0] excludes [d > 0]. *)
Lemma le_zero_not_gt (d : float) :
  le (PyFloat d) (PyInt 0) = true -> gt (PyFloat d) (PyInt 0) = false.
Proof.
  unfold gt, lt, le, float_compare_int.
  destruct (int_compare_float 0 d) as [[]|]; cbn; congruence.
Qed.

(** A float that is false as a condition is not [> 0] either. *)
Lemma falsy_not_gt (d : float) :
  float_truthy d = false -> gt (PyFloat d) (PyInt 0) = false.
Proof.
  intros H. destruct (gt (PyFloat d) (PyInt 0)) eqn:E; [|reflexivity].
  apply gt_zero_truthy in E. congruence.
Qed.

(** ** [float(z)] on integers *)

Lemma log2_digits (p : positive) :
  Z.log2 (Z.pos p) + 1 = Z.pos (digits2_pos p).
Proof.
  symmetry. apply digits2_pos_unique.
  pose proof (Z.log2_spec (Z.pos p) ltac:(lia)) as Hl.
  replace (Z.log2 (Z.pos p) + 1 - 1) with (Z.log2 (Z.pos p)) by lia.
  replace (Z.log2 (Z.pos p) + 1) with (Z.succ (Z.log2 (Z.pos p))) by lia.
  exact Hl.
Qed.

(** The conversion of a non-zero integer of [d] bits rounds it to a
    53-bit mantissa [m] and an exponent [e] of [d - 53] or [d - 52]; it
    raises [OverflowError] when [e] exceeds 971 and returns the normal
    float [m * 2^e], of the sign of the integer, otherwise.  Up to 53
    bits the conversion is exact. *)
Lemma int_to_float_nonzero (z : Z) :
  z <> 0 ->
  let d := Z.log2 (Z.abs z) + 1 in
  exists m e,
    2 ^ 52 <= Z.pos m < 2 ^ 53
    /\ d - 53 <= e <= d - 52
    /\ (d <= 53 -> Z.pos m = Z.abs z * 2 ^ (53 - d) /\ e = d - 53)
    /\ ((int_to_float z = Raise OverflowError /\ 971 < e) \/
        ((exists f, int_to_float z = Ok f
                    /\ Prim2SF f = S754_finite (z <? 0) m e) /\ e <= 971)).
Proof.
  intros Hz d.
  set (conv := fun x : spec_float =>
                 match x with
                 | S754_zero s => Ok (SF2Prim (S754_zero s))
                 | S754_infinity _ => Raise OverflowError
                 | S754_nan => Ok (SF2Prim S754_nan)
                 | S754_finite s m e => Ok (SF2Prim (S754_finite s m e))
                 end).
  assert (Hgen : forall s p, d = Z.pos (digits2_pos p) ->
    exists m e,
      2 ^ 52 <= Z.pos m < 2 ^ 53
      /\ d - 53 <= e <= d - 52
      /\ (d <= 53 -> Z.pos m = Z.pos p * 2 ^ (53 - d) /\ e = d - 53)
      /\ ((conv (binary_round prec emax s p 0) = Raise OverflowError
           /\ 971 < e) \/
          ((exists f, conv (binary_round prec emax s p 0) = Ok f
                      /\ Prim2SF f = S754_finite s m e) /\ e <= 971))).
  { intros s p Hd.
    destruct (binary_round_int s p) as (m & e & -> & Hm & He & Hx).
    rewrite <- Hd in He, Hx.
    assert (0 < d) by lia.
    exists m, e. split; [exact Hm|]. split; [exact He|]. split; [exact Hx|].
    destruct (Z.leb_spec e 971) as [Hle|Hgt];
      [right|left; split; [reflexivity|lia]].
    split; [|exact Hle].
    exists (SF2Prim (S754_finite s m e)). split; [reflexivity|].
    apply normal53_Prim2SF. split; lia. }
  unfold int_to_float, Z2SF, binary_normalize.
  destruct z as [|p|p]; [congruence| |]; cbn [Z.abs Z.ltb Z.compare].
  - apply (Hgen false p). unfold d. cbn [Z.abs]. apply log2_digits.
  - apply (Hgen true p). unfold d. cbn [Z.abs]. apply log2_digits.
Qed.

Lemma int_to_float_zero : int_to_float 0 = Ok 0%float.
Proof. reflexivity. Qed.

(** Every integer below [2^1023] in magnitude has a float. *)
Lemma int_to_float_ok (z : Z) :
  Z.abs z < 2 ^ 1023 -> exists f, int_to_float z = Ok f.
Proof.
  intros Hz. destruct (Z.eq_dec z 0) as [->|Hnz].
  - eexists. apply int_to_float_zero.
  - destruct (int_to_float_nonzero z Hnz)
      as (m & e & _ & He & _ & [[_ Hov]|[(f & Hf & _) _]]); [|now exists f].
    assert (Z.log2 (Z.abs z) < 1023) by (apply Z.log2_lt_pow2; lia).
    lia.
Qed.

(** ** Sequencing of fallible computations *)

Lemma bind_Ok_inv {A B : Type} (r : result A) (k : A -> result B) (b : B) :
  (r ≫= k) = Ok b -> exists a, r = Ok a /\ k a = Ok b.
Proof. destruct r as [a|e]; [eauto|discriminate]. Qed.

Lemma bind_Raise_inv {A B : Type} (r : result A) (k : A -> result B) (e : exn) :
  (r ≫= k) = Raise e ->
  r = Raise e \/ exists a, r = Ok a /\ k a = Raise e.
Proof. destruct r as [a|e']; [eauto|intros [= ->]; auto]. Qed.

Lemma bind_Ok_l {A B : Type} (a : A) (k : A -> result B) :
  (Ok a ≫= k) = k a.
Proof. reflexivity. Qed.

Lemma bind_Raise_l {A B : Type} (e : exn) (k : A -> result B) :
  (Raise e ≫= k) = Raise e.
Proof. reflexivity. Qed.

Lemma is_ok_false {A : Type} (r : result A) :
  is_ok r = false -> exists e, r = Raise e.
Proof. destruct r; [discriminate|eauto]. Qed.

(** ** The rate tracker inside [stats] *)

Section StatsProperties.

Variable float_of_str : text -> result float.

(** The rates and the human-readable sizes are the only parts of
    [compose] that depend on its arguments [rates]. *)
Lemma compose_rates (w : World) (rd : CoreReads) (rates : Rates) (p : Payload) :
  compose float_of_str w rd rates = Ok p ->
  p_net_upload_bps p = upload_bps rates
  /\ p_net_download_bps p = download_bps rates
  /\ p_disk_read_bps p = read_bps rates
  /\ p_disk_write_bps p = write_bps rates.
Proof.
  unfold compose. intros H.
  apply bind_Ok_inv in H as (top & _ & H).
  apply bind_Ok_inv in H as (up & _ & H).
  apply bind_Ok_inv in H as (mh & _ & H).
  apply bind_Ok_inv in H as (dh & _ & H).
  injection H as <-. cbn. auto.
Qed.

Lemma rate_guard_not_computable {A : Type} (prev : option A)
    (st : RateState) (now : float) :
  prev_ts st = None
  \/ prev = None
  \/ (exists ts, prev_ts st = Some ts
                 /\ le (PyFloat (now - ts)%float) (PyInt 0) = true) ->
  rate_guard prev (prev_ts st) (delta_t_of now (prev_ts st)) = None.
Proof.
  unfold rate_guard, delta_t_of.
  intros [Hts|[Hp|(ts & Hts & Hle)]].
  - rewrite Hts. now destruct prev.
  - now rewrite Hp.
  - rewrite Hts. destruct prev as [p|]; [|reflexivity].
    destruct (float_truthy ts); [|reflexivity]. cbn [andb].
    rewrite (le_zero_not_gt _ Hle). now rewrite andb_false_r.
Qed.

Lemma compute_rates_not_computable (st : RateState) (now : float)
    (net : option snetio) (disk : option sdiskio) :
  not_computable st now -> compute_rates st now net disk = Ok no_rates.
Proof.
  intros H. unfold compute_rates.
  rewrite !rate_guard_not_computable; [reflexivity| |];
    destruct H as [H|[[H1 H2]|H]]; auto.
Qed.

(** The difference of two counters in range has a float. *)
Lemma rate_in_range (cur prev : Z) (d : float) :
  counter_ok cur -> counter_ok prev -> float_truthy d = true ->
  exists q, rate cur prev d = Ok q.
Proof.
  unfold counter_ok, rate. intros Hc Hp Hd.
  destruct (int_to_float_ok (cur - prev)) as [x ->].
  - assert (2 ^ 64 < 2 ^ 1023) by (apply Z.pow_lt_mono_r; lia). lia.
  - rewrite bind_Ok_l. unfold float_div. unfold float_truthy in Hd.
    destruct (d =? 0)%float; [discriminate|]. eauto.
Qed.

Lemma rate_guard_truthy {A : Type} (prev : option A) (ts dt : option float)
    (p : A) (d : float) :
  rate_guard prev ts dt = Some (p, d) -> float_truthy d = true.
Proof.
  unfold rate_guard. destruct prev, ts, dt; try discriminate.
  destruct (float_truthy f) eqn:E1, (float_truthy f0) eqn:E2; try discriminate.
  cbn [andb]. destruct (gt (PyFloat f0) (PyInt 0)); [|discriminate].
  intros [= _ <-]. exact E2.
Qed.

Lemma rate_guard_prev {A : Type} (prev : option A) (ts dt : option float)
    (p : A) (d : float) :
  rate_guard prev ts dt = Some (p, d) -> prev = Some p.
Proof.
  unfold rate_guard. destruct prev, ts, dt; try discriminate.
  destruct (_ && _ && _); [|discriminate]. now intros [= <- _].
Qed.

(** Two rates from a counter read that answered a tuple in range. *)
Lemma rate_pair_in_range {A : Type} (obj : A) (f1 f2 : A -> Z)
    (p1 p2 : Z) (d : float) :
  counter_ok (f1 obj) -> counter_ok (f2 obj) ->
  counter_ok p1 -> counter_ok p2 -> float_truthy d = true ->
  exists x y,
    (c1 ← attr (Some obj) f1; a ← rate c1 p1 d;
     c2 ← attr (Some obj) f2; b ← rate c2 p2 d;
     Ok (Some a, Some b)) = Ok (Some x, Some y).
Proof.
  intros H1 H2 Hp1 Hp2 Hd. cbn [attr]. rewrite bind_Ok_l.
  destruct (rate_in_range (f1 obj) p1 d) as [q1 ->]; auto.
  rewrite !bind_Ok_l.
  destruct (rate_in_range (f2 obj) p2 d) as [q2 ->]; auto.
  rewrite bind_Ok_l. eauto.
Qed.

(** With counters in range the rates are computed without error. *)
Lemma compute_rates_in_range (st : RateState) (now : float)
    (net : option snetio) (disk : option sdiskio) :
  state_in_range st -> net_in_range net -> disk_in_range disk ->
  exists rates, compute_rates st now net disk = Ok rates.
Proof.
  intros [Hsn Hsd] Hn Hd. unfold compute_rates.
  destruct net as [net|]; [|contradiction].
  destruct disk as [disk|]; [|contradiction].
  destruct Hn as [Hn1 Hn2]. destruct Hd as [Hd1 Hd2].
  destruct (rate_guard (prev_net st) _ _) as [[pn d]|] eqn:Gn.
  - pose proof (rate_guard_truthy _ _ _ _ _ Gn) as Ht.
    destruct (Hsn pn (rate_guard_prev _ _ _ _ _ Gn)) as [Hp1 Hp2].
    destruct (rate_pair_in_range net bytes_sent bytes_recv
                (bytes_sent pn) (bytes_recv pn) d) as (x & y & ->); auto.
    rewrite bind_Ok_l.
    destruct (rate_guard (prev_disk st) _ _) as [[pd d']|] eqn:Gd.
    + pose proof (rate_guard_truthy _ _ _ _ _ Gd) as Ht'.
      destruct (Hsd pd (rate_guard_prev _ _ _ _ _ Gd)) as [Hq1 Hq2].
      destruct (rate_pair_in_range disk read_bytes write_bytes
                  (read_bytes pd) (write_bytes pd) d') as (x' & y' & ->);
        auto.
      rewrite bind_Ok_l. eauto.
    + rewrite bind_Ok_l. eauto.
  - rewrite bind_Ok_l.
    destruct (rate_guard (prev_disk st) _ _) as [[pd d']|] eqn:Gd.
    + pose proof (rate_guard_truthy _ _ _ _ _ Gd) as Ht'.
      destruct (Hsd pd (rate_guard_prev _ _ _ _ _ Gd)) as [Hq1 Hq2].
      destruct (rate_pair_in_range disk read_bytes write_bytes
                  (read_bytes pd) (write_bytes pd) d') as (x' & y' & ->);
        auto.
      rewrite bind_Ok_l. eauto.
    + rewrite bind_Ok_l. eauto.
Qed.

End StatsProperties.

(** ** Claims on the rate tracker and on [stats] *)

(** Closes a goal about a request that has already failed. *)
Ltac failed_request :=
  cbn [fst snd is_ok mbind result_bind];
  split; [reflexivity|split; [reflexivity|intros ? H; discriminate H]].

Section StatsClaims.

Variable float_of_str : text -> result float.

Lemma core_reads_fails (w : World) :
  core_read_fails w -> exists e, core_reads w = Raise e.
Proof.
  unfold core_read_fails, core_reads. intros H.
  destruct (cpu_percent_total w); [|eauto].
  destruct (cpu_percent_percpu w); [|eauto].
  destruct (cpu_freq w); [|eauto].
  destruct (virtual_memory w); [|eauto].
  destruct (disk_usage w); [|eauto].
  destruct (net_io_counters w); [|eauto].
  destruct (disk_io_counters w); [|eauto].
  discriminate.
Qed.

Lemma stats_ok_state (w : World) (st : RateState) (p : Payload) :
  (stats float_of_str w st).1 = Ok p ->
  exists rd, core_reads w = Ok rd
             /\ (stats float_of_str w st).2
                = stored_sample (time_time w) (r_net_counters rd) (r_disk_io rd).
Proof.
  unfold stats. destruct (core_reads w) as [rd|e]; [|discriminate].
  destruct (compute_rates _ _ _ _); [|discriminate]. eauto.
Qed.

(** C1, at the input where the code departs from it: the stored sample
    was taken when the clock read [0.0] and the clock now reads [2.0], so
    a previous sample exists and the elapsed time is [2.0 > 0]; the test
    [if prev_ts] of line 127 takes the stored [0.0] for a missing
    timestamp and all four returned rates are [None], where the claim
    gives [(3000 - 1000) / 2.0] and the like. *)
Theorem C1_rates_absent_at_zero_timestamp :
  let st := {| prev_net := Some (net_sample 1000 2000);
               prev_disk := Some (disk_sample 512 0);
               prev_ts := Some 0%float |} in
  let w := plain_host 2 (net_sample 3000 2500) (disk_sample 4608 1024) in
  gt (PyFloat (time_time w - 0)%float) (PyInt 0) = true
  /\ exists p, (stats no_float_parser w st).1 = Ok p
               /\ p_net_upload_bps p = None
               /\ p_net_download_bps p = None
               /\ p_disk_read_bps p = None
               /\ p_disk_write_bps p = None.
Proof.
  split; [reflexivity|].
  eexists. split; [vm_compute; reflexivity|]. cbn. auto.
Qed.

Lemma core_reads_counters (w : World) (rd : CoreReads) :
  core_reads w = Ok rd ->
  net_io_counters w = Ok (r_net_counters rd)
  /\ disk_io_counters w = Ok (r_disk_io rd).
Proof.
  unfold core_reads. intros H.
  apply bind_Ok_inv in H as (cpu & _ & H).
  apply bind_Ok_inv in H as (per_core & _ & H).
  apply bind_Ok_inv in H as (freq & _ & H).
  apply bind_Ok_inv in H as (vm & _ & H).
  apply bind_Ok_inv in H as (disk & _ & H).
  apply bind_Ok_inv in H as (net & Hn & H).
  apply bind_Ok_inv in H as (disk_io & Hd & H).
  injection H as <-. auto.
Qed.

(** C2, as amended: once the reads of lines 101-122 have succeeded, the
    sample that lines 143-145 store is the answer of the network counter
    read, the answer of the disk counter read and the clock reading of
    the request.  When no rate is computable (nothing stored yet, or an
    elapsed time [<= 0]) [_prev] becomes that sample and every returned
    rate is absent.  When a rate is computable [_prev] becomes that
    sample exactly when the arithmetic of lines 135-140 does not raise,
    as with counters in the range of the operating system's counters
    and whenever a response is returned; when it raises, the request
    fails with [_prev] as it was. *)
Theorem C2_rates_absent_and_sample_replaced (w : World) (st : RateState)
    (rd : CoreReads) :
  core_reads w = Ok rd ->
  let sample :=
    {| prev_net := r_net_counters rd;
       prev_disk := r_disk_io rd;
       prev_ts := Some (time_time w) |} in
  (net_io_counters w = Ok (prev_net sample)
   /\ disk_io_counters w = Ok (prev_disk sample))
  /\ (not_computable st (time_time w) ->
      stats float_of_str w st = (compose float_of_str w rd no_rates, sample)
      /\ forall p, (stats float_of_str w st).1 = Ok p ->
           p_net_upload_bps p = None /\ p_net_download_bps p = None
           /\ p_disk_read_bps p = None /\ p_disk_write_bps p = None)
  /\ (state_in_range st -> net_in_range (r_net_counters rd) ->
      disk_in_range (r_disk_io rd) ->
      (stats float_of_str w st).2 = sample)
  /\ (forall p, (stats float_of_str w st).1 = Ok p ->
        (stats float_of_str w st).2 = sample)
  /\ (forall rates,
        compute_rates st (time_time w) (r_net_counters rd) (r_disk_io rd)
        = Ok rates ->
        (stats float_of_str w st).2 = sample)
  /\ (forall e,
        compute_rates st (time_time w) (r_net_counters rd) (r_disk_io rd)
        = Raise e ->
        stats float_of_str w st = (Raise e, st)).
Proof.
  intros Hrd sample. split; [exact (core_reads_counters w rd Hrd)|].
  split; [|split; [|split; [|split]]].
  - intros Hnc.
    assert (E : stats float_of_str w st
                = (compose float_of_str w rd no_rates, sample)).
    { unfold stats. rewrite Hrd.
      now rewrite (compute_rates_not_computable _ _ _ _ Hnc). }
    split; [exact E|]. intros p Hp. rewrite E in Hp.
    apply compose_rates in Hp. exact Hp.
  - intros Hst Hn Hd. unfold stats. rewrite Hrd.
    destruct (compute_rates_in_range st (time_time w) _ _ Hst Hn Hd)
      as [rates ->]. reflexivity.
  - intros p Hp. destruct (stats_ok_state w st p Hp) as (rd' & Hrd' & ->).
    rewrite Hrd in Hrd'. now injection Hrd' as <-.
  - intros rates Hr. unfold stats. now rewrite Hrd, Hr.
  - intros e Hr. unfold stats. now rewrite Hrd, Hr.
Qed.

(** C4, as amended: the timestamp stored by a request is the clock
    reading of that request, whatever was stored before; over a sequence
    of answered requests the stored timestamps are the successive clock
    readings, so they are non-decreasing exactly when the clock is. *)
Theorem C4_stored_timestamps_are_clock_readings (ws : list World)
    (st : RateState) :
  Forall (fun r => is_ok r = true) (serve float_of_str ws st).1 ->
  map prev_ts (states_after float_of_str ws st)
  = map (fun w => Some (time_time w)) ws.
Proof.
  revert st. induction ws as [|w ws IH]; intros st; [reflexivity|].
  cbn [serve states_after map].
  destruct (stats float_of_str w st) as [r st'] eqn:E.
  destruct (serve float_of_str ws st') as [rs st''] eqn:E'.
  cbn [fst snd]. intros H. inversion H as [|? ? Hr Hrs]; subst.
  f_equal.
  - destruct r as [p|]; [|discriminate].
    destruct (stats_ok_state w st p) as (rd & _ & Hst); [now rewrite E|].
    rewrite E in Hst. cbn in Hst. now rewrite Hst.
  - apply IH. now rewrite E'.
Qed.

(** C8: whatever the interface enumeration answers, the request succeeds
    or fails as it would have and leaves the same [_prev]; when the
    enumeration raises the ["interfaces"] field of the response is the
    empty mapping, and otherwise it has exactly the enumerated names,
    each with the four counters of its interface. *)
Theorem C8_interfaces_field (w : World) (st : RateState)
    (r : result (gmap string snetio)) :
  let w' := with_pernic r w in
  is_ok (stats float_of_str w' st).1 = is_ok (stats float_of_str w st).1
  /\ (stats float_of_str w' st).2 = (stats float_of_str w st).2
  /\ forall p, (stats float_of_str w' st).1 = Ok p ->
       match r with
       | Raise _ => p_net_interfaces p = ∅
       | Ok pernic =>
           forall k : string,
             p_net_interfaces p !! k
             = (fun v => {| nic_bytes_sent := bytes_sent v;
                            nic_bytes_recv := bytes_recv v;
                            nic_packets_sent := packets_sent v;
                            nic_packets_recv := packets_recv v |})
                 <$> (pernic !! k)
       end.
Proof.
  intros w'. unfold stats.
  change (core_reads w') with (core_reads w).
  change (time_time w') with (time_time w).
  destruct (core_reads w) as [rd|e]; [|failed_request].
  destruct (compute_rates _ _ _ _) as [rates|e];
    [|failed_request].
  cbn [fst snd]. unfold compose.
  change (safe_gpu_info float_of_str w') with (safe_gpu_info float_of_str w).
  change (process_iter w') with (process_iter w).
  change (battery_info w') with (battery_info w).
  destruct (get_top_processes 5 (process_iter w)) as [top|];
    [|failed_request].
  cbn [mbind result_bind].
  change (time_time_uptime w') with (time_time_uptime w).
  change (boot_time w') with (boot_time w).
  destruct (float_to_int _) as [up|]; [|failed_request].
  cbn [mbind result_bind].
  destruct (human_sizes (vm_total _) _ _) as [mh|]; [|failed_request].
  cbn [mbind result_bind].
  destruct (human_sizes (du_total _) _ _) as [dh|]; [|failed_request].
  cbn [mbind result_bind]. split; [reflexivity|]. split; [reflexivity|].
  intros p [= <-]. cbn [p_net_interfaces]. unfold net_interfaces. cbn.
  destruct r as [pernic|e]; [|reflexivity].
  intros k. now rewrite lookup_fmap.
Qed.

(** What can make a request fail after [_prev] was written: the
    process enumeration of line 165, [int()] of the uptime at line 191
    and the renderings of the sizes at lines 210-225. *)
Lemma compose_raises (w : World) (rd : CoreReads) (rates : Rates) (e : exn) :
  compose float_of_str w rd rates = Raise e ->
  process_iter w = Raise e
  \/ float_to_int (time_time_uptime w - boot_time w)%float = Raise e
  \/ human_sizes (vm_total (r_vm rd)) (vm_used (r_vm rd))
       (vm_available (r_vm rd)) = Raise e
  \/ human_sizes (du_total (r_disk rd)) (du_used (r_disk rd))
       (du_free (r_disk rd)) = Raise e.
Proof.
  unfold compose. intros H.
  apply bind_Raise_inv in H as [H|(top & _ & H)].
  { left. unfold get_top_processes in H.
    destruct (process_iter w); cbn [mbind result_bind] in H;
      [discriminate|now injection H as ->]. }
  apply bind_Raise_inv in H as [H|(up & _ & H)]; [auto|].
  apply bind_Raise_inv in H as [H|(mh & _ & H)]; [auto|].
  apply bind_Raise_inv in H as [H|(dh & _ & H)]; [auto|discriminate].
Qed.

(** C9, as amended: when a CPU, memory or disk gauge or a counter read
    of lines 101-122 raises, or when the rate arithmetic of lines
    135-140 raises, the request fails with [_prev] as it was.  A request
    that fails later fails with [_prev] already replaced by its own
    sample; what can raise there is the process enumeration, [int()] of
    the uptime and the rendering of a size. *)
Theorem C9_failed_reads_keep_prev (w : World) (st : RateState) :
  (core_read_fails w
   \/ (exists rd e, core_reads w = Ok rd
         /\ compute_rates st (time_time w) (r_net_counters rd) (r_disk_io rd)
            = Raise e) ->
   exists e, stats float_of_str w st = (Raise e, st))
  /\ (forall rd rates e,
        core_reads w = Ok rd ->
        compute_rates st (time_time w) (r_net_counters rd) (r_disk_io rd)
        = Ok rates ->
        (stats float_of_str w st).1 = Raise e ->
        (stats float_of_str w st).2
        = {| prev_net := r_net_counters rd;
             prev_disk := r_disk_io rd;
             prev_ts := Some (time_time w) |}
        /\ (process_iter w = Raise e
            \/ float_to_int (time_time_uptime w - boot_time w)%float
               = Raise e
            \/ human_sizes (vm_total (r_vm rd)) (vm_used (r_vm rd))
                 (vm_available (r_vm rd)) = Raise e
            \/ human_sizes (du_total (r_disk rd)) (du_used (r_disk rd))
                 (du_free (r_disk rd)) = Raise e))
  /\ (forall e,
        (stats float_of_str w st).1 = Raise e ->
        (stats float_of_str w st).2 = st
        \/ exists rd,
             core_reads w = Ok rd
             /\ (stats float_of_str w st).2
                = {| prev_net := r_net_counters rd;
                     prev_disk := r_disk_io rd;
                     prev_ts := Some (time_time w) |}).
Proof.
  split; [|split].
  - intros [H|(rd & e & Hrd & Hr)]; unfold stats.
    + destruct (core_reads_fails w H) as [e ->]. eauto.
    + rewrite Hrd, Hr. eauto.
  - intros rd rates e Hrd Hr. unfold stats. rewrite Hrd, Hr. cbn [fst snd].
    intros He. split; [reflexivity|]. exact (compose_raises w rd rates e He).
  - intros e. unfold stats. destruct (core_reads w) as [rd|e']; [|now left].
    destruct (compute_rates _ _ _ _) as [rates|e'']; [|now left].
    cbn [fst snd]. intros _. right. exists rd. auto.
Qed.

End StatsClaims.

(** C2 as stated fails when the rate arithmetic raises: with a sample
    stored at clock [1.0], a request at clock [3.0] that reads a
    [bytes_sent] counter of [2^1024] raises [OverflowError] at line 135
    and [_prev] keeps the sample of clock [1.0]. *)
Lemma C2_counterexample_sample_kept :
  ~ (forall (fos : text -> result float) (w : World) (st : RateState)
            (rd : CoreReads),
        core_reads w = Ok rd ->
        (stats fos w st).2
        = {| prev_net := r_net_counters rd;
             prev_disk := r_disk_io rd;
             prev_ts := Some (time_time w) |}).
Proof.
  intros H.
  specialize (H no_float_parser
                (plain_host 3 (net_sample (2 ^ 1024) 2500)
                   (disk_sample 4608 1024))
                earlier_sample _ eq_refl).
  apply (f_equal prev_net) in H. vm_compute in H. discriminate.
Qed.

(** C2 on the first request of a host: nothing is stored yet. *)
Lemma C2_witness :
  let w := plain_host 2 (net_sample 3000 2500) (disk_sample 4608 1024) in
  (stats no_float_parser w initial_prev).2
  = {| prev_net := Some (net_sample 3000 2500);
       prev_disk := Some (disk_sample 4608 1024);
       prev_ts := Some 2%float |}.
Proof.
  intros w.
  exact (proj1 (proj2 (proj2 (proj2
    (C2_rates_absent_and_sample_replaced no_float_parser w initial_prev
       _ eq_refl)))) _ eq_refl).
Defined.

(** C4 as stated fails when the clock steps back: a request at clock
    [5.0] after one stored at [10.0] stores [5.0]. *)
Lemma C4_counterexample_clock_steps_back :
  ~ (forall (fos : text -> result float) (w : World) (st : RateState)
            (t t' : float),
        prev_ts st = Some t ->
        prev_ts (stats fos w st).2 = Some t' ->
        (t <=? t')%float = true).
Proof.
  intros H.
  specialize (H no_float_parser
                (plain_host 5 (net_sample 0 0) (disk_sample 0 0))
                {| prev_net := None; prev_disk := None;
                   prev_ts := Some 10%float |}
                10%float 5%float eq_refl eq_refl).
  vm_compute in H. discriminate.
Qed.

Lemma C4_witness :
  map prev_ts
    (states_after no_float_parser
       [plain_host 10 (net_sample 0 0) (disk_sample 0 0);
        plain_host 5 (net_sample 0 0) (disk_sample 0 0)] initial_prev)
  = [Some 10%float; Some 5%float].
Proof.
  apply (C4_stored_timestamps_are_clock_readings no_float_parser
           [plain_host 10 (net_sample 0 0) (disk_sample 0 0);
            plain_host 5 (net_sample 0 0) (disk_sample 0 0)] initial_prev).
  vm_compute. repeat constructor.
Defined.

(** C9 as stated fails when the process enumeration of line 165
    raises: the request fails and [_prev] holds the new sample. *)
Lemma C9_counterexample_late_failure :
  ~ (forall (fos : text -> result float) (w : World) (st : RateState)
            (e : exn),
        (stats fos w st).1 = Raise e -> (stats fos w st).2 = st).
Proof.
  intros H.
  specialize (H no_float_parser
                (with_process_iter (Raise OSError)
                   (plain_host 2 (net_sample 0 0) (disk_sample 0 0)))
                initial_prev OSError eq_refl).
  vm_compute in H. discriminate.
Qed.

Lemma C9_witness :
  let w := with_process_iter (Raise OSError)
             (plain_host 2 (net_sample 0 0) (disk_sample 0 0)) in
  (stats no_float_parser w initial_prev).2
  = {| prev_net := Some (net_sample 0 0);
       prev_disk := Some (disk_sample 0 0);
       prev_ts := Some 2%float |}
  /\ (process_iter w = Raise OSError
      \/ float_to_int (time_time_uptime w - boot_time w)%float
         = Raise OSError
      \/ human_sizes 0 0 0 = Raise OSError
      \/ human_sizes 0 0 0 = Raise OSError).
Proof.
  intros w.
  exact (proj1 (proj2
    (C9_failed_reads_keep_prev no_float_parser w initial_prev))
    _ _ OSError eq_refl eq_refl eq_refl).
Defined.

(** ** [bytes_to_human] *)

Lemma Prim2SF_step : Prim2SF step = S754_finite false 4503599627370496 (-42).
Proof. reflexivity. Qed.

(** The loop on a float never raises. *)
Lemma truediv_float_step (x : float) :
  truediv (PyFloat x) (PyFloat step) = Ok (PyFloat (x / step)%float).
Proof. reflexivity. Qed.

(** On a positive normal float the loop divides until the exponent falls
    below that of 1024 or the units are used up. *)
Lemma bytes_to_human_from_normal (us : list string) (x : float)
    (m : positive) (e : Z) :
  Prim2SF x = S754_finite false m e ->
  2 ^ 52 <= Z.pos m < 2 ^ 53 ->
  -1063 + 10 * Z.of_nat (length us) <= e <= 971 ->
  let j := steps_from us e in
  bytes_to_human_from us (PyFloat x)
  = Ok (float_format_1f (scale_down j x) ++ " " ++ nth j (us ++ ["PB"]) "")
  /\ Prim2SF (scale_down j x) = S754_finite false m (e - 10 * Z.of_nat j).
Proof.
  revert x e. induction us as [|u us IH]; intros x e Hx Hm He.
  - cbn. split; [reflexivity|]. rewrite Hx. f_equal. lia.
  - cbn [bytes_to_human_from steps_from lt].
    rewrite FloatAxioms.ltb_spec, Hx, (SFltb_step m e Hm).
    destruct (e <? -42) eqn:Elt.
    + cbn. split; [reflexivity|]. rewrite Hx. f_equal. lia.
    + rewrite truediv_float_step, bind_Ok_l.
      assert (Hx' : Prim2SF (x / step) = S754_finite false m (e - 10)).
      { rewrite FloatAxioms.div_spec, Hx. apply SF64div_step; [exact Hm|].
        cbn [length] in He. lia. }
      destruct (IH (x / step)%float (e - 10) Hx' Hm) as [IH1 IH2].
      { cbn [length] in He. lia. }
      cbn [scale_down nth app]. split; [exact IH1|].
      rewrite IH2. f_equal. lia.
Qed.

Lemma lt_int_step (n : Z) : lt (PyInt n) (PyFloat step) = (n <? 1024).
Proof.
  unfold lt, int_compare_float. rewrite Prim2SF_step.
  unfold sf_scaled, cond_Zopp.
  change (Z.max 0 (- -42)) with 42. change (Z.max 0 (-42)) with 0.
  change (2 ^ 42) with 4398046511104. change (2 ^ 0) with 1.
  destruct (Z.compare_spec (n * 4398046511104) (4503599627370496 * 1));
    destruct (Z.ltb_spec n 1024); try reflexivity; lia.
Qed.

(** Below 1024, negative counts included, the count itself is rendered,
    with unit B; its conversion to float is all that can fail. *)
Lemma bytes_to_human_small (n : Z) :
  n < 1024 ->
  bytes_to_human (PyInt n)
  = (f ← int_to_float n; Ok (float_format_1f f ++ " B")).
Proof.
  intros Hn. unfold bytes_to_human, units. cbn [bytes_to_human_from].
  rewrite lt_int_step. destruct (Z.ltb_spec n 1024); [|lia].
  unfold format_1f, to_float. destruct (int_to_float n); reflexivity.
Qed.

(** From 1024 on the count is converted to float and divided. *)
Lemma bytes_to_human_large (n : Z) :
  1024 <= n ->
  bytes_to_human (PyInt n)
  = (f ← int_to_float n;
     bytes_to_human_from ["KB"; "MB"; "GB"; "TB"] (PyFloat (f / step)%float)).
Proof.
  intros Hn. unfold bytes_to_human, units. cbn [bytes_to_human_from].
  rewrite lt_int_step. destruct (Z.ltb_spec n 1024); [lia|].
  unfold truediv, to_float. destruct (int_to_float n); reflexivity.
Qed.

Lemma log2_lt_pow2_iff (n b : Z) :
  0 < n -> (n < 2 ^ b <-> Z.log2 n < b).
Proof. intros Hn. apply Z.log2_lt_pow2. exact Hn. Qed.

(** The unit reached by the loop is the one the thresholds
    [1024, 1024^2, ...] select. *)
Lemma unit_index_steps (n e : Z) :
  1024 <= n ->
  Z.log2 n - 52 <= e ->
  (Z.log2 n <= 52 -> e = Z.log2 n - 52) ->
  unit_index n = S (steps_from ["KB"; "MB"; "GB"; "TB"] (e - 10)).
Proof.
  intros Hn He Hx.
  pose proof (log2_lt_pow2_iff n 10 ltac:(lia)) as H10.
  pose proof (log2_lt_pow2_iff n 20 ltac:(lia)) as H20.
  pose proof (log2_lt_pow2_iff n 30 ltac:(lia)) as H30.
  pose proof (log2_lt_pow2_iff n 40 ltac:(lia)) as H40.
  pose proof (log2_lt_pow2_iff n 50 ltac:(lia)) as H50.
  unfold unit_index, unit_index_from, steps_from.
  change (1024 * 1024 ^ Z.of_nat 0) with (2 ^ 10).
  change (1024 * 1024 ^ Z.of_nat 1) with (2 ^ 20).
  change (1024 * 1024 ^ Z.of_nat 2) with (2 ^ 30).
  change (1024 * 1024 ^ Z.of_nat 3) with (2 ^ 40).
  change (1024 * 1024 ^ Z.of_nat 4) with (2 ^ 50).
  change (2 ^ 10) with 1024 in *.
  destruct (Z.ltb_spec n 1024); [lia|].
  repeat match goal with
         | |- context [?a <? ?b] => destruct (Z.ltb_spec a b)
         end; try reflexivity; exfalso; lia.
Qed.

Lemma unit_index_from_spec (fuel k : nat) (n : Z) :
  let r := unit_index_from fuel k n in
  (k <= r <= k + fuel)%nat
  /\ ((r < k + fuel)%nat -> n < 1024 * 1024 ^ Z.of_nat r)
  /\ (forall j, (k <= j < r)%nat -> 1024 * 1024 ^ Z.of_nat j <= n).
Proof.
  revert k. induction fuel as [|fuel IH]; intros k; cbn [unit_index_from].
  - split; [lia|]. split; intros; lia.
  - destruct (Z.ltb_spec n (1024 * 1024 ^ Z.of_nat k)) as [Hlt|Hge].
    + split; [lia|]. split; [intros _; exact Hlt|]. intros; lia.
    + destruct (IH (S k)) as (Hr & Hb & Ha).
      split; [lia|]. split; [intros H; apply Hb; lia|].
      intros j Hj. destruct (Nat.eq_dec j k) as [->|Hne]; [exact Hge|].
      apply Ha. lia.
Qed.

(** [unit_index] is the first index at which the scaled count is below
    1024, and 5 when there is none among the first five. *)
Lemma unit_index_spec (n : Z) :
  (unit_index n <= 5)%nat
  /\ ((unit_index n < 5)%nat -> n < 1024 * 1024 ^ Z.of_nat (unit_index n))
  /\ (forall j, (j < unit_index n)%nat -> 1024 * 1024 ^ Z.of_nat j <= n).
Proof.
  destruct (unit_index_from_spec 5 0 n) as (Hr & Hb & Ha).
  fold (unit_index n) in Hr, Hb, Ha.
  split; [lia|]. split; [exact Hb|]. intros j Hj. apply Ha. lia.
Qed.

Lemma round_half_even_scale (c a b : Z) :
  0 < c -> 0 < b ->
  round_half_even (c * a) (c * b) = round_half_even a b.
Proof.
  intros Hc Hb. unfold round_half_even.
  rewrite Z.div_mul_cancel_l by lia.
  rewrite Z.mul_mod_distr_l by lia.
  replace (2 * (c * (a mod b))) with (c * (2 * (a mod b))) by lia.
  assert (Hcmp : (c * (2 * (a mod b)) ?= c * b) = (2 * (a mod b) ?= b)).
  { destruct (Z.compare_spec (2 * (a mod b)) b) as [E|E|E].
    - rewrite E. apply Z.compare_refl.
    - apply Z.compare_lt_iff. nia.
    - apply Z.compare_gt_iff. nia. }
  now rewrite Hcmp.
Qed.

(** The rendering of a float that holds [n / 1024^k] exactly. *)
Lemma float_format_exact (x : float) (m : positive) (e n d : Z) (k : nat) :
  Prim2SF x = S754_finite false m e ->
  1 <= d <= 53 ->
  Z.pos m = n * 2 ^ (53 - d) ->
  e = d - 53 - 10 * Z.of_nat k ->
  float_format_1f x = decimal_1 (round_half_even (10 * n) (1024 ^ Z.of_nat k)).
Proof.
  intros Hx Hd Hm He. unfold float_format_1f, decimal_1. rewrite Hx.
  cbn [append].
  assert (Ht : scaled_digits 1 m e
               = round_half_even (10 * n) (1024 ^ Z.of_nat k)).
  { unfold scaled_digits.
    replace (Z.max 0 e) with 0 by lia.
    replace (Z.max 0 (- e)) with ((53 - d) + 10 * Z.of_nat k) by lia.
    rewrite Z.pow_add_r by lia.
    rewrite (Z.pow_mul_r 2 10) by lia. change (2 ^ 10) with 1024.
    rewrite Hm. change (10 ^ 1) with 10. change (2 ^ 0) with 1.
    replace (n * 2 ^ (53 - d) * 10 * 1) with (2 ^ (53 - d) * (10 * n)) by lia.
    apply round_half_even_scale.
    - apply Z.pow_pos_nonneg; lia.
    - apply Z.pow_pos_nonneg; lia. }
  rewrite Ht. reflexivity.
Qed.

(** The result on a non-negative count that [float()] accepts: the
    float of the count, divided [unit_index n] times, with the unit of
    that index; the divisions are exact. *)
Lemma bytes_to_human_nonneg (n : Z) (f : float) :
  0 <= n -> int_to_float n = Ok f ->
  let k := unit_index n in
  bytes_to_human (PyInt n)
  = Ok (float_format_1f (scale_down k f) ++ " " ++ nth k all_units "")
  /\ (n < 2 ^ 53 ->
      float_format_1f (scale_down k f)
      = decimal_1 (round_half_even (10 * n) (1024 ^ Z.of_nat k))).
Proof.
  intros Hn Hf k.
  destruct (Z.eq_dec n 0) as [->|Hnz].
  { rewrite int_to_float_zero in Hf. injection Hf as <-.
    split; [reflexivity|]. intros _. reflexivity. }
  destruct (int_to_float_nonzero n Hnz)
    as (m & e & Hm & He & Hx & [[Hov _]|[(f' & Hf' & Hp) Hle]]);
    [congruence|].
  rewrite Hf in Hf'. injection Hf' as <-.
  rewrite Z.abs_eq in He, Hx by lia.
  destruct (Z.ltb_spec n 0) as [|_]; [lia|].
  assert (HL : 0 <= Z.log2 n) by apply Z.log2_nonneg.
  destruct (Z.lt_ge_cases n 1024) as [Hsmall|Hlarge].
  - assert (Hk : k = O).
    { unfold k, unit_index, unit_index_from.
      change (1024 * 1024 ^ Z.of_nat 0) with 1024.
      destruct (Z.ltb_spec n 1024); [reflexivity|lia]. }
    rewrite Hk. cbn [scale_down].
    rewrite (bytes_to_human_small n Hsmall), Hf, bind_Ok_l.
    split; [reflexivity|]. intros _.
    assert (Z.log2 n < 10) by (apply Z.log2_lt_pow2; [lia|assumption]).
    destruct Hx as [Hx1 Hx2]; [lia|].
    apply (float_format_exact f m e n (Z.log2 n + 1) 0 Hp); lia.
  - assert (10 <= Z.log2 n).
    { apply Z.log2_le_pow2; [lia|assumption]. }
    assert (Hx1 : Prim2SF (f / step) = S754_finite false m (e - 10)).
    { rewrite FloatAxioms.div_spec, Hp. apply SF64div_step; [exact Hm|lia]. }
    destruct (bytes_to_human_from_normal ["KB"; "MB"; "GB"; "TB"]
                (f / step)%float m (e - 10) Hx1 Hm) as [Hloop Hsf].
    { cbn [length]. lia. }
    assert (Hk : k = S (steps_from ["KB"; "MB"; "GB"; "TB"] (e - 10))).
    { apply unit_index_steps; [assumption|lia|].
      intros Hl. destruct Hx as [_ Hx2]; lia. }
    rewrite (bytes_to_human_large n Hlarge), Hf, bind_Ok_l, Hloop, Hk.
    split; [reflexivity|]. intros H53.
    assert (Z.log2 n < 53) by (apply Z.log2_lt_pow2; [lia|assumption]).
    destruct Hx as [Hx2 Hx3]; [lia|].
    cbn [scale_down].
    apply (float_format_exact _ m _ n (Z.log2 n + 1) _ Hsf); [lia|exact Hx2|].
    rewrite Nat2Z.inj_succ. lia.
Qed.

(** C5, as amended: on every non-negative count that [float()] accepts
    the result is the value at the first of the units B, KB, MB, GB, TB
    at which the count divided by [1024^k] is below 1024, or at PB when
    there is none, rendered with one decimal, a space and the unit; up to
    [2^53] the rendered value is exactly [n / 1024^k] rounded to tenths.
    In particular the three sample counts render as stated. *)
Theorem C5_bytes_to_human_unit_and_value (n : Z) (f : float) :
  0 <= n -> int_to_float n = Ok f ->
  let k := unit_index n in
  bytes_to_human (PyInt n)
  = Ok (float_format_1f (scale_down k f) ++ " " ++ nth k all_units "")
  /\ ((k < 5)%nat -> n < 1024 * 1024 ^ Z.of_nat k)
  /\ (forall j, (j < k)%nat -> 1024 * 1024 ^ Z.of_nat j <= n)
  /\ (n < 2 ^ 53 ->
      float_format_1f (scale_down k f)
      = decimal_1 (round_half_even (10 * n) (1024 ^ Z.of_nat k)))
  /\ bytes_to_human (PyInt 0) = Ok "0.0 B"
  /\ bytes_to_human (PyInt 1536) = Ok "1.5 KB"
  /\ bytes_to_human (PyInt 1073741824) = Ok "1.0 GB".
Proof.
  intros Hn Hf k.
  destruct (bytes_to_human_nonneg n f Hn Hf) as [H1 H2].
  destruct (unit_index_spec n) as (_ & H3 & H4).
  split; [exact H1|]. split; [exact H3|]. split; [exact H4|].
  split; [exact H2|].
  split; [|split]; vm_compute; reflexivity.
Qed.

Lemma C5_witness :
  bytes_to_human (PyInt 1536) = Ok "1.5 KB".
Proof.
  exact (proj1 (C5_bytes_to_human_unit_and_value 1536 1536%float
                  ltac:(lia) eq_refl)).
Defined.

(** C5 as stated fails from [1024^6] on: the result is in PB although
    the value at PB, 1024, is not below 1024, and no unit has a value
    below 1024. *)
Lemma C5_counterexample_no_unit_below_1024 :
  ~ (forall n : Z, 0 <= n ->
       exists (k : nat) (u s : string),
         nth_error all_units k = Some u
         /\ n < 1024 * 1024 ^ Z.of_nat k
         /\ bytes_to_human (PyInt n) = Ok (s ++ " " ++ u)).
Proof.
  intros H. destruct (H (1024 ^ 6) ltac:(lia)) as (k & u & s & Hu & Hv & _).
  do 6 (destruct k as [|k]; [cbn in Hv; lia|]).
  destruct k; discriminate.
Qed.

(** C10, as amended: a count of at least [1024^5] that [float()]
    accepts is rendered in PB, as its float divided five times by 1024,
    even when that value is 1024 or more; a count below 1024, negative
    counts included, that [float()] accepts is rendered as it is, in B;
    a count that [float()] rejects raises [OverflowError] in both
    cases. *)
Theorem C10_bytes_to_human_ends_of_range (n : Z) :
  (1024 ^ 5 <= n ->
   bytes_to_human (PyInt n)
   = (f ← int_to_float n; Ok (float_format_1f (scale_down 5 f) ++ " PB")))
  /\ (n < 1024 ->
      bytes_to_human (PyInt n)
      = (f ← int_to_float n; Ok (float_format_1f f ++ " B")))
  /\ (int_to_float n = Raise OverflowError ->
      bytes_to_human (PyInt n) = Raise OverflowError).
Proof.
  assert (Hlow : n < 1024 ->
            bytes_to_human (PyInt n)
            = (f ← int_to_float n; Ok (float_format_1f f ++ " B")))
    by apply bytes_to_human_small.
  assert (Hhigh : 1024 ^ 5 <= n ->
            bytes_to_human (PyInt n)
            = (f ← int_to_float n;
               Ok (float_format_1f (scale_down 5 f) ++ " PB"))).
  { intros Hn. destruct (int_to_float n) as [f|e] eqn:Hf.
    - destruct (bytes_to_human_nonneg n f ltac:(lia) Hf) as [H _].
      rewrite H, bind_Ok_l.
      assert (Hk : unit_index n = 5%nat).
      { unfold unit_index, unit_index_from.
        repeat match goal with
               | |- context [?a <? ?b] => destruct (Z.ltb_spec a b)
               end; try reflexivity; cbn in *; lia. }
      rewrite Hk. reflexivity.
    - rewrite (bytes_to_human_large n ltac:(lia)), Hf. reflexivity. }
  split; [exact Hhigh|]. split; [exact Hlow|].
  intros Hov. destruct (Z.lt_ge_cases n 1024) as [Hs|Hl].
  - now rewrite (Hlow Hs), Hov.
  - now rewrite (bytes_to_human_large n Hl), Hov.
Qed.

Lemma C10_witness :
  bytes_to_human (PyInt (1024 ^ 6)) = Ok "1024.0 PB"
  /\ bytes_to_human (PyInt (-1536)) = Ok "-1536.0 B".
Proof.
  split.
  - exact (proj1 (C10_bytes_to_human_ends_of_range (1024 ^ 6)) ltac:(lia)).
  - exact (proj1 (proj2 (C10_bytes_to_human_ends_of_range (-1536)))
             ltac:(lia)).
Defined.

(** C10 as stated fails on the integers [float()] rejects:
    [bytes_to_human(2**1024)] raises [OverflowError]. *)
Lemma C10_counterexample_overflow :
  ~ (forall n : Z, 1024 ^ 5 <= n ->
       exists s : string, bytes_to_human (PyInt n) = Ok (s ++ " PB")).
Proof.
  intros H. destruct (H (2 ^ 1024)) as [s Hs].
  - change (1024 ^ 5) with (2 ^ 50). apply Z.pow_le_mono_r; lia.
  - vm_compute in Hs. discriminate.
Qed.

(** ** [safe_gpu_info] *)

Section GpuClaims.

Variable float_of_str : text -> result float.

Lemma gpu_primary_empty_or_raises (w : World) :
  primary_empty_or_raises w -> try_except (gpu_primary w) None = None.
Proof.
  unfold gpu_primary. intros [H|[e H]]; rewrite H; reflexivity.
Qed.

Lemma gpu_probe_unusable (w : World) :
  probe_unusable float_of_str w ->
  try_except (gpu_probe float_of_str w) None = None.
Proof.
  unfold gpu_probe. fold probe_parts.
  intros [[e H]|(p & H & Hp)]; rewrite H; [reflexivity|].
  rewrite bind_Ok_l. fold (probe_parts p).
  destruct (Z.eqb_spec (returncode p) 0) as [Hrc|Hrc]; [|reflexivity].
  destruct (strip (stdout p)) as [|c s] eqn:Hs; [reflexivity|].
  cbn [andb text_truthy].
  destruct (Nat.leb_spec 5 (length (probe_parts p))) as [Hlen|Hlen];
    [|reflexivity].
  destruct Hp as [Hp|[Hp|[Hp|(i & Hi & Hp)]]]; [congruence|congruence|lia|].
  destruct (float_of_str (nth 1 (probe_parts p) [])) as [x1|] eqn:E1;
    [|reflexivity].
  destruct (float_of_str (nth 2 (probe_parts p) [])) as [x2|] eqn:E2;
    [|reflexivity].
  destruct (float_of_str (nth 3 (probe_parts p) [])) as [x3|] eqn:E3;
    [|reflexivity].
  destruct (float_of_str (nth 4 (probe_parts p) [])) as [x4|] eqn:E4;
    [|reflexivity].
  exfalso.
  assert (Hcases : i = 1%nat \/ i = 2%nat \/ i = 3%nat \/ i = 4%nat) by lia.
  destruct Hcases as [-> | [-> | [-> | ->]]];
    rewrite ?E1, ?E2, ?E3, ?E4 in Hp; discriminate.
Qed.

(** C7: [safe_gpu_info] returns a value in every case.  When the
    primary source yields a device whose fields can be read, the first
    device is returned and the probe is not run; a missing temperature
    attribute gives an absent temperature.  When the primary source
    yields no device or raises, the probe is run after it and decides
    the result; when the probe gives no data either (fewer than five
    fields included), the result is [None]. *)
Theorem C7_gpu_fallback_order (w : World) :
  (forall g gs nm load used total,
     getGPUs w = Ok (g :: gs) ->
     gpu_name g = Ok nm -> gpu_load g = Ok load ->
     gpu_memoryUsed g = Ok used -> gpu_memoryTotal g = Ok total ->
     is_ok (gpu_temperature g) = true
     \/ gpu_temperature g = Raise AttributeError ->
     safe_gpu_info float_of_str w
     = (Some {| g_name := nm;
                g_load_percent := float_round (load * 100)%float 1;
                g_memory_used_mb := float_round used 1;
                g_memory_total_mb := float_round total 1;
                g_temperature_c :=
                  match gpu_temperature g with
                  | Ok t => Some t
                  | Raise _ => None
                  end |},
        [CallGetGPUs]))
  /\ (primary_empty_or_raises w ->
      safe_gpu_info float_of_str w
      = (try_except (gpu_probe float_of_str w) None,
         [CallGetGPUs; CallNvidiaSmi]))
  /\ (primary_empty_or_raises w -> probe_unusable float_of_str w ->
      safe_gpu_info float_of_str w = (None, [CallGetGPUs; CallNvidiaSmi])).
Proof.
  split; [|split].
  - intros g gs nm load used total Hg Hn Hl Hu Ht Htemp.
    unfold safe_gpu_info, gpu_primary.
    rewrite Hg, bind_Ok_l, Hn, bind_Ok_l, Hl, bind_Ok_l, Hu, bind_Ok_l,
      Ht, bind_Ok_l.
    destruct Htemp as [Hok| ->].
    + destruct (gpu_temperature g) as [t|]; [reflexivity|discriminate].
    + reflexivity.
  - intros H. unfold safe_gpu_info.
    now rewrite (gpu_primary_empty_or_raises w H).
  - intros H Hp. unfold safe_gpu_info.
    rewrite (gpu_primary_empty_or_raises w H).
    now rewrite (gpu_probe_unusable w Hp).
Qed.

End GpuClaims.

(** ** The order of Python numbers *)

(** The mantissa and exponent of a finite float. *)
Lemma Prim2SF_finite_bounds (f : float) (s : bool) (m : positive) (e : Z) :
  Prim2SF f = S754_finite s m e ->
  -1074 <= e <= 971 /\ Z.pos m < 2 ^ 53 /\ (-1074 < e -> 2 ^ 52 <= Z.pos m).
Proof.
  intros Hf. pose proof (Prim2SF_valid f) as Hv. rewrite Hf in Hv.
  cbn [SpecFloat.valid_binary] in Hv. unfold bounded, canonical_mantissa in Hv.
  apply andb_prop in Hv as [Hc He].
  apply Z.eqb_eq in Hc. apply Z.leb_le in He.
  change (emax - prec) with 971 in He.
  unfold fexp in Hc. change (SpecFloat.emin prec emax) with (-1074) in Hc.
  change prec with 53 in Hc.
  pose proof (digits2_pos_bounds m) as [Hlo Hhi].
  set (d := Z.pos (digits2_pos m)) in *.
  assert (Hd : d <= 53) by lia.
  split; [lia|]. split.
  - assert (2 ^ d <= 2 ^ 53) by (apply Z.pow_le_mono_r; lia). lia.
  - intros Hn. assert (d = 53) by lia.
    replace (d - 1) with 52 in Hlo by lia. exact Hlo.
Qed.

Lemma is_nan_Prim2SF (f : float) :
  is_nan f = false <-> Prim2SF f <> S754_nan.
Proof.
  unfold Prim2SF. destruct (is_nan f); [split; congruence|].
  split; [|reflexivity]. intros _.
  destruct (is_zero f); [discriminate|].
  destruct (is_infinity f); [discriminate|].
  destruct (Z.frexp f) as [r ex].
  destruct (shr_fexp _ _ _ _ _) as [sh e'].
  destruct (shr_m sh); discriminate.
Qed.

Lemma value_is_Some (n : num) :
  match n with PyInt _ => True | PyFloat f => is_nan f = false end ->
  exists v, value n = Some v.
Proof.
  destruct n as [z|f]; cbn [value]; [eauto|].
  intros H. apply is_nan_Prim2SF in H.
  destruct (Prim2SF f); cbn [sf_value]; eauto. congruence.
Qed.

(** A larger exponent means a larger magnitude. *)
Lemma scaled_lt_of_exponent (m1 m2 : positive) (e1 e2 : Z) :
  -1074 <= e1 -> Z.pos m1 < 2 ^ 53 -> 2 ^ 52 <= Z.pos m2 -> e1 < e2 ->
  Z.pos m1 * 2 ^ (e1 + 1074) < Z.pos m2 * 2 ^ (e2 + 1074).
Proof.
  intros He1 Hm1 Hm2 Hlt.
  replace (e2 + 1074) with ((e1 + 1074) + (e2 - e1)) by lia.
  rewrite (Z.pow_add_r 2 (e1 + 1074) (e2 - e1)) by lia.
  assert (Hp : 0 < 2 ^ (e1 + 1074)) by (apply Z.pow_pos_nonneg; lia).
  assert (Hq : 2 ^ 1 <= 2 ^ (e2 - e1)) by (apply Z.pow_le_mono_r; lia).
  change (2 ^ 1) with 2 in Hq.
  change (2 ^ 53) with 9007199254740992 in Hm1.
  change (2 ^ 52) with 4503599627370496 in Hm2.
  assert (H1 : Z.pos m1 * 2 ^ (e1 + 1074)
               < 9007199254740992 * 2 ^ (e1 + 1074)) by nia.
  assert (H2 : 4503599627370496 * 2 ^ (e1 + 1074)
               <= Z.pos m2 * 2 ^ (e1 + 1074)) by nia.
  assert (H3 : Z.pos m2 * 2 ^ (e1 + 1074) * 2
               <= Z.pos m2 * 2 ^ (e1 + 1074) * 2 ^ (e2 - e1)) by nia.
  lia.
Qed.

Lemma pos_compare_scaled (m1 m2 : positive) (c : Z) :
  0 < c -> (Z.pos m1 * c ?= Z.pos m2 * c) = Pos.compare m1 m2.
Proof.
  intros Hc. rewrite (Pos2Z.inj_compare m1 m2).
  destruct (Z.compare_spec (Z.pos m1) (Z.pos m2)) as [E|E|E].
  - rewrite E. apply Z.compare_refl.
  - apply Z.compare_lt_iff. nia.
  - apply Z.compare_gt_iff. nia.
Qed.

(** On floats that are not [nan], the IEEE comparison is the comparison
    of the values. *)
Lemma SFcompare_value (x y : float) (vx vy : ext) :
  sf_value (Prim2SF x) = Some vx -> sf_value (Prim2SF y) = Some vy ->
  SFcompare (Prim2SF x) (Prim2SF y) = Some (ext_compare vx vy).
Proof.
  destruct (Prim2SF x) as [sx|sx| |sx mx ex] eqn:Ex;
    destruct (Prim2SF y) as [sy|sy| |sy my ey] eqn:Ey;
    cbn [sf_value]; intros [= <-] [= <-]; try discriminate;
    cbn [SFcompare ext_compare].
  - reflexivity.
  - now destruct sy.
  - destruct sy; cbn [cond_Zopp]; f_equal; symmetry;
      [apply Z.compare_gt_iff|apply Z.compare_lt_iff];
      assert (0 < 2 ^ (ey + 1074))
        by (apply Z.pow_pos_nonneg;
            [lia|pose proof (Prim2SF_finite_bounds y _ _ _ Ey); lia]);
      nia.
  - now destruct sx.
  - now destruct sx, sy.
  - now destruct sx.
  - destruct sx; cbn [cond_Zopp]; f_equal; symmetry;
      [apply Z.compare_lt_iff|apply Z.compare_gt_iff];
      assert (0 < 2 ^ (ex + 1074))
        by (apply Z.pow_pos_nonneg;
            [lia|pose proof (Prim2SF_finite_bounds x _ _ _ Ex); lia]);
      nia.
  - now destruct sy.
  - pose proof (Prim2SF_finite_bounds x _ _ _ Ex) as (Hex & Hmx & Hnx).
    pose proof (Prim2SF_finite_bounds y _ _ _ Ey) as (Hey & Hmy & Hny).
    assert (Hpx : 0 < 2 ^ (ex + 1074)) by (apply Z.pow_pos_nonneg; lia).
    assert (Hpy : 0 < 2 ^ (ey + 1074)) by (apply Z.pow_pos_nonneg; lia).
    f_equal. rewrite Pos.compare_cont_spec.
    replace (Pos.switch_Eq Eq (mx ?= my)%positive) with (mx ?= my)%positive
      by now destruct (mx ?= my)%positive.
    destruct sx, sy; cbn [cond_Zopp].
    + destruct (Z.compare_spec ex ey) as [E|E|E]; symmetry.
      * subst ey. rewrite Z.compare_opp, pos_compare_scaled by assumption.
        apply Pos.compare_antisym.
      * apply Z.compare_gt_iff.
        pose proof (scaled_lt_of_exponent mx my ex ey). lia.
      * apply Z.compare_lt_iff.
        pose proof (scaled_lt_of_exponent my mx ey ex). lia.
    + symmetry. apply Z.compare_lt_iff. nia.
    + symmetry. apply Z.compare_gt_iff. nia.
    + destruct (Z.compare_spec ex ey) as [E|E|E]; symmetry.
      * subst ey. rewrite pos_compare_scaled by assumption.
        now destruct (Pos.compare mx my).
      * apply Z.compare_lt_iff.
        pose proof (scaled_lt_of_exponent mx my ex ey). lia.
      * apply Z.compare_gt_iff.
        pose proof (scaled_lt_of_exponent my mx ey ex). lia.
Qed.

(** The comparison of an int with a float is the comparison of the
    values. *)
Lemma int_compare_float_value (z : Z) (y : float) (vy : ext) :
  sf_value (Prim2SF y) = Some vy ->
  int_compare_float z y = Some (ext_compare (Fin (z * 2 ^ 1074)) vy).
Proof.
  unfold int_compare_float.
  destruct (Prim2SF y) as [sy|sy| |sy my ey] eqn:Ey; cbn [sf_value];
    intros [= <-]; cbn [ext_compare].
  - f_equal. symmetry.
    destruct (Z.compare_spec z 0) as [E|E|E].
    + subst z. reflexivity.
    + apply Z.compare_lt_iff. assert (0 < 2 ^ 1074) by (apply Z.pow_pos_nonneg; lia). nia.
    + apply Z.compare_gt_iff. assert (0 < 2 ^ 1074) by (apply Z.pow_pos_nonneg; lia). nia.
  - now destruct sy.
  - pose proof (Prim2SF_finite_bounds y _ _ _ Ey) as (Hey & _ & _).
    f_equal. unfold sf_scaled.
    set (c := 2 ^ (1074 - Z.max 0 (- ey))).
    assert (Hc : 0 < c) by (apply Z.pow_pos_nonneg; lia).
    assert (H1 : z * 2 ^ 1074 = (z * 2 ^ Z.max 0 (- ey)) * c).
    { unfold c. rewrite <- Z.mul_assoc, <- Z.pow_add_r by lia.
      do 2 f_equal. lia. }
    assert (H2 : cond_Zopp sy (Z.pos my * 2 ^ (ey + 1074))
                 = cond_Zopp sy (Z.pos my * 2 ^ Z.max 0 ey) * c).
    { assert (Z.pos my * 2 ^ (ey + 1074) = Z.pos my * 2 ^ Z.max 0 ey * c).
      { unfold c. rewrite <- Z.mul_assoc, <- Z.pow_add_r by lia.
        do 2 f_equal. lia. }
      destruct sy; cbn [cond_Zopp]; lia. }
    rewrite H1, H2.
    generalize (z * 2 ^ Z.max 0 (- ey)) (cond_Zopp sy (Z.pos my * 2 ^ Z.max 0 ey)).
    intros a b. symmetry.
    destruct (Z.compare_spec a b) as [E|E|E].
    + subst. apply Z.compare_refl.
    + apply Z.compare_lt_iff. nia.
    + apply Z.compare_gt_iff. nia.
Qed.

Lemma ext_compare_antisym (a b : ext) :
  ext_compare b a = CompOpp (ext_compare a b).
Proof.
  destruct a, b; cbn; try reflexivity. apply Z.compare_antisym.
Qed.

(** [a < b] and [a <= b] on numbers that are not [nan]. *)
Lemma compare_value (a b : num) (va vb : ext) :
  value a = Some va -> value b = Some vb ->
  lt a b = match ext_compare va vb with Lt => true | _ => false end
  /\ le a b = match ext_compare va vb with Gt => false | _ => true end.
Proof.
  destruct a as [x|x], b as [y|y]; cbn [value lt le]; intros Ha Hb.
  - injection Ha as <-. injection Hb as <-. cbn [ext_compare].
    assert (Hc : (x * 2 ^ 1074 ?= y * 2 ^ 1074) = (x ?= y)).
    { assert (0 < 2 ^ 1074) by (apply Z.pow_pos_nonneg; lia).
      destruct (Z.compare_spec x y) as [E|E|E].
      - subst. apply Z.compare_refl.
      - apply Z.compare_lt_iff. nia.
      - apply Z.compare_gt_iff. nia. }
    rewrite Hc. unfold Z.ltb, Z.leb. now destruct (x ?= y).
  - injection Ha as <-. rewrite (int_compare_float_value x y vb Hb).
    now destruct (ext_compare _ _).
  - injection Hb as <-. unfold float_compare_int.
    rewrite (int_compare_float_value y x va Ha). cbn [option_map].
    rewrite (ext_compare_antisym va). now destruct (ext_compare va _).
  - rewrite FloatAxioms.ltb_spec, FloatAxioms.leb_spec. unfold SFltb, SFleb.
    rewrite (SFcompare_value x y va vb Ha Hb). now destruct (ext_compare _ _).
Qed.

Lemma ext_compare_trans_le (a b c : ext) :
  ext_compare a b <> Gt -> ext_compare b c <> Gt -> ext_compare a c <> Gt.
Proof.
  destruct a, b, c; cbn; try congruence.
  rewrite !Z.compare_gt_iff. lia.
Qed.

Lemma ext_compare_eq (a b : ext) : ext_compare a b = Eq <-> a = b.
Proof.
  destruct a, b; cbn; try (split; congruence).
  rewrite Z.compare_eq_iff. split; congruence.
Qed.

(** Two numbers are tied exactly when they have the same value. *)
Lemma tied_value (a b : num) (va vb : ext) :
  value a = Some va -> value b = Some vb ->
  tied a b = true <-> va = vb.
Proof.
  intros Ha Hb. unfold tied.
  destruct (compare_value a b va vb Ha Hb) as [-> _].
  destruct (compare_value b a vb va Hb Ha) as [-> _].
  rewrite (ext_compare_antisym va vb), <- ext_compare_eq.
  destruct (ext_compare va vb); cbn; split; congruence.
Qed.

(** ** [round(x, 1)] keeps numbers *)

(** Rounding a mantissa of at least 53 bits never gives [nan]. *)
Lemma rounded_not_nan (s : bool) (q e : Z) (l : location) :
  2 ^ 52 <= q -> -1074 <= e ->
  is_nan (SF2Prim (binary_round_aux prec emax s q e l)) = false.
Proof.
  intros Hq He.
  pose proof (Z.log2_spec q ltac:(lia)) as Hl.
  assert (52 <= Z.log2 q) by (apply Z.log2_le_pow2; lia).
  destruct (binary_round_aux_normal s q e l (Z.log2 q + 1))
    as (m & e' & -> & Hm & He' & _).
  - replace (Z.log2 q + 1 - 1) with (Z.log2 q) by lia.
    replace (Z.log2 q + 1) with (Z.succ (Z.log2 q)) by lia. exact Hl.
  - lia.
  - lia.
  - destruct (Z.leb_spec e' 971).
    + apply is_nan_Prim2SF. rewrite normal53_Prim2SF by (split; lia).
      discriminate.
    + now destruct s.
Qed.

Lemma round_half_even_nonneg (a b : Z) :
  0 <= a -> 0 < b -> 0 <= round_half_even a b.
Proof.
  intros Ha Hb. unfold round_half_even.
  assert (0 <= a / b) by (apply Z.div_pos; lia).
  destruct (2 * (a mod b) ?= b); [destruct (Z.even (a / b))| |]; lia.
Qed.

(** [round(x, 1)] of a float that is not [nan] is not [nan]. *)
Lemma float_round_1_not_nan (f : float) :
  is_nan f = false -> is_nan (float_round f 1) = false.
Proof.
  intros Hf. unfold float_round.
  destruct (Prim2SF f) as [s|s| |s m e] eqn:Ef; try exact Hf.
  pose proof (Prim2SF_finite_bounds f s m e Ef) as (He & _ & _).
  assert (Ht : 0 <= scaled_digits 1 m e).
  { unfold scaled_digits. apply round_half_even_nonneg.
    - assert (0 <= 2 ^ Z.max 0 e) by (apply Z.pow_nonneg; lia).
      change (10 ^ 1) with 10. nia.
    - apply Z.pow_pos_nonneg; lia. }
  destruct (scaled_digits 1 m e) as [|t|t]; [now destruct s| |lia].
  change (10 ^ 1) with 10.
  pose proof (digits2_pos_bounds t) as [Hlo Hhi].
  set (d1 := Z.pos (digits2_pos t)) in *.
  assert (Hd1 : 1 <= d1) by (unfold d1; lia).
  unfold SFdiv_core_binary. cbn [Zdigits2]. fold d1.
  change (Z.pos (digits2_pos 10)) with 4.
  rewrite fexp_normal by lia.
  replace (d1 + 0 - (4 + 0) - 53) with (d1 - 57) by lia.
  replace (0 - 0 - Z.min (d1 - 57) (0 - 0)) with (- Z.min (d1 - 57) 0) by lia.
  set (e' := Z.min (d1 - 57) 0).
  set (m' := match - e' with
             | 0 => Z.pos t
             | Z.pos _ => Z.shiftl (Z.pos t) (- e')
             | Z.neg _ => 0
             end).
  assert (Hm' : 2 ^ 56 <= m').
  { unfold m'. destruct (- e') as [|k|k] eqn:Ek.
    - assert (57 <= d1) by (unfold e' in Ek; lia).
      assert (2 ^ 56 <= 2 ^ (d1 - 1)) by (apply Z.pow_le_mono_r; lia). lia.
    - rewrite Z.shiftl_mul_pow2 by lia.
      assert (Hk : Z.pos k = 57 - d1) by (unfold e' in Ek; lia).
      rewrite Hk.
      replace (2 ^ 56) with (2 ^ (d1 - 1) * 2 ^ (57 - d1))
        by (rewrite <- Z.pow_add_r by lia; f_equal; lia).
      assert (0 < 2 ^ (57 - d1)) by (apply Z.pow_pos_nonneg; lia). nia.
    - unfold e' in Ek. lia. }
  pose proof (Z.div_eucl_eq m' 10 ltac:(lia)) as Heq.
  pose proof (Z.mod_pos_bound m' 10 ltac:(lia)) as Hb.
  unfold Z.modulo in Hb.
  destruct (Z.div_eucl m' 10) as [q r].
  apply rounded_not_nan.
  - change (2 ^ 56) with (16 * 4503599627370496) in Hm'.
    change (2 ^ 52) with 4503599627370496. lia.
  - unfold e'. lia.
Qed.

(** ** Sorting by a numeric key, greatest first *)

Section SortDesc.

Context {A : Type} (key : A -> num).

Lemma insert_desc_perm (x : A) (l : list A) :
  Permutation (insert_desc key x l) (x :: l).
Proof.
  induction l as [|y l IH]; cbn [insert_desc]; [reflexivity|].
  destruct (lt (key x) (key y)); [|reflexivity].
  rewrite IH. apply perm_swap.
Qed.

Lemma sort_desc_perm (l : list A) : Permutation (sort_desc key l) l.
Proof.
  induction l as [|x l IH]; [reflexivity|].
  cbn [sort_desc foldr]. fold (sort_desc key l).
  rewrite insert_desc_perm. now constructor.
Qed.

Lemma lt_implies_ge (a b : A) :
  keyed key a -> keyed key b -> lt (key a) (key b) = true -> ge_key key b a.
Proof.
  intros [va Ha] [vb Hb] Hlt. unfold ge_key.
  destruct (compare_value (key a) (key b) va vb Ha Hb) as [H1 H2].
  rewrite H2. rewrite H1 in Hlt. now destruct (ext_compare va vb).
Qed.

Lemma not_lt_implies_ge (a b : A) :
  keyed key a -> keyed key b -> lt (key a) (key b) = false -> ge_key key a b.
Proof.
  intros [va Ha] [vb Hb] Hlt. unfold ge_key.
  destruct (compare_value (key a) (key b) va vb Ha Hb) as [H1 _].
  destruct (compare_value (key b) (key a) vb va Hb Ha) as [_ H2].
  rewrite H2, (ext_compare_antisym va vb). rewrite H1 in Hlt.
  now destruct (ext_compare va vb).
Qed.

Lemma ge_key_trans (a b c : A) :
  keyed key a -> keyed key b -> keyed key c ->
  ge_key key a b -> ge_key key b c -> ge_key key a c.
Proof.
  intros [va Ha] [vb Hb] [vc Hc]. unfold ge_key.
  destruct (compare_value (key b) (key a) vb va Hb Ha) as [_ ->].
  destruct (compare_value (key c) (key b) vc vb Hc Hb) as [_ ->].
  destruct (compare_value (key c) (key a) vc va Hc Ha) as [_ ->].
  intros H1 H2.
  pose proof (ext_compare_trans_le vc vb va) as Ht.
  destruct (ext_compare vc va); try reflexivity.
  exfalso. apply Ht; [now destruct (ext_compare vc vb)
                     |now destruct (ext_compare vb va)|reflexivity].
Qed.

Lemma insert_desc_sorted (x : A) (l : list A) :
  keyed key x -> Forall (keyed key) l ->
  StronglySorted (ge_key key) l ->
  StronglySorted (ge_key key) (insert_desc key x l).
Proof.
  intros Hx Hl Hs. induction Hs as [|y l Hs IH Hy]; cbn [insert_desc].
  - repeat constructor.
  - apply Forall_cons_iff in Hl as [Hky Hkl].
    destruct (lt (key x) (key y)) eqn:Hlt.
    + constructor; [now apply IH|].
      apply (Permutation_Forall (Permutation_sym (insert_desc_perm x l))).
      constructor; [now apply lt_implies_ge|exact Hy].
    + constructor; [now constructor|].
      constructor; [now apply not_lt_implies_ge|].
      rewrite Forall_forall in Hy, Hkl |- *. intros z Hz.
      apply (ge_key_trans x y z); auto. now apply not_lt_implies_ge.
Qed.

Lemma sort_desc_keyed (l : list A) :
  Forall (keyed key) l -> Forall (keyed key) (sort_desc key l).
Proof.
  intros H.
  exact (Permutation_Forall (Permutation_sym (sort_desc_perm l)) H).
Qed.

Lemma sort_desc_sorted (l : list A) :
  Forall (keyed key) l -> StronglySorted (ge_key key) (sort_desc key l).
Proof.
  induction l as [|x l IH]; intros Hl; [constructor|].
  apply Forall_cons_iff in Hl as [Hx Hl].
  cbn [sort_desc foldr]. fold (sort_desc key l).
  apply insert_desc_sorted; auto using sort_desc_keyed.
Qed.

(** An insertion never moves an element past one it is tied with. *)
Lemma insert_desc_stable (k : num) (x : A) (l : list A) :
  is_Some (value k) -> keyed key x -> Forall (keyed key) l ->
  List.filter (fun a => tied k (key a)) (insert_desc key x l)
  = List.filter (fun a => tied k (key a)) (x :: l).
Proof.
  intros [vk Hk] [vx Hx] Hl.
  induction l as [|y l IH]; cbn [insert_desc]; [reflexivity|].
  apply Forall_cons_iff in Hl as [[vy Hy] Hl].
  destruct (lt (key x) (key y)) eqn:Hlt; [|reflexivity].
  cbn [List.filter] in IH |- *. rewrite (IH Hl).
  destruct (tied k (key y)) eqn:Ty, (tied k (key x)) eqn:Tx; try reflexivity.
  exfalso.
  apply (tied_value k (key y) vk vy Hk Hy) in Ty.
  apply (tied_value k (key x) vk vx Hk Hx) in Tx. subst vy vx.
  destruct (compare_value (key x) (key y) vk vk Hx Hy) as [H _].
  rewrite H in Hlt.
  assert (ext_compare vk vk = Eq) by now apply ext_compare_eq.
  now rewrite H0 in Hlt.
Qed.

Lemma sort_desc_stable (k : num) (l : list A) :
  is_Some (value k) -> Forall (keyed key) l ->
  List.filter (fun a => tied k (key a)) (sort_desc key l)
  = List.filter (fun a => tied k (key a)) l.
Proof.
  intros Hk. induction l as [|x l IH]; intros Hl; [reflexivity|].
  apply Forall_cons_iff in Hl as [Hx Hl].
  cbn [sort_desc foldr]. fold (sort_desc key l).
  rewrite insert_desc_stable; auto using sort_desc_keyed.
  cbn [List.filter]. now rewrite (IH Hl).
Qed.

End SortDesc.

Lemma In_firstn {A : Type} (n : nat) (l : list A) (x : A) :
  In x (firstn n l) -> In x l.
Proof.
  revert n. induction l as [|y l IH]; intros [|n]; cbn; try tauto.
  intros [H|H]; [now left|right; now apply (IH n)].
Qed.

Lemma StronglySorted_firstn {A : Type} (R : A -> A -> Prop) (n : nat)
    (l : list A) :
  StronglySorted R l -> StronglySorted R (firstn n l).
Proof.
  intros H. revert n. induction H as [|x l Hs IH Hx]; intros [|n];
    cbn [firstn]; try constructor.
  - apply IH.
  - rewrite List.Forall_forall in Hx |- *. intros y Hy. apply Hx.
    now apply (In_firstn n).
Qed.

(** ** [get_top_processes] *)

Lemma slice_to_of_nat {A : Type} (l : list A) (n : nat) :
  slice_to l (Z.of_nat n) = firstn n l.
Proof.
  unfold slice_to. destruct (Z.ltb_spec (Z.of_nat n) 0); [lia|].
  now rewrite Nat2Z.id.
Qed.

Lemma collect_procs_app (ps1 ps2 : list (result pinfo)) :
  collect_procs (ps1 ++ ps2) = (collect_procs ps1 ++ collect_procs ps2)%list.
Proof.
  induction ps1 as [|p ps1 IH]; [reflexivity|].
  cbn [app collect_procs]. rewrite IH.
  now destruct (p ≫= _).
Qed.

Lemma collect_procs_length (ps : list (result pinfo)) :
  length (collect_procs ps) = length (List.filter readable ps).
Proof.
  induction ps as [|p ps IH]; [reflexivity|].
  cbn [collect_procs List.filter]. unfold readable at 1.
  destruct (p ≫= _); cbn [is_ok length]; now rewrite IH.
Qed.

(** The key of an entry is a number whenever the CPU reading is. *)
Lemma proc_entry_keyed (info : pinfo) (entry : ProcessEntry) :
  cpu_reading_ok (Ok info) -> proc_entry info = Ok entry ->
  keyed cpu_percent entry.
Proof.
  unfold proc_entry. intros Hc H.
  apply bind_Ok_inv in H as (mem & _ & H). injection H as <-.
  cbn [cpu_percent]. cbn [cpu_reading_ok] in Hc. unfold or_default.
  destruct (info_cpu_percent info) as [f|]; [|now eexists].
  destruct (float_truthy f); [|now eexists].
  cbn [round]. destruct (value_is_Some (PyFloat (float_round f 1))) as [v Hv].
  - now apply float_round_1_not_nan.
  - now exists v.
Qed.

Lemma collect_procs_keyed (ps : list (result pinfo)) :
  Forall cpu_reading_ok ps ->
  Forall (keyed cpu_percent) (collect_procs ps).
Proof.
  induction 1 as [|p ps Hp Hps IH]; [constructor|].
  cbn [collect_procs]. destruct p as [info|e]; cbn [mbind result_bind].
  - destruct (proc_entry info) as [entry|] eqn:E; [|exact IH].
    constructor; [|exact IH]. now apply (proc_entry_keyed info).
  - exact IH.
Qed.

(** C6, as amended: when the enumeration completes and the CPU
    readings are numbers, [get_top_processes(n)] returns, for [n >= 0],
    the first [n] entries of the ranking of the processes that could be
    read, so its length is the smaller of [n] and their number; for
    [n < 0] it returns the ranking without its last [-n] entries.  The
    ranking holds the same entries, each [cpu_percent] is at most the
    ones before it, and the entries tied with any given entry come in
    their enumeration order.  A process that could not be read leaves
    no trace.  When the enumeration raises, so does
    [get_top_processes]. *)
Theorem C6_top_processes_ranking (n : Z) (ps : list (result pinfo)) :
  Forall cpu_reading_ok ps ->
  let entries := collect_procs ps in
  let ranked := sort_desc cpu_percent entries in
  let count := length (List.filter readable ps) in
  exists top,
    get_top_processes n (Ok ps) = Ok top
    /\ (0 <= n ->
        top = firstn (Z.to_nat n) ranked
        /\ length top = Nat.min (Z.to_nat n) count)
    /\ (n < 0 ->
        top = firstn (count - Z.to_nat (- n)) ranked
        /\ length top = (count - Z.to_nat (- n))%nat)
    /\ Permutation ranked entries
    /\ StronglySorted (ge_key cpu_percent) top
    /\ StronglySorted (ge_key cpu_percent) ranked
    /\ (forall x, In x entries ->
          List.filter (fun e => tied (cpu_percent x) (cpu_percent e)) ranked
          = List.filter (fun e => tied (cpu_percent x) (cpu_percent e))
              entries)
    /\ (forall ps1 p ps2, ps = (ps1 ++ p :: ps2)%list -> readable p = false ->
          entries = collect_procs (ps1 ++ ps2)%list)
    /\ (forall e, get_top_processes n (Raise e) = Raise e).
Proof.
  intros Hps entries ranked count.
  pose proof (collect_procs_keyed ps Hps) as Hk. fold entries in Hk.
  assert (Hsorted : StronglySorted (ge_key cpu_percent) ranked)
    by now apply sort_desc_sorted.
  assert (Hlen : length ranked = count).
  { unfold ranked, count.
    rewrite (Permutation_length (sort_desc_perm cpu_percent entries)).
    apply collect_procs_length. }
  exists (slice_to ranked n). split; [reflexivity|].
  split; [|split].
  { intros Hn. unfold slice_to. destruct (Z.ltb_spec n 0); [lia|].
    split; [reflexivity|]. now rewrite length_firstn, Hlen. }
  { intros Hn. unfold slice_to. destruct (Z.ltb_spec n 0); [|lia].
    rewrite Hlen. split; [reflexivity|]. rewrite length_firstn, Hlen. lia. }
  split; [apply sort_desc_perm|].
  split.
  { unfold slice_to. destruct (n <? 0); now apply StronglySorted_firstn. }
  split; [exact Hsorted|]. split; [|split].
  - intros x Hx. apply sort_desc_stable; [|exact Hk].
    rewrite List.Forall_forall in Hk. now apply Hk.
  - intros ps1 p ps2 -> Hp. unfold entries.
    rewrite !collect_procs_app. f_equal. cbn [collect_procs].
    unfold readable in Hp. now destruct (p ≫= _).
  - reflexivity.
Qed.

(** C6 as stated fails for a negative [n]: of seven processes
    [get_top_processes(-2)] returns five, not [min(n, 7)] or none. *)
Lemma C6_counterexample_negative_n :
  ~ (forall (n : Z) (ps : list (result pinfo)) (top : list ProcessEntry),
        get_top_processes n (Ok ps) = Ok top ->
        length top
        = Z.to_nat (Z.min n (Z.of_nat (length (List.filter readable ps))))).
Proof.
  intros H.
  specialize (H (-2)
                (map (fun i => Ok (sample_process i 12.5)) [1; 2; 3; 4; 5; 6; 7])
                _ eq_refl).
  vm_compute in H. discriminate.
Qed.

Lemma C6_witness :
  let ps := [Ok (sample_process 11 12.5); Raise OSError;
             Ok (sample_process 12 40)] in
  exists top,
    get_top_processes 1 (Ok ps) = Ok top
    /\ top = firstn 1 (sort_desc cpu_percent (collect_procs ps))
    /\ length top = 1%nat.
Proof.
  intros ps.
  destruct (C6_top_processes_ranking 1 ps) as (top & Htop & Hpos & _).
  - repeat constructor.
  - exists top. split; [exact Htop|]. exact (Hpos ltac:(lia)).
Defined.

(** ** Requests served by concurrent threads *)

Section Threads.

Variable float_of_str : text -> result float.
Variable ws : list World.
Variable st0 : RateState.

Lemma serve_snoc (l : list World) (w : World) (st : RateState) :
  serve float_of_str (l ++ [w]) st
  = (((serve float_of_str l st).1
      ++ [(stats float_of_str w (serve float_of_str l st).2).1])%list,
     (stats float_of_str w (serve float_of_str l st).2).2).
Proof.
  revert st. induction l as [|x l IH]; intros st; cbn [app serve fst snd].
  - now destruct (stats float_of_str w st).
  - destruct (stats float_of_str x st) as [r st']. rewrite IH.
    destruct (serve float_of_str l st') as [rs st'']. reflexivity.
Qed.

Lemma serve_length (l : list World) (st : RateState) :
  length (serve float_of_str l st).1 = length l.
Proof.
  revert st. induction l as [|x l IH]; intros st; cbn [serve]; [reflexivity|].
  destruct (stats float_of_str x st) as [r st']. specialize (IH st').
  destruct (serve float_of_str l st'). cbn in *. now rewrite IH.
Qed.

Lemma worlds_of_snoc (l : list nat) (i : nat) (w : World) :
  ws !! i = Some w -> worlds_of ws (l ++ [i]) = (worlds_of ws l ++ [w])%list.
Proof.
  intros Hw. unfold worlds_of. rewrite omap_app. cbn. now rewrite Hw.
Qed.

Lemma worlds_of_length (l : list nat) :
  Forall (fun i => is_Some (ws !! i)) l ->
  length (worlds_of ws l) = length l.
Proof.
  unfold worlds_of. induction 1 as [|j l [w Hw] Hl IH]; [reflexivity|].
  cbn [omap list_omap]. rewrite Hw. cbn [length]. now f_equal.
Qed.

Lemma init_serialized :
  serialized float_of_str ws st0 (init_config (length ws) st0) [] [].
Proof.
  unfold serialized, init_config. cbn.
  split; [apply length_replicate|]. split; [reflexivity|].
  split; [constructor|]. split.
  - intros i _ Hi. now apply lookup_replicate_2.
  - split; [intros k i Hk; discriminate|]. auto.
Qed.

(** A thread that is not waiting has taken the lock. *)
Lemma not_waiting_in_order (c : config) (done cur : list nat) (i : nat)
    (p : phase) :
  serialized float_of_str ws st0 c done cur ->
  phases c !! i = Some p -> p <> Waiting -> i ∈ order c.
Proof.
  intros (Hlen & _ & _ & Hw & _) Hp Hne.
  destruct (decide (i ∈ order c)) as [|Hni]; [assumption|].
  exfalso. apply Hne.
  assert (i < length ws)%nat.
  { rewrite <- Hlen. now apply lookup_lt_Some in Hp. }
  specialize (Hw i Hni H). congruence.
Qed.

(** A thread inside the lock is the one at the end of the order. *)
Lemma inside_is_holder (c : config) (done cur : list nat) (i : nat)
    (p : phase) :
  serialized float_of_str ws st0 c done cur ->
  phases c !! i = Some p -> inside p = true ->
  cur = [i] /\ i ∉ done.
Proof.
  intros Hs Hp Hin.
  assert (Ho : i ∈ order c).
  { apply (not_waiting_in_order c done cur i p Hs Hp). now destruct p. }
  destruct Hs as (Hlen & Hord & Hnd & Hw & Hdone & Hcur).
  assert (Hnd' : i ∉ done).
  { intros Hd. apply list_elem_of_lookup in Hd as [k Hk].
    destruct (Hdone k i Hk) as (w & r & _ & _ & Hf).
    rewrite Hp in Hf. injection Hf as ->. discriminate. }
  split; [|exact Hnd'].
  rewrite Hord in Ho. apply elem_of_app in Ho as [Ho|Ho]; [contradiction|].
  destruct cur as [|h [|h' cur]]; [inversion Ho| |contradiction].
  apply list_elem_of_singleton in Ho. now subst.
Qed.

(** Every step keeps the process serialized. *)
Lemma step_serialized (c c' : config) (done cur : list nat) :
  serialized float_of_str ws st0 c done cur ->
  thread_step float_of_str ws c c' ->
  exists done' cur', serialized float_of_str ws st0 c' done' cur'.
Proof.
  intros Hs Hstep.
  destruct Hstep as [i Hp Hl|i w rd rates Hp Hw Hrd Hr|i w e Hp Hw He
                    |i w rd rates Hp Hw|i r Hp].
  - (* acquire *)
    destruct Hs as (Hlen & Hord & Hnd & Hwait & Hdone & Hcur).
    destruct cur as [|h [|h' cur]]; [|destruct Hcur; congruence|contradiction].
    destruct Hcur as [_ Hsh]. rewrite app_nil_r in Hord.
    assert (Hi : (i < length ws)%nat).
    { rewrite <- Hlen. now apply lookup_lt_Some in Hp. }
    destruct (lookup_lt_is_Some_2 ws i Hi) as [w Hw].
    assert (Hni : i ∉ done).
    { intros Hd. apply list_elem_of_lookup in Hd as [k Hk].
      destruct (Hdone k i Hk) as (w' & r & _ & _ & Hf). congruence. }
    exists done, [i]. unfold serialized. cbn [phases order shared locked].
    split; [now rewrite length_insert|]. split; [now rewrite Hord|].
    split.
    { rewrite Hord. apply NoDup_app. split; [now rewrite <- Hord|].
      split; [|apply NoDup_singleton].
      intros x Hx Hx'. apply list_elem_of_singleton in Hx'. now subst. }
    split.
    { intros j Hj Hjl. rewrite list_lookup_insert_ne.
      - apply Hwait; [|exact Hjl]. intros Hin. apply Hj.
        apply elem_of_app. now left.
      - intros ->. apply Hj. apply elem_of_app. right.
        now apply list_elem_of_singleton. }
    split.
    { intros k j Hk. destruct (Hdone k j Hk) as (w' & r & Hw' & Hr & Hf).
      exists w', r. split; [exact Hw'|]. split; [exact Hr|].
      rewrite list_lookup_insert_ne; [exact Hf|].
      intros ->. apply Hni. now apply list_elem_of_lookup_2 in Hk. }
    split; [reflexivity|]. exists w. split; [exact Hw|].
    unfold holder_ok. cbn [phases shared].
    rewrite list_lookup_insert_eq by now apply lookup_lt_Some in Hp.
    exact Hsh.
  - (* sample *)
    destruct (inside_is_holder c done cur i _ Hs Hp eq_refl) as [-> Hni].
    destruct Hs as (Hlen & Hord & Hnd & Hwait & Hdone & Hcur).
    destruct Hcur as (Hlk & w' & Hw' & Hh).
    rewrite Hw in Hw'. injection Hw' as <-.
    unfold holder_ok in Hh. rewrite Hp in Hh.
    exists done, [i]. unfold serialized. cbn [phases order shared locked].
    split; [now rewrite length_insert|]. split; [exact Hord|].
    split; [exact Hnd|]. split.
    { intros j Hj Hjl. rewrite list_lookup_insert_ne; [now apply Hwait|].
      intros ->. apply Hj. rewrite Hord. apply elem_of_app. right.
      now apply list_elem_of_singleton. }
    split.
    { intros k j Hk. destruct (Hdone k j Hk) as (w' & r & Hw' & Hr' & Hf).
      exists w', r. split; [exact Hw'|]. split; [exact Hr'|].
      rewrite list_lookup_insert_ne; [exact Hf|].
      intros ->. apply Hni. now apply list_elem_of_lookup_2 in Hk. }
    split; [exact Hlk|]. exists w. split; [exact Hw|].
    unfold holder_ok. cbn [phases shared].
    rewrite list_lookup_insert_eq by now apply lookup_lt_Some in Hp.
    rewrite <- Hh. auto.
  - (* an exception before the update *)
    destruct (inside_is_holder c done cur i _ Hs Hp eq_refl) as [-> Hni].
    destruct Hs as (Hlen & Hord & Hnd & Hwait & Hdone & Hcur).
    destruct Hcur as (Hlk & w' & Hw' & Hh).
    rewrite Hw in Hw'. injection Hw' as <-.
    unfold holder_ok in Hh. rewrite Hp in Hh.
    exists done, [i]. unfold serialized. cbn [phases order shared locked].
    split; [now rewrite length_insert|]. split; [exact Hord|].
    split; [exact Hnd|]. split.
    { intros j Hj Hjl. rewrite list_lookup_insert_ne; [now apply Hwait|].
      intros ->. apply Hj. rewrite Hord. apply elem_of_app. right.
      now apply list_elem_of_singleton. }
    split.
    { intros k j Hk. destruct (Hdone k j Hk) as (w' & r & Hw' & Hr' & Hf).
      exists w', r. split; [exact Hw'|]. split; [exact Hr'|].
      rewrite list_lookup_insert_ne; [exact Hf|].
      intros ->. apply Hni. now apply list_elem_of_lookup_2 in Hk. }
    split; [exact Hlk|]. exists w. split; [exact Hw|].
    unfold holder_ok. cbn [phases shared].
    rewrite list_lookup_insert_eq by now apply lookup_lt_Some in Hp.
    rewrite <- Hh. unfold stats.
    apply bind_Raise_inv in He as [He|(rd & Hrd & He)].
    + now rewrite He.
    + now rewrite Hrd, He.
  - (* the update of _prev *)
    destruct (inside_is_holder c done cur i _ Hs Hp eq_refl) as [-> Hni].
    destruct Hs as (Hlen & Hord & Hnd & Hwait & Hdone & Hcur).
    destruct Hcur as (Hlk & w' & Hw' & Hh).
    rewrite Hw in Hw'. injection Hw' as <-.
    unfold holder_ok in Hh. rewrite Hp in Hh. destruct Hh as (Hsh & Hrd & Hr).
    exists done, [i]. unfold serialized. cbn [phases order shared locked].
    split; [now rewrite length_insert|]. split; [exact Hord|].
    split; [exact Hnd|]. split.
    { intros j Hj Hjl. rewrite list_lookup_insert_ne; [now apply Hwait|].
      intros ->. apply Hj. rewrite Hord. apply elem_of_app. right.
      now apply list_elem_of_singleton. }
    split.
    { intros k j Hk. destruct (Hdone k j Hk) as (w' & r & Hw' & Hr' & Hf).
      exists w', r. split; [exact Hw'|]. split; [exact Hr'|].
      rewrite list_lookup_insert_ne; [exact Hf|].
      intros ->. apply Hni. now apply list_elem_of_lookup_2 in Hk. }
    split; [exact Hlk|]. exists w. split; [exact Hw|].
    unfold holder_ok. cbn [phases shared].
    rewrite list_lookup_insert_eq by now apply lookup_lt_Some in Hp.
    unfold stats. now rewrite Hrd, Hr.
  - (* release *)
    destruct (inside_is_holder c done cur i _ Hs Hp eq_refl) as [-> Hni].
    destruct Hs as (Hlen & Hord & Hnd & Hwait & Hdone & Hcur).
    destruct Hcur as (Hlk & w & Hw & Hh).
    unfold holder_ok in Hh. rewrite Hp in Hh.
    assert (Hlen_done : length (worlds_of ws done) = length done).
    { apply worlds_of_length. apply Forall_forall. intros j Hj.
      apply list_elem_of_lookup in Hj as [k Hk].
      destruct (Hdone k j Hk) as (w' & _ & Hw' & _). now exists w'. }
    exists (done ++ [i])%list, []. unfold serialized.
    cbn [phases order shared locked].
    rewrite (worlds_of_snoc done i w Hw), serve_snoc. cbn [fst snd].
    rewrite <- Hh. cbn [fst snd].
    split; [now rewrite length_insert|].
    split; [now rewrite app_nil_r|]. split; [exact Hnd|]. split.
    { intros j Hj Hjl. rewrite list_lookup_insert_ne; [now apply Hwait|].
      intros ->. apply Hj. rewrite Hord. apply elem_of_app. right.
      now apply list_elem_of_singleton. }
    split; [|auto].
    intros k j Hk. apply lookup_app_Some in Hk as [Hk|[Hge Hk]].
    + destruct (Hdone k j Hk) as (w' & r' & Hw' & Hr' & Hf).
      exists w', r'. split; [exact Hw'|]. split.
      * rewrite lookup_app_l; [exact Hr'|]. now apply lookup_lt_Some in Hr'.
      * rewrite list_lookup_insert_ne; [exact Hf|].
        intros ->. apply Hni. now apply list_elem_of_lookup_2 in Hk.
    + apply list_lookup_singleton_Some in Hk as [Hk ->].
      exists w, r. split; [exact Hw|]. split.
      * rewrite lookup_app_r; rewrite serve_length, Hlen_done; [|lia].
        replace (k - length done)%nat with 0%nat by lia. reflexivity.
      * apply list_lookup_insert_eq. now apply lookup_lt_Some in Hp.
Qed.

Lemma reachable_serialized (c : config) :
  rtc (thread_step float_of_str ws) (init_config (length ws) st0) c ->
  exists done cur, serialized float_of_str ws st0 c done cur.
Proof.
  intros H. revert c H. apply rtc_ind_r.
  - exists [], []. apply init_serialized.
  - intros c1 c2 _ Hs (done & cur & Hinv).
    exact (step_serialized c1 c2 done cur Hinv Hs).
Qed.

(** C3: in every state that threads running [stats] can reach, at most
    one thread is between taking and releasing the lock; the rates a
    thread holds were computed from the [_prev] that is still stored
    when it writes; and the threads that have finished got the
    responses of sequential calls of [stats] in the order in which they
    took the lock, [_prev] being the state after those calls whenever
    the lock is free. *)
Theorem C3_concurrent_requests_are_serialized (c : config) :
  rtc (thread_step float_of_str ws) (init_config (length ws) st0) c ->
  (forall i j p q,
     phases c !! i = Some p -> phases c !! j = Some q ->
     inside p = true -> inside q = true -> i = j)
  /\ (forall i w rd rates,
        phases c !! i = Some (Sampled rd rates) -> ws !! i = Some w ->
        core_reads w = Ok rd
        /\ compute_rates (shared c) (time_time w) (r_net_counters rd)
             (r_disk_io rd) = Ok rates)
  /\ exists done cur,
       order c = (done ++ cur)%list
       /\ (forall i r,
             phases c !! i = Some (Finished r) ->
             exists k, done !! k = Some i
               /\ (serve float_of_str (worlds_of ws done) st0).1 !! k = Some r)
       /\ (locked c = false ->
           cur = []
           /\ shared c = (serve float_of_str (worlds_of ws done) st0).2).
Proof.
  intros Hreach.
  destruct (reachable_serialized c Hreach) as (done & cur & Hs).
  split; [|split].
  - intros i j p q Hp Hq Hip Hiq.
    destruct (inside_is_holder c done cur i p Hs Hp Hip) as [Hi _].
    destruct (inside_is_holder c done cur j q Hs Hq Hiq) as [Hj _].
    congruence.
  - intros i w rd rates Hp Hw.
    destruct (inside_is_holder c done cur i _ Hs Hp eq_refl) as [-> _].
    destruct Hs as (_ & _ & _ & _ & _ & _ & w' & Hw' & Hh).
    rewrite Hw in Hw'. injection Hw' as <-.
    unfold holder_ok in Hh. rewrite Hp in Hh.
    destruct Hh as (-> & Hrd & Hr). auto.
  - exists done, cur.
    pose proof Hs as (Hlen & Hord & Hnd & Hwait & Hdone & Hcur).
    split; [exact Hord|]. split.
    + intros i r Hp.
      assert (Ho : i ∈ order c)
        by now apply (not_waiting_in_order c done cur i _ Hs Hp).
      rewrite Hord in Ho. apply elem_of_app in Ho as [Ho|Ho].
      * apply list_elem_of_lookup in Ho as [k Hk]. exists k.
        split; [exact Hk|].
        destruct (Hdone k i Hk) as (w & r' & _ & Hr' & Hf). congruence.
      * exfalso. destruct cur as [|h [|h' cur]]; [inversion Ho| |contradiction].
        apply list_elem_of_singleton in Ho. subst h.
        destruct Hcur as (_ & w & _ & Hh). unfold holder_ok in Hh.
        now rewrite Hp in Hh.
    + intros Hl. destruct cur as [|h [|h' cur]]; [|destruct Hcur; congruence
                                                  |contradiction].
      destruct Hcur as [_ Hsh]. auto.
Qed.

End Threads.

Lemma C3_witness :
  exists done cur,
    order second_entered = (done ++ cur)%list
    /\ (forall i r,
          phases second_entered !! i = Some (Finished r) ->
          exists k, done !! k = Some i
            /\ (serve no_float_parser (worlds_of two_requests done)
                  initial_prev).1 !! k = Some r)
    /\ (locked second_entered = false ->
        cur = []
        /\ shared second_entered
           = (serve no_float_parser (worlds_of two_requests done)
                initial_prev).2).
Proof.
  refine (proj2 (proj2 (C3_concurrent_requests_are_serialized
                          no_float_parser two_requests initial_prev
                          second_entered _))).
  eapply rtc_l; [apply (step_acquire _ _ _ 0%nat); reflexivity|].
  eapply rtc_l; [eapply (step_sample _ _ _ 0%nat); reflexivity|].
  eapply rtc_l; [eapply (step_update _ _ _ 0%nat); reflexivity|].
  eapply rtc_l; [apply (step_release _ _ _ 0%nat); reflexivity|].
  eapply rtc_l; [apply (step_acquire _ _ _ 1%nat); reflexivity|].
  apply rtc_refl.
Defined.

(** ** Further properties of the rate tracker *)

Section RateProperties.

Variable float_of_str : text -> result float.

Lemma rate_guard_passes {A : Type} (p : A) (now ts : float) :
  float_truthy ts = true ->
  gt (PyFloat (now - ts)%float) (PyInt 0) = true ->
  rate_guard (Some p) (Some ts) (delta_t_of now (Some ts))
  = Some (p, (now - ts)%float).
Proof.
  intros Hts Hgt. unfold rate_guard, delta_t_of. rewrite Hts.
  now rewrite (gt_zero_truthy _ Hgt), Hgt.
Qed.

Lemma rate_Ok_inv (cur prev : Z) (d q : float) :
  rate cur prev d = Ok q ->
  exists x, int_to_float (cur - prev) = Ok x /\ q = (x / d)%float.
Proof.
  unfold rate, float_div. intros H.
  apply bind_Ok_inv in H as (x & Hx & H).
  destruct (d =? 0)%float; [discriminate|]. injection H as <-. eauto.
Qed.

(** The two rates of one counter read once the guard passes: the read
    answered a tuple, and each rate is the float of the counter
    difference divided by the elapsed time. *)
Lemma rate_pair_Ok_inv {A : Type} (obj : option A) (f1 f2 : A -> Z)
    (p1 p2 : Z) (d : float) (x : option float * option float) :
  (c1 ← attr obj f1; a ← rate c1 p1 d;
   c2 ← attr obj f2; b ← rate c2 p2 d;
   Ok (Some a, Some b)) = Ok x ->
  exists cur u v,
    obj = Some cur
    /\ int_to_float (f1 cur - p1) = Ok u
    /\ int_to_float (f2 cur - p2) = Ok v
    /\ x = (Some (u / d)%float, Some (v / d)%float).
Proof.
  destruct obj as [cur|]; [|discriminate]. cbn [attr]. intros H.
  rewrite bind_Ok_l in H.
  apply bind_Ok_inv in H as (a & Ha & H). rewrite bind_Ok_l in H.
  apply bind_Ok_inv in H as (b & Hb & H). injection H as <-.
  apply rate_Ok_inv in Ha as (u & Hu & ->).
  apply rate_Ok_inv in Hb as (v & Hv & ->).
  exists cur, u, v. auto.
Qed.

Lemma net_rates_computable (st : RateState) (now : float)
    (net : option snetio) (disk : option sdiskio) (pn : snetio) (ts : float)
    (rates : Rates) :
  prev_net st = Some pn -> prev_ts st = Some ts ->
  float_truthy ts = true ->
  gt (PyFloat (now - ts)%float) (PyInt 0) = true ->
  compute_rates st now net disk = Ok rates ->
  exists cur up down,
    net = Some cur
    /\ int_to_float (bytes_sent cur - bytes_sent pn) = Ok up
    /\ int_to_float (bytes_recv cur - bytes_recv pn) = Ok down
    /\ upload_bps rates = Some (up / (now - ts))%float
    /\ download_bps rates = Some (down / (now - ts))%float.
Proof.
  intros Hn Hts Htruthy Hgt Hr.
  unfold compute_rates in Hr. rewrite Hn, Hts in Hr.
  rewrite rate_guard_passes in Hr by assumption.
  apply bind_Ok_inv in Hr as (x & Hnet & Hr).
  apply bind_Ok_inv in Hr as (y & _ & Hr). injection Hr as <-.
  apply rate_pair_Ok_inv in Hnet as (cur & u & v & -> & Hu & Hv & ->).
  exists cur, u, v. auto.
Qed.

Lemma disk_rates_computable (st : RateState) (now : float)
    (net : option snetio) (disk : option sdiskio) (pd : sdiskio) (ts : float)
    (rates : Rates) :
  prev_disk st = Some pd -> prev_ts st = Some ts ->
  float_truthy ts = true ->
  gt (PyFloat (now - ts)%float) (PyInt 0) = true ->
  compute_rates st now net disk = Ok rates ->
  exists cur rd wr,
    disk = Some cur
    /\ int_to_float (read_bytes cur - read_bytes pd) = Ok rd
    /\ int_to_float (write_bytes cur - write_bytes pd) = Ok wr
    /\ read_bps rates = Some (rd / (now - ts))%float
    /\ write_bps rates = Some (wr / (now - ts))%float.
Proof.
  intros Hd Hts Htruthy Hgt Hr.
  unfold compute_rates in Hr. rewrite Hd, Hts in Hr.
  rewrite (rate_guard_passes pd) in Hr by assumption.
  apply bind_Ok_inv in Hr as (x & _ & Hr).
  apply bind_Ok_inv in Hr as (y & Hdisk & Hr). injection Hr as <-.
  apply rate_pair_Ok_inv in Hdisk as (cur & u & v & -> & Hu & Hv & ->).
  exists cur, u, v. auto.
Qed.

(** Without stored counters of a kind, the two rates of that kind are
    absent. *)
Lemma rates_absent (st : RateState) (now : float)
    (net : option snetio) (disk : option sdiskio) (rates : Rates) :
  compute_rates st now net disk = Ok rates ->
  (prev_net st = None -> upload_bps rates = None /\ download_bps rates = None)
  /\ (prev_disk st = None -> read_bps rates = None /\ write_bps rates = None).
Proof.
  unfold compute_rates. intros Hr.
  apply bind_Ok_inv in Hr as (x & Hnet & Hr).
  apply bind_Ok_inv in Hr as (y & Hdisk & Hr). injection Hr as <-.
  cbn [upload_bps download_bps read_bps write_bps]. split; intros E.
  - rewrite E in Hnet. cbn [rate_guard] in Hnet. now injection Hnet as <-.
  - rewrite E in Hdisk. cbn [rate_guard] in Hdisk. now injection Hdisk as <-.
Qed.

(** An answered request went through every stage of [stats]. *)
Lemma stats_Ok_inv (w : World) (st : RateState) (p : Payload) :
  (stats float_of_str w st).1 = Ok p ->
  exists rd rates,
    core_reads w = Ok rd
    /\ compute_rates st (time_time w) (r_net_counters rd) (r_disk_io rd)
       = Ok rates
    /\ compose float_of_str w rd rates = Ok p
    /\ (stats float_of_str w st).2
       = stored_sample (time_time w) (r_net_counters rd) (r_disk_io rd).
Proof.
  unfold stats. destruct (core_reads w) as [rd|e]; [|discriminate].
  destruct (compute_rates _ _ _ _) as [rates|] eqn:Hr; [|discriminate].
  cbn [fst snd]. intros H. exists rd, rates. auto.
Qed.

(** X1: With a sample stored at a clock reading other than zero and a
    positive elapsed time, every response carries the four rates, each
    the float of its counter difference divided by the elapsed time;
    both counter reads of the request answered a tuple. *)
Theorem rates_when_computable (w : World) (st : RateState) (rd : CoreReads)
    (pn : snetio) (pd : sdiskio) (ts : float) (p : Payload) :
  core_reads w = Ok rd ->
  prev_net st = Some pn -> prev_disk st = Some pd -> prev_ts st = Some ts ->
  float_truthy ts = true ->
  gt (PyFloat (time_time w - ts)%float) (PyInt 0) = true ->
  (stats float_of_str w st).1 = Ok p ->
  let dt := (time_time w - ts)%float in
  exists net disk up down rd_ wr,
    r_net_counters rd = Some net
    /\ r_disk_io rd = Some disk
    /\ int_to_float (bytes_sent net - bytes_sent pn) = Ok up
    /\ int_to_float (bytes_recv net - bytes_recv pn) = Ok down
    /\ int_to_float (read_bytes disk - read_bytes pd) = Ok rd_
    /\ int_to_float (write_bytes disk - write_bytes pd) = Ok wr
    /\ p_net_upload_bps p = Some (up / dt)%float
    /\ p_net_download_bps p = Some (down / dt)%float
    /\ p_disk_read_bps p = Some (rd_ / dt)%float
    /\ p_disk_write_bps p = Some (wr / dt)%float.
Proof.
  intros Hrd Hn Hd Hts Htruthy Hgt Hp dt.
  apply stats_Ok_inv in Hp as (rd' & rates & Hrd' & Hr & Hp & _).
  rewrite Hrd in Hrd'. injection Hrd' as <-.
  apply compose_rates in Hp as (-> & -> & -> & ->).
  destruct (net_rates_computable _ _ _ _ pn ts rates Hn Hts Htruthy Hgt Hr)
    as (net & x1 & x2 & Hnet & H1 & H2 & -> & ->).
  destruct (disk_rates_computable _ _ _ _ pd ts rates Hd Hts Htruthy Hgt Hr)
    as (disk & x3 & x4 & Hdisk & H3 & H4 & -> & ->).
  exists net, disk, x1, x2, x3, x4. auto 12.
Qed.

(** X2: Of two requests answered one after the other, the second
    reports the rates between the two samples, whatever was stored
    before the first: the tracker needs one request to settle.  This is
    so for each counter read that answered a tuple at the first request;
    where it answered [None] (no interface, no disk) the second request
    reports no rate of that kind. *)
Theorem second_request_rates (w1 w2 : World) (st : RateState)
    (rd1 rd2 : CoreReads) (p1 p2 : Payload) :
  core_reads w1 = Ok rd1 -> core_reads w2 = Ok rd2 ->
  (serve float_of_str [w1; w2] st).1 = [Ok p1; Ok p2] ->
  float_truthy (time_time w1) = true ->
  gt (PyFloat (time_time w2 - time_time w1)%float) (PyInt 0) = true ->
  let dt := (time_time w2 - time_time w1)%float in
  match r_net_counters rd1 with
  | Some n1 =>
      exists n2 up down,
        r_net_counters rd2 = Some n2
        /\ int_to_float (bytes_sent n2 - bytes_sent n1) = Ok up
        /\ int_to_float (bytes_recv n2 - bytes_recv n1) = Ok down
        /\ p_net_upload_bps p2 = Some (up / dt)%float
        /\ p_net_download_bps p2 = Some (down / dt)%float
  | None => p_net_upload_bps p2 = None /\ p_net_download_bps p2 = None
  end
  /\ match r_disk_io rd1 with
     | Some d1 =>
         exists d2 rd wr,
           r_disk_io rd2 = Some d2
           /\ int_to_float (read_bytes d2 - read_bytes d1) = Ok rd
           /\ int_to_float (write_bytes d2 - write_bytes d1) = Ok wr
           /\ p_disk_read_bps p2 = Some (rd / dt)%float
           /\ p_disk_write_bps p2 = Some (wr / dt)%float
     | None => p_disk_read_bps p2 = None /\ p_disk_write_bps p2 = None
     end
  /\ (serve float_of_str [w1; w2] st).2
     = {| prev_net := r_net_counters rd2;
          prev_disk := r_disk_io rd2;
          prev_ts := Some (time_time w2) |}.
Proof.
  intros Hrd1 Hrd2 Hs Ht Hgt dt. cbn [serve] in Hs |- *.
  destruct (stats float_of_str w1 st) as [r1 st1] eqn:E1.
  destruct (stats float_of_str w2 st1) as [r2 st2] eqn:E2.
  cbn [fst snd] in Hs |- *. injection Hs as -> ->.
  destruct (stats_Ok_inv w1 st p1) as (rd & rates1 & Hrd & _ & _ & Hst1);
    [now rewrite E1|].
  rewrite E1 in Hst1. cbn [snd] in Hst1.
  rewrite Hrd1 in Hrd. injection Hrd as <-.
  destruct (stats_Ok_inv w2 st1 p2) as (rd & rates & Hrd & Hr & Hp & Hst2);
    [now rewrite E2|].
  rewrite E2 in Hst2. cbn [snd] in Hst2.
  rewrite Hrd2 in Hrd. injection Hrd as <-.
  apply compose_rates in Hp as (Hu & Hd & Hrb & Hwb).
  subst st1. split; [|split; [|exact Hst2]].
  - destruct (r_net_counters rd1) as [n1|] eqn:En.
    + destruct (net_rates_computable
                  (stored_sample (time_time w1) (Some n1) (r_disk_io rd1))
                  _ _ _ n1 (time_time w1) rates
                  eq_refl eq_refl Ht Hgt Hr)
        as (n2 & up & down & Hn2 & Hup & Hdown & Hx & Hy).
      exists n2, up, down. rewrite Hu, Hd. auto.
    + rewrite Hu, Hd. now apply (rates_absent _ _ _ _ _ Hr).
  - destruct (r_disk_io rd1) as [d1|] eqn:Ed.
    + destruct (disk_rates_computable
                  (stored_sample (time_time w1) (r_net_counters rd1) (Some d1))
                  _ _ _ d1 (time_time w1) rates
                  eq_refl eq_refl Ht Hgt Hr)
        as (d2 & rd & wr & Hd2 & Hrd & Hwr & Hx & Hy).
      exists d2, rd, wr. rewrite Hrb, Hwb. auto.
    + rewrite Hrb, Hwb. now apply (rates_absent _ _ _ _ _ Hr).
Qed.

(** A float minus itself is zero or [nan], never positive. *)
Lemma sub_self_not_positive (x : float) :
  gt (PyFloat (x - x)%float) (PyInt 0) = false.
Proof.
  unfold gt, lt, int_compare_float. rewrite FloatAxioms.sub_spec.
  unfold SF64sub, SFsub.
  destruct (Prim2SF x) as [s|s| |s m e]; try reflexivity.
  - now destruct s.
  - now destruct s.
  - rewrite Z.sub_diag. reflexivity.
Qed.

(** X3: A request that reads the same clock value as the one stored gets no
    rate: requests closer than the clock resolution are guarded. *)
Theorem same_clock_reading_no_rates (w : World) (st : RateState)
    (p : Payload) :
  prev_ts st = Some (time_time w) ->
  (stats float_of_str w st).1 = Ok p ->
  p_net_upload_bps p = None /\ p_net_download_bps p = None
  /\ p_disk_read_bps p = None /\ p_disk_write_bps p = None.
Proof.
  intros Hts Hp. unfold stats in Hp.
  destruct (core_reads w) as [rd|]; [|discriminate].
  assert (Hr : compute_rates st (time_time w) (r_net_counters rd)
                 (r_disk_io rd) = Ok no_rates).
  { unfold compute_rates.
    assert (Hg : forall A (prev : option A),
              rate_guard prev (prev_ts st)
                (delta_t_of (time_time w) (prev_ts st)) = None).
    { intros A prev. rewrite Hts. unfold rate_guard, delta_t_of.
      destruct prev; [|reflexivity].
      destruct (float_truthy (time_time w)); [|reflexivity].
      rewrite sub_self_not_positive. now rewrite andb_false_r. }
    now rewrite !Hg. }
  rewrite Hr in Hp. cbn [fst] in Hp. now apply compose_rates in Hp.
Qed.

Lemma float_to_int_not_number (f : float) :
  ~ is_number f ->
  float_to_int f = Raise ValueError \/ float_to_int f = Raise OverflowError.
Proof.
  unfold is_number, float_to_int.
  destruct (Prim2SF f); intros H; auto; now destruct H.
Qed.

(** X4: A failure after line 145 does not undo the update: when the reads
    succeed with 64-bit counters and the uptime of line 191 is [nan] or
    infinite, the request fails and [_prev] holds the new sample all
    the same.  The exception is the one of [int()], unless the process
    enumeration of line 165 has raised before. *)
Theorem late_failure_keeps_update (w : World) (st : RateState)
    (rd : CoreReads) :
  core_reads w = Ok rd ->
  state_in_range st ->
  net_in_range (r_net_counters rd) -> disk_in_range (r_disk_io rd) ->
  ~ is_number (time_time_uptime w - boot_time w)%float ->
  exists e,
    match process_iter w with
    | Ok _ => e = ValueError \/ e = OverflowError
    | Raise e' => e = e'
    end
    /\ stats float_of_str w st
       = (Raise e,
          {| prev_net := r_net_counters rd;
             prev_disk := r_disk_io rd;
             prev_ts := Some (time_time w) |}).
Proof.
  intros Hrd Hst Hnet Hdisk Hup. unfold stats. rewrite Hrd.
  destruct (compute_rates_in_range st (time_time w) _ _ Hst Hnet Hdisk)
    as [rates ->].
  unfold compose, get_top_processes.
  destruct (process_iter w) as [ps|e']; cbn [mbind result_bind].
  - destruct (float_to_int_not_number _ Hup) as [-> | ->];
      cbn [mbind result_bind]; eauto.
  - eauto.
Qed.

(** X5: The baseline of the [__main__] block stores the answers of the
    two counter reads and the clock reading.  When it was taken at a
    clock reading other than zero, the first request answered at a later
    clock reading carries the two rates of each kind whose read had
    answered a tuple at startup, and no rate of a kind whose read had
    answered [None]. *)
Theorem first_request_after_baseline (w0 w : World) (st : RateState)
    (p : Payload) :
  main_baseline w0 = Ok st ->
  float_truthy (time_time w0) = true ->
  gt (PyFloat (time_time w - time_time w0)%float) (PyInt 0) = true ->
  (stats float_of_str w st).1 = Ok p ->
  net_io_counters w0 = Ok (prev_net st)
  /\ disk_io_counters w0 = Ok (prev_disk st)
  /\ prev_ts st = Some (time_time w0)
  /\ (is_Some (p_net_upload_bps p) <-> is_Some (prev_net st))
  /\ (is_Some (p_net_download_bps p) <-> is_Some (prev_net st))
  /\ (is_Some (p_disk_read_bps p) <-> is_Some (prev_disk st))
  /\ (is_Some (p_disk_write_bps p) <-> is_Some (prev_disk st)).
Proof.
  intros Hb Ht Hgt Hp. unfold main_baseline in Hb.
  apply bind_Ok_inv in Hb as (net & Hn & Hb).
  apply bind_Ok_inv in Hb as (disk & Hd & Hb). injection Hb as <-.
  cbn [stored_sample prev_net prev_disk prev_ts].
  split; [exact Hn|]. split; [exact Hd|]. split; [reflexivity|].
  apply stats_Ok_inv in Hp as (rd & rates & _ & Hr & Hp & _).
  apply compose_rates in Hp as (-> & -> & -> & ->).
  assert (Hnet : (is_Some (upload_bps rates) <-> is_Some net)
                 /\ (is_Some (download_bps rates) <-> is_Some net)).
  { destruct net as [n0|].
    - destruct (net_rates_computable
                  (stored_sample (time_time w0) (Some n0) disk)
                  _ _ _ n0 (time_time w0) rates eq_refl eq_refl Ht Hgt Hr)
        as (cur & up & down & _ & _ & _ & -> & ->).
      split; split; eauto.
    - destruct (proj1 (rates_absent _ _ _ _ _ Hr) eq_refl) as [-> ->].
      split; split; intros [? [=]]. }
  assert (Hdisk : (is_Some (read_bps rates) <-> is_Some disk)
                  /\ (is_Some (write_bps rates) <-> is_Some disk)).
  { destruct disk as [d0|].
    - destruct (disk_rates_computable
                  (stored_sample (time_time w0) net (Some d0))
                  _ _ _ d0 (time_time w0) rates eq_refl eq_refl Ht Hgt Hr)
        as (cur & rd' & wr & _ & _ & _ & -> & ->).
      split; split; eauto.
    - destruct (proj2 (rates_absent _ _ _ _ _ Hr) eq_refl) as [-> ->].
      split; split; intros [? [=]]. }
  tauto.
Qed.

End RateProperties.

Lemma rates_when_computable_witness :
  exists p,
    (stats no_float_parser later_host earlier_sample).1 = Ok p
    /\ p_net_upload_bps p = Some 1000%float
    /\ p_net_download_bps p = Some 250%float
    /\ p_disk_read_bps p = Some 2048%float
    /\ p_disk_write_bps p = Some 512%float.
Proof.
  eexists. split; [vm_compute; reflexivity|].
  destruct (rates_when_computable no_float_parser later_host earlier_sample
              _ (net_sample 1000 2000) (disk_sample 512 0) 1%float _
              eq_refl eq_refl eq_refl eq_refl eq_refl eq_refl eq_refl)
    as (net & disk & up & down & rd_ & wr & Hn & Hd & H1 & H2 & H3 & H4
        & H5 & H6 & H7 & H8).
  injection Hn as <-. injection Hd as <-.
  vm_compute in H1, H2, H3, H4.
  injection H1 as <-. injection H2 as <-.
  injection H3 as <-. injection H4 as <-.
  split; [exact H5|]. split; [exact H6|]. split; [exact H7 | exact H8].
Defined.

Lemma second_request_rates_witness :
  exists p1 p2,
    (serve no_float_parser
       [plain_host 1 (net_sample 1000 2000) (disk_sample 512 0); later_host]
       initial_prev).1 = [Ok p1; Ok p2]
    /\ p_net_upload_bps p1 = None
    /\ p_net_upload_bps p2 = Some 1000%float
    /\ p_net_download_bps p2 = Some 250%float.
Proof.
  eexists. eexists. split; [vm_compute; reflexivity|].
  split; [reflexivity|].
  destruct (second_request_rates no_float_parser
              (plain_host 1 (net_sample 1000 2000) (disk_sample 512 0))
              later_host initial_prev _ _ _ _
              eq_refl eq_refl eq_refl eq_refl eq_refl)
    as ((n2 & up & down & Hn2 & H1 & H2 & H3 & H4) & _).
  injection Hn2 as <-.
  vm_compute in H1, H2. injection H1 as <-. injection H2 as <-.
  split; [exact H3 | exact H4].
Defined.

Lemma same_clock_reading_no_rates_witness :
  exists p,
    (stats no_float_parser later_host
       (stored_sample 3 (Some (net_sample 1000 2000))
          (Some (disk_sample 512 0)))).1 = Ok p
    /\ p_net_upload_bps p = None /\ p_net_download_bps p = None
    /\ p_disk_read_bps p = None /\ p_disk_write_bps p = None.
Proof.
  eexists. split; [vm_compute; reflexivity|].
  exact (same_clock_reading_no_rates no_float_parser later_host
           (stored_sample 3 (Some (net_sample 1000 2000))
              (Some (disk_sample 512 0)))
           _ eq_refl eq_refl).
Defined.

Lemma late_failure_keeps_update_witness :
  exists e,
    (e = ValueError \/ e = OverflowError)
    /\ stats no_float_parser (with_boot_time nan later_host) earlier_sample
       = (Raise e,
          {| prev_net := Some (net_sample 3000 2500);
             prev_disk := Some (disk_sample 4608 1024);
             prev_ts := Some 3%float |}).
Proof.
  apply (late_failure_keeps_update no_float_parser
           (with_boot_time nan later_host) earlier_sample _ eq_refl).
  - split; intros c [= <-]; split; unfold counter_ok; cbn; lia.
  - split; unfold counter_ok; cbn; lia.
  - split; unfold counter_ok; cbn; lia.
  - intros H. vm_compute in H. exact H.
Defined.

Lemma first_request_after_baseline_witness :
  exists st p,
    main_baseline
      (plain_host 1 (net_sample 1000 2000) (disk_sample 512 0)) = Ok st
    /\ (stats no_float_parser later_host st).1 = Ok p
    /\ (is_Some (p_net_upload_bps p) <-> is_Some (prev_net st))
    /\ (is_Some (p_disk_read_bps p) <-> is_Some (prev_disk st))
    /\ prev_ts st = Some 1%float.
Proof.
  eexists. eexists. split; [reflexivity|].
  split; [vm_compute; reflexivity|].
  destruct (first_request_after_baseline no_float_parser
              (plain_host 1 (net_sample 1000 2000) (disk_sample 512 0))
              later_host _ _ eq_refl eq_refl eq_refl eq_refl)
    as (_ & _ & Hts & Hu & _ & Hr & _).
  split; [exact Hu|]. split; [exact Hr | exact Hts].
Defined.

(** ** Further properties of [bytes_to_human] and of the response *)

(** On a float the loop never raises: neither the comparison, the
    division by 1024.0 nor the rendering can fail. *)
Lemma bytes_to_human_from_float (us : list string) (x : float) :
  exists s, bytes_to_human_from us (PyFloat x) = Ok s.
Proof.
  revert x. induction us as [|u us IH]; intros x; cbn [bytes_to_human_from].
  - unfold format_1f, to_float. cbn [mbind result_bind]. eauto.
  - destruct (lt (PyFloat x) (PyFloat step)).
    + unfold format_1f, to_float. cbn [mbind result_bind]. eauto.
    + rewrite truediv_float_step. cbn [mbind result_bind]. apply IH.
Qed.

Lemma bytes_to_human_int_raises (n : Z) (e : exn) :
  bytes_to_human (PyInt n) = Raise e <-> int_to_float n = Raise e.
Proof.
  destruct (Z.lt_ge_cases n 1024) as [Hn|Hn].
  - rewrite bytes_to_human_small by assumption.
    destruct (int_to_float n); cbn [mbind result_bind]; split; congruence.
  - rewrite bytes_to_human_large by assumption.
    destruct (int_to_float n) as [f|e']; cbn [mbind result_bind];
      [|split; congruence].
    destruct (bytes_to_human_from_float ["KB"; "MB"; "GB"; "TB"]
                (f / step)%float) as [s ->].
    split; congruence.
Qed.

(** X6: [bytes_to_human] never raises on a float, [nan] and the infinities
    included; on an int it raises exactly when [float()] rejects the
    int, with the same exception, so never on a 64-bit byte count. *)
Theorem bytes_to_human_raises_as_float :
  (forall x, is_ok (bytes_to_human (PyFloat x)) = true)
  /\ (forall n e, bytes_to_human (PyInt n) = Raise e
                  <-> int_to_float n = Raise e)
  /\ (forall n, Z.abs n < 2 ^ 1023 -> is_ok (bytes_to_human (PyInt n)) = true).
Proof.
  split; [|split].
  - intros x. destruct (bytes_to_human_from_float units x) as [s Hs].
    unfold bytes_to_human. now rewrite Hs.
  - apply bytes_to_human_int_raises.
  - intros n Hn. destruct (bytes_to_human (PyInt n)) as [s|e] eqn:E;
      [reflexivity|].
    apply bytes_to_human_int_raises in E.
    destruct (int_to_float_ok n Hn) as [f Hf]. congruence.
Qed.

Lemma bytes_to_human_counter (n : Z) :
  counter_ok n -> exists s, bytes_to_human (PyInt n) = Ok s.
Proof.
  intros [H0 H1].
  destruct (bytes_to_human (PyInt n)) as [s|e] eqn:E; [eauto|].
  apply bytes_to_human_int_raises in E.
  destruct (int_to_float_ok n) as [f Hf]; [|congruence].
  rewrite Z.abs_eq by assumption.
  apply Z.lt_trans with (2 ^ 64); [assumption|].
  apply Z.pow_lt_mono_r; lia.
Qed.

Lemma human_sizes_counter (t u a : Z) :
  counter_ok t -> counter_ok u -> counter_ok a ->
  exists h, human_sizes t u a = Ok h.
Proof.
  intros Ht Hu Ha. unfold human_sizes.
  destruct (bytes_to_human_counter t Ht) as [s1 ->].
  destruct (bytes_to_human_counter u Hu) as [s2 ->].
  destruct (bytes_to_human_counter a Ha) as [s3 ->].
  cbn [mbind result_bind]. eauto.
Qed.

Lemma float_to_int_number (f : float) :
  is_number f -> exists z, float_to_int f = Ok z.
Proof.
  unfold is_number, float_to_int.
  destruct (Prim2SF f); intros H; try contradiction; eauto.
Qed.

Section Answered.

Variable float_of_str : text -> result float.

(** X7: A request is answered whenever the reads of lines 101-122 succeed,
    both counter reads answer tuples of 64-bit counters, the stored
    counters and the sizes are 64-bit, the process enumeration completes
    and the uptime is a number: nothing else in the handler can raise,
    whatever the GPU, the probe, the attribute reads of the processes,
    the battery and the interface list answer. *)
Theorem request_answered (w : World) (st : RateState) (rd : CoreReads) :
  core_reads w = Ok rd ->
  state_in_range st ->
  net_in_range (r_net_counters rd) -> disk_in_range (r_disk_io rd) ->
  sizes_in_range rd ->
  is_ok (process_iter w) = true ->
  is_number (time_time_uptime w - boot_time w)%float ->
  exists p, stats float_of_str w st
            = (Ok p, {| prev_net := r_net_counters rd;
                        prev_disk := r_disk_io rd;
                        prev_ts := Some (time_time w) |}).
Proof.
  intros Hrd Hst Hnet Hdisk (H1 & H2 & H3 & H4 & H5 & H6) Hps Hup.
  unfold stats. rewrite Hrd.
  destruct (compute_rates_in_range st (time_time w) _ _ Hst Hnet Hdisk)
    as [rates ->].
  unfold compose, get_top_processes.
  destruct (process_iter w) as [ps|]; [|discriminate].
  cbn [mbind result_bind].
  destruct (float_to_int_number _ Hup) as [z ->].
  destruct (human_sizes_counter _ _ _ H1 H2 H3) as [mh Hm].
  destruct (human_sizes_counter _ _ _ H4 H5 H6) as [dh Hd].
  cbn [mbind result_bind]. rewrite Hm. cbn [mbind result_bind].
  rewrite Hd. cbn [mbind result_bind]. eauto.
Qed.

End Answered.

Lemma request_answered_witness :
  exists p,
    stats no_float_parser later_host earlier_sample
    = (Ok p, {| prev_net := Some (net_sample 3000 2500);
                prev_disk := Some (disk_sample 4608 1024);
                prev_ts := Some 3%float |}).
Proof.
  apply (request_answered no_float_parser later_host earlier_sample _ eq_refl).
  - split; intros c [= <-]; split; unfold counter_ok; cbn; lia.
  - split; unfold counter_ok; cbn; lia.
  - split; unfold counter_ok; cbn; lia.
  - repeat split; cbn; lia.
  - reflexivity.
  - vm_compute. exact I.
Defined.

(** ** The optional sources *)

(** Closes a goal about two requests that have both failed. *)
Ltac failed_requests :=
  cbn [fst snd is_ok mbind result_bind];
  split; [reflexivity|split; [reflexivity|intros ? ? H; discriminate H]].

Section OptionalSources.

Variables float_of_str float_of_str' : text -> result float.

Lemma collect_procs_all_raise (ps : list (result pinfo)) :
  collect_procs (map (fun _ => Raise OSError) ps) = [].
Proof. induction ps as [|p ps IH]; [reflexivity|exact IH]. Qed.

(** X8: Two environments that agree on the clock, the reads of lines
    101-122, the boot time and on whether the process enumeration
    completes answer alike: both requests fail or both are answered,
    [_prev] is left the same, and the answers carry the same rates and
    sizes.  The interface list, the GPU, the probe, the battery, and
    the processes that are yielded with their attribute reads cannot
    make a request fail; of the optional sources only a raising process
    enumeration can. *)
Theorem optional_sources_cannot_fail_request (w w' : World) (st : RateState) :
  same_core w w' ->
  is_ok (stats float_of_str w st).1 = is_ok (stats float_of_str' w' st).1
  /\ (stats float_of_str w st).2 = (stats float_of_str' w' st).2
  /\ forall p p',
       (stats float_of_str w st).1 = Ok p ->
       (stats float_of_str' w' st).1 = Ok p' ->
       p_net_upload_bps p = p_net_upload_bps p'
       /\ p_net_download_bps p = p_net_download_bps p'
       /\ p_disk_read_bps p = p_disk_read_bps p'
       /\ p_disk_write_bps p = p_disk_write_bps p'
       /\ p_mem_human p = p_mem_human p'
       /\ p_disk_human p = p_disk_human p'
       /\ s_uptime_seconds (p_system p) = s_uptime_seconds (p_system p').
Proof.
  intros (Hps & Ht & H1 & H2 & H3 & H4 & H5 & H6 & H7 & Hb & Hu).
  unfold stats, core_reads. rewrite <- Ht, <- H1, <- H2, <- H3, <- H4, <- H5,
    <- H6, <- H7.
  fold (core_reads w).
  destruct (core_reads w) as [rd|e]; [|failed_requests].
  destruct (compute_rates _ _ _ _) as [rates|e]; [|failed_requests].
  cbn [fst snd]. unfold compose, get_top_processes. rewrite <- Hb, <- Hu.
  destruct (process_iter w) as [ps|e], (process_iter w') as [ps'|e'];
    try discriminate Hps; [|failed_requests].
  cbn [mbind result_bind].
  destruct (float_to_int _) as [up|]; [|failed_requests].
  cbn [mbind result_bind].
  destruct (human_sizes (vm_total _) _ _) as [mh|]; [|failed_requests].
  cbn [mbind result_bind].
  destruct (human_sizes (du_total _) _ _) as [dh|]; [|failed_requests].
  cbn [mbind result_bind]. split; [reflexivity|]. split; [reflexivity|].
  intros p p' [= <-] [= <-]. cbn. auto 10.
Qed.

(** X9: With every optional source failing the request is answered or fails
    as before and [_prev] is the same; the answer has no GPU, no
    battery, no process and no interface. *)
Theorem failing_optional_sources_degrade (w : World) (st : RateState) :
  let w' := without_optionals w in
  is_ok (stats float_of_str w' st).1 = is_ok (stats float_of_str w st).1
  /\ (stats float_of_str w' st).2 = (stats float_of_str w st).2
  /\ forall p, (stats float_of_str w' st).1 = Ok p ->
       p_gpu p = None /\ p_battery p = None
       /\ p_processes_top p = [] /\ p_net_interfaces p = ∅.
Proof.
  intros w'. unfold stats.
  change (core_reads w') with (core_reads w).
  change (time_time w') with (time_time w).
  destruct (core_reads w) as [rd|e]; [|failed_request].
  destruct (compute_rates _ _ _ _) as [rates|e]; [|failed_request].
  cbn [fst snd]. unfold compose, get_top_processes.
  change (time_time_uptime w') with (time_time_uptime w).
  change (boot_time w') with (boot_time w).
  change (process_iter w')
    with (match process_iter w with
          | Ok ps => Ok (map (fun _ => @Raise pinfo OSError) ps)
          | Raise e => Raise e
          end).
  destruct (process_iter w) as [ps|e]; [|failed_request].
  cbn [mbind result_bind]. rewrite collect_procs_all_raise.
  destruct (float_to_int _) as [up|]; [|failed_request].
  cbn [mbind result_bind].
  destruct (human_sizes (vm_total _) _ _) as [mh|]; [|failed_request].
  cbn [mbind result_bind].
  destruct (human_sizes (du_total _) _ _) as [dh|]; [|failed_request].
  cbn [mbind result_bind]. split; [reflexivity|]. split; [reflexivity|].
  intros p [= <-]. cbn [p_gpu p_battery p_processes_top p_net_interfaces].
  split; [reflexivity|]. split; [reflexivity|]. split; reflexivity.
Qed.

(** X10: Whatever happens, the response lists at most five processes, its
    timestamp is the clock reading of line 99 and the one stored in
    [_prev], and the rates come in pairs: upload with download, read
    with write. *)
Theorem response_invariants (w : World) (st : RateState) (p : Payload) :
  (stats float_of_str w st).1 = Ok p ->
  (length (p_processes_top p) <= 5)%nat
  /\ p_timestamp p = time_time w
  /\ prev_ts (stats float_of_str w st).2 = Some (p_timestamp p)
  /\ (is_Some (p_net_upload_bps p) <-> is_Some (p_net_download_bps p))
  /\ (is_Some (p_disk_read_bps p) <-> is_Some (p_disk_write_bps p)).
Proof.
  unfold stats. destruct (core_reads w) as [rd|e]; [|discriminate].
  destruct (compute_rates _ _ _ _) as [rates|e] eqn:Hr; [|discriminate].
  cbn [fst snd]. unfold compose. intros H.
  apply bind_Ok_inv in H as (top & Htop & H).
  apply bind_Ok_inv in H as (up & _ & H).
  apply bind_Ok_inv in H as (mh & _ & H).
  apply bind_Ok_inv in H as (dh & _ & H).
  injection H as <-. cbn.
  split.
  { unfold get_top_processes in Htop.
    apply bind_Ok_inv in Htop as (ps & _ & Htop). cbv beta in Htop.
    injection Htop as <-.
    unfold slice_to. cbn. rewrite length_firstn. lia. }
  split; [reflexivity|]. split; [reflexivity|].
  unfold compute_rates in Hr.
  apply bind_Ok_inv in Hr as ([u d] & Hn & Hr).
  apply bind_Ok_inv in Hr as ([r' w'] & Hd & Hr).
  injection Hr as <-. cbn [upload_bps download_bps read_bps write_bps fst snd].
  split.
  - destruct (rate_guard (prev_net st) _ _) as [[pn dt]|].
    + apply rate_pair_Ok_inv in Hn as (cur & x & y & _ & _ & _ & Hn).
      injection Hn as -> ->. split; eauto.
    + injection Hn as <- <-. split; intros [? [=]].
  - destruct (rate_guard (prev_disk st) _ _) as [[pd dt]|].
    + apply rate_pair_Ok_inv in Hd as (cur & x & y & _ & _ & _ & Hd).
      injection Hd as -> ->. split; eauto.
    + injection Hd as <- <-. split; intros [? [=]].
Qed.

End OptionalSources.

Lemma optional_sources_cannot_fail_request_witness :
  is_ok (stats no_float_parser later_host earlier_sample).1
  = is_ok (stats no_float_parser (without_optionals later_host)
             earlier_sample).1
  /\ (stats no_float_parser later_host earlier_sample).2
     = (stats no_float_parser (without_optionals later_host)
          earlier_sample).2.
Proof.
  destruct (optional_sources_cannot_fail_request no_float_parser
              no_float_parser later_host (without_optionals later_host)
              earlier_sample) as (H1 & H2 & _).
  - repeat split.
  - split; [exact H1 | exact H2].
Defined.

Lemma response_invariants_witness :
  exists p,
    (stats no_float_parser later_host earlier_sample).1 = Ok p
    /\ (length (p_processes_top p) <= 5)%nat
    /\ p_timestamp p = 3%float
    /\ prev_ts (stats no_float_parser later_host earlier_sample).2
       = Some (p_timestamp p)
    /\ (is_Some (p_net_upload_bps p) <-> is_Some (p_net_download_bps p))
    /\ (is_Some (p_disk_read_bps p) <-> is_Some (p_disk_write_bps p)).
Proof.
  eexists. split; [vm_compute; reflexivity|].
  exact (response_invariants no_float_parser later_host earlier_sample _
           eq_refl).
Defined.

(** ** Further properties of [get_top_processes] *)

(** A 64-bit byte count divided by [1024 * 1024] is a finite float: the
    true division of line 66 cannot raise. *)
Lemma truediv_mebibytes (r : Z) :
  counter_ok r ->
  exists f, truediv (PyInt r) (PyInt (1024 * 1024)) = Ok (PyFloat f).
Proof.
  intros [H0 H1]. unfold truediv.
  change (1024 * 1024 =? 0) with false. cbn iota.
  change (Z.sgn (1024 * 1024)) with 1. change (Z.abs (1024 * 1024)) with 1048576.
  rewrite Z.mul_1_r. unfold Zdiv2SF.
  destruct r as [|t|t]; [eauto| |lia].
  change (Z.abs (Z.pos t)) with (Z.pos t).
  change (Z.pos t <? 0) with false.
  pose proof (digits2_pos_bounds t) as [Hlo Hhi].
  set (d1 := Z.pos (digits2_pos t)) in *.
  assert (Hd1 : 1 <= d1) by (unfold d1; lia).
  assert (Hd64 : d1 <= 64).
  { destruct (Z.le_gt_cases d1 64) as [|Hgt]; [assumption|].
    assert (2 ^ 64 <= 2 ^ (d1 - 1)) by (apply Z.pow_le_mono_r; lia). lia. }
  unfold SFdiv_core_binary. cbn [Zdigits2]. fold d1.
  change (Z.pos (digits2_pos 1048576)) with 21.
  rewrite fexp_normal by lia.
  replace (d1 + 0 - (21 + 0) - 53) with (d1 - 74) by lia.
  replace (Z.min (d1 - 74) (0 - 0)) with (d1 - 74) by lia.
  replace (0 - 0 - (d1 - 74)) with (74 - d1) by lia.
  set (m' := match 74 - d1 with
             | 0 => Z.pos t
             | Z.pos _ => Z.shiftl (Z.pos t) (74 - d1)
             | Z.neg _ => 0
             end).
  assert (Hm' : m' = Z.pos t * 2 ^ (74 - d1)).
  { unfold m'. destruct (74 - d1) as [|k|k] eqn:Ek; try lia.
    now rewrite Z.shiftl_mul_pow2 by lia. }
  assert (Hb : 2 ^ 73 <= m' < 2 ^ 74).
  { rewrite Hm'.
    replace (2 ^ 73) with (2 ^ (d1 - 1) * 2 ^ (74 - d1))
      by (rewrite <- Z.pow_add_r by lia; f_equal; lia).
    replace (2 ^ 74) with (2 ^ d1 * 2 ^ (74 - d1))
      by (rewrite <- Z.pow_add_r by lia; f_equal; lia).
    assert (0 < 2 ^ (74 - d1)) by (apply Z.pow_pos_nonneg; lia). nia. }
  clearbody m'.
  pose proof (Z.div_eucl_eq m' 1048576 ltac:(lia)) as Heq.
  pose proof (Z.mod_pos_bound m' 1048576 ltac:(lia)) as Hr.
  unfold Z.modulo in Hr.
  destruct (Z.div_eucl m' 1048576) as [q r].
  change (2 ^ 73) with (1048576 * 2 ^ 53) in Hb.
  change (2 ^ 74) with (1048576 * 2 ^ 54) in Hb.
  assert (Hq : 2 ^ (54 - 1) <= q < 2 ^ 54).
  { change (54 - 1) with 53. split; nia. }
  match goal with
  | |- context [binary_round_aux _ _ _ _ _ ?l] =>
      destruct (binary_round_aux_normal false q (d1 - 74) l 54 Hq)
        as (m & e & -> & Hm & He & _); [lia|lia|]
  end.
  destruct (Z.leb_spec e 971); [eauto|lia].
Qed.

Lemma proc_entry_in_range (info : pinfo) :
  rss_in_range (Ok info) ->
  exists entry, proc_entry info = Ok entry /\ pid entry = info_pid info.
Proof.
  unfold rss_in_range, proc_entry.
  destruct (info_memory_info info) as [mi|]; intros H.
  - destruct (truediv_mebibytes (rss mi) H) as [f ->].
    cbn [mbind result_bind]. eauto.
  - cbn [mbind result_bind]. eauto.
Qed.

Lemma StronglySorted_split {A : Type} (R : A -> A -> Prop) (n : nat)
    (l : list A) :
  StronglySorted R l ->
  forall a b, In a (firstn n l) -> In b (skipn n l) -> R a b.
Proof.
  intros H. revert n. induction H as [|x l Hl IH Hx]; intros n a b.
  - now rewrite firstn_nil.
  - destruct n as [|n]; [intros []|].
    cbn [firstn skipn]. intros [<-|Ha] Hb.
    + rewrite List.Forall_forall in Hx. apply Hx.
      rewrite <- (firstn_skipn n l). apply in_or_app. now right.
    + now apply (IH n).
Qed.

(** X11: When the resident sizes are 64-bit byte counts, every process whose
    attributes were read gets an entry, and the entries come in
    enumeration order: only a raising attribute read drops a process. *)
Theorem readable_processes_all_listed (ps : list (result pinfo)) :
  Forall rss_in_range ps ->
  map pid (collect_procs ps)
  = omap (fun p => match p with
                   | Ok info => Some (info_pid info)
                   | Raise _ => None
                   end) ps.
Proof.
  induction 1 as [|p ps Hp Hps IH]; [reflexivity|].
  cbn [collect_procs omap list_omap]. destruct p as [info|e].
  - rewrite bind_Ok_l.
    destruct (proc_entry_in_range info Hp) as (entry & -> & Hpid).
    cbn [map]. now rewrite Hpid, IH.
  - rewrite bind_Raise_l. exact IH.
Qed.

(** X12: When the CPU readings are numbers, no entry left out of the top [n]
    has a greater [cpu_percent] than an entry in it. *)
Theorem top_processes_dominate_the_rest (n : nat) (ps : list (result pinfo))
    (top : list ProcessEntry) (a b : ProcessEntry) :
  Forall cpu_reading_ok ps ->
  get_top_processes (Z.of_nat n) (Ok ps) = Ok top ->
  In a top ->
  In b (skipn n (sort_desc cpu_percent (collect_procs ps))) ->
  le (cpu_percent b) (cpu_percent a) = true.
Proof.
  intros Hps Htop Ha Hb.
  unfold get_top_processes in Htop. rewrite bind_Ok_l in Htop.
  injection Htop as <-. rewrite slice_to_of_nat in Ha.
  apply (StronglySorted_split (ge_key cpu_percent) n
           (sort_desc cpu_percent (collect_procs ps))); try assumption.
  apply sort_desc_sorted. now apply collect_procs_keyed.
Qed.

Lemma readable_processes_all_listed_witness :
  map pid (collect_procs [Ok (sample_process 11 12.5); Raise OSError;
                          Ok (sample_process 12 40)])
  = [Some 11; Some 12].
Proof.
  apply (readable_processes_all_listed
           [Ok (sample_process 11 12.5); Raise OSError;
            Ok (sample_process 12 40)]).
  repeat constructor; cbn; lia.
Defined.

Lemma top_processes_dominate_the_rest_witness :
  let ps := [Ok (sample_process 11 12.5); Raise OSError;
             Ok (sample_process 12 40)] in
  forallb (fun b =>
    forallb (fun a => le (cpu_percent b) (cpu_percent a))
      (firstn 1 (sort_desc cpu_percent (collect_procs ps))))
    (skipn 1 (sort_desc cpu_percent (collect_procs ps))) = true.
Proof.
  intros ps. apply forallb_forall. intros b Hb.
  apply forallb_forall. intros a Ha.
  apply (top_processes_dominate_the_rest 1 ps
           (firstn 1 (sort_desc cpu_percent (collect_procs ps))) a b);
    [repeat constructor | reflexivity | exact Ha | exact Hb].
Defined.

(** ** Further properties of [safe_gpu_info] *)

Section GpuProperties.

Variable float_of_str : text -> result float.

Lemma gpu_primary_field_raises (w : World) (g : GPU) (gs : list GPU) :
  getGPUs w = Ok (g :: gs) -> gpu_field_raises g ->
  try_except (gpu_primary w) None = None.
Proof.
  intros Hg H. unfold gpu_primary. rewrite Hg, bind_Ok_l.
  unfold gpu_field_raises in H.
  destruct (gpu_name g) as [nm|]; [|reflexivity].
  destruct (gpu_load g) as [load|]; [|reflexivity].
  destruct (gpu_memoryUsed g) as [used|]; [|reflexivity].
  destruct (gpu_memoryTotal g) as [total|]; [|reflexivity].
  cbn [is_ok] in H.
  destruct H as [H|[H|[H|[H|(e & He & Hne)]]]]; try discriminate H.
  rewrite He. cbn [mbind result_bind hasattr].
  destruct e; try reflexivity. now destruct Hne.
Qed.

(** X13: Only the first device of the GPU library is looked at, and when one
    of its attributes cannot be read the probe is run and decides the
    result, as when there is no device. *)
Theorem gpu_first_device_decides (w : World) (g : GPU) (gs : list GPU) :
  getGPUs w = Ok (g :: gs) ->
  (forall w' gs',
     getGPUs w' = Ok (g :: gs') -> nvidia_smi w' = nvidia_smi w ->
     safe_gpu_info float_of_str w' = safe_gpu_info float_of_str w)
  /\ (gpu_field_raises g ->
      safe_gpu_info float_of_str w
      = (try_except (gpu_probe float_of_str w) None,
         [CallGetGPUs; CallNvidiaSmi])).
Proof.
  intros Hg. split.
  - intros w' gs' Hg' Hsmi.
    unfold safe_gpu_info, gpu_primary, gpu_probe.
    now rewrite Hg, Hg', Hsmi.
  - intros H. unfold safe_gpu_info.
    now rewrite (gpu_primary_field_raises w g gs Hg H).
Qed.

Lemma split_length (sep : N) (s : text) :
  length (split sep s) = S (count_char sep s).
Proof.
  induction s as [|c s IH]; [reflexivity|].
  cbn [split count_char]. destruct (c =? sep)%N.
  - cbn [length]. now rewrite IH.
  - destruct (split sep s) as [|piece pieces]; [discriminate|].
    cbn [length] in *. lia.
Qed.

(** X14: When the GPU library gives no device, the probe output decides: with
    fewer than four commas the result is [None]; with exit code 0, an
    output that is not all white space, at least four commas and four
    numeric fields the result is made of the first five fields, each
    without the white space around it, whatever follows them. *)
Theorem probe_output_decides (w : World) (p : CompletedProcess) :
  primary_empty_or_raises w -> nvidia_smi w = Ok p ->
  ((count_char comma (stdout p) < 4)%nat ->
   safe_gpu_info float_of_str w = (None, [CallGetGPUs; CallNvidiaSmi]))
  /\ (forall load used total temp,
        returncode p = 0 -> strip (stdout p) <> [] ->
        (4 <= count_char comma (stdout p))%nat ->
        float_of_str (nth 1 (probe_parts p) []) = Ok load ->
        float_of_str (nth 2 (probe_parts p) []) = Ok used ->
        float_of_str (nth 3 (probe_parts p) []) = Ok total ->
        float_of_str (nth 4 (probe_parts p) []) = Ok temp ->
        safe_gpu_info float_of_str w
        = (Some {| g_name := nth 0 (probe_parts p) [];
                   g_load_percent := load;
                   g_memory_used_mb := used;
                   g_memory_total_mb := total;
                   g_temperature_c := Some temp |},
           [CallGetGPUs; CallNvidiaSmi])).
Proof.
  intros Hprim Hp. unfold safe_gpu_info.
  rewrite (gpu_primary_empty_or_raises w Hprim).
  assert (Hlen : length (probe_parts p) = S (count_char comma (stdout p))).
  { unfold probe_parts. now rewrite length_map, split_length. }
  split.
  - intros Hc. rewrite (gpu_probe_unusable float_of_str w); [reflexivity|].
    right. exists p. split; [exact Hp|]. right. right. left. lia.
  - intros load used total temp Hrc Hs Hc H1 H2 H3 H4.
    unfold gpu_probe. rewrite Hp, bind_Ok_l. fold (probe_parts p).
    rewrite Hrc. destruct (strip (stdout p)) as [|c s]; [now destruct Hs|].
    cbn [Z.eqb andb text_truthy].
    destruct (Nat.leb_spec 5 (length (probe_parts p))); [|lia].
    now rewrite H1, bind_Ok_l, H2, bind_Ok_l, H3, bind_Ok_l, H4, bind_Ok_l.
Qed.

End GpuProperties.

Lemma gpu_first_device_decides_witness :
  safe_gpu_info sample_float_of_str
    (gpu_host (Ok [broken_gpu]) (Ok probe_line))
  = (try_except
       (gpu_probe sample_float_of_str
          (gpu_host (Ok [broken_gpu]) (Ok probe_line))) None,
     [CallGetGPUs; CallNvidiaSmi]).
Proof.
  apply (gpu_first_device_decides sample_float_of_str
           (gpu_host (Ok [broken_gpu]) (Ok probe_line)) broken_gpu []
           eq_refl).
  right. left. reflexivity.
Defined.

Lemma probe_output_decides_witness :
  safe_gpu_info sample_float_of_str (gpu_host (Ok []) (Ok probe_line))
  = (Some {| g_name := text_of "RTX 3080";
             g_load_percent := 35;
             g_memory_used_mb := 1024;
             g_memory_total_mb := 8192;
             g_temperature_c := Some 45%float |},
     [CallGetGPUs; CallNvidiaSmi]).
Proof.
  apply (proj2 (probe_output_decides sample_float_of_str
                  (gpu_host (Ok []) (Ok probe_line)) probe_line
                  (or_introl eq_refl) eq_refl)
           35%float 1024%float 8192%float 45%float);
    first [reflexivity | vm_compute; discriminate | vm_compute; lia].
Defined.

(** ** The lock is always released *)

Section Progress.

Variable float_of_str : text -> result float.
Variable ws : list World.
Variable st0 : RateState.

Lemma steps_left_insert (l : list phase) (i : nat) (p q : phase) :
  l !! i = Some p ->
  (sum_list (steps_left <$> <[i := q]> l) + steps_left p
   = sum_list (steps_left <$> l) + steps_left q)%nat.
Proof.
  revert i. induction l as [|a l IH]; intros i; [discriminate|].
  destruct i as [|i]; csimpl.
  - intros [= ->]. lia.
  - intros H. specialize (IH i H). lia.
Qed.

Lemma steps_left_pending (l : list phase) :
  (0 < sum_list (steps_left <$> l))%nat ->
  exists i p, l !! i = Some p /\ (0 < steps_left p)%nat.
Proof.
  induction l as [|a l IH]; csimpl; [lia|]. intros H.
  destruct (steps_left a) as [|n] eqn:Ea.
  - destruct (IH H) as (i & p & Hi & Hp). now exists (S i), p.
  - exists 0%nat, a. split; [reflexivity|lia].
Qed.

Lemma steps_left_none (l : list phase) (i : nat) (p : phase) :
  sum_list (steps_left <$> l) = 0%nat -> l !! i = Some p -> finished p.
Proof.
  revert i. induction l as [|a l IH]; intros i; [discriminate|].
  csimpl. intros H. destruct i as [|i]; csimpl.
  - intros [= <-]. destruct a; cbn in H; try lia. exact I.
  - apply IH. lia.
Qed.

(** As long as a thread has not finished, some thread can make a step:
    the lock is free for a waiting thread, or its holder can go on. *)
Lemma thread_progress (c : config) :
  rtc (thread_step float_of_str ws) (init_config (length ws) st0) c ->
  (0 < remaining c)%nat ->
  exists c', thread_step float_of_str ws c c'
             /\ (remaining c' < remaining c)%nat.
Proof.
  intros Hreach Hrem.
  destruct (reachable_serialized float_of_str ws st0 c Hreach)
    as (done & cur & Hlen & Hord & Hnd & Hwait & Hdone & Hcur).
  destruct cur as [|h [|h' cur]]; [| |contradiction].
  - destruct Hcur as [Hlock _].
    destruct (steps_left_pending _ Hrem) as (i & p & Hi & Hp).
    assert (Hw : phases c !! i = Some Waiting).
    { apply Hwait.
      - rewrite Hord, app_nil_r. intros Hin.
        apply list_elem_of_lookup in Hin as [k Hk].
        destruct (Hdone k i Hk) as (w & r & _ & _ & Hf).
        rewrite Hf in Hi. injection Hi as <-. cbn in Hp. lia.
      - rewrite <- Hlen. now apply lookup_lt_Some in Hi. }
    eexists. split; [now apply (step_acquire _ _ _ i)|].
    unfold remaining. cbn [phases].
    pose proof (steps_left_insert (phases c) i Waiting Entered Hw) as E.
    cbn in E. lia.
  - destruct Hcur as (Hlock & w & Hw & Hh). unfold holder_ok in Hh.
    destruct (phases c !! h) as [[| |rd rates|r|r]|] eqn:Hp;
      try contradiction.
    + destruct (rd ← core_reads w;
                compute_rates (shared c) (time_time w) (r_net_counters rd)
                  (r_disk_io rd)) as [rates|e] eqn:E.
      * apply bind_Ok_inv in E as (rd & Hrd & Hr).
        eexists. split; [exact (step_sample _ _ _ h w rd rates Hp Hw Hrd Hr)|].
        unfold remaining. cbn [phases].
        pose proof (steps_left_insert (phases c) h Entered
                      (Sampled rd rates) Hp) as E.
        cbn in E. lia.
      * eexists. split; [exact (step_raise _ _ _ h w e Hp Hw E)|].
        unfold remaining. cbn [phases].
        pose proof (steps_left_insert (phases c) h Entered
                      (Leaving (Raise e)) Hp) as E'.
        cbn in E'. lia.
    + eexists. split; [exact (step_update _ _ _ h w rd rates Hp Hw)|].
      unfold remaining. cbn [phases].
      pose proof (steps_left_insert (phases c) h (Sampled rd rates)
                    (Leaving (compose float_of_str w rd rates)) Hp) as E.
      cbn in E. lia.
    + eexists. split; [exact (step_release _ _ _ h r Hp)|].
      unfold remaining. cbn [phases].
      pose proof (steps_left_insert (phases c) h (Leaving r) (Finished r) Hp)
        as E.
      cbn in E. lia.
Qed.

Lemma all_finished_unlocked (c : config) :
  rtc (thread_step float_of_str ws) (init_config (length ws) st0) c ->
  remaining c = 0%nat -> locked c = false.
Proof.
  intros Hreach Hrem.
  destruct (reachable_serialized float_of_str ws st0 c Hreach)
    as (done & cur & Hlen & Hord & Hnd & Hwait & Hdone & Hcur).
  destruct cur as [|h [|h' cur]]; [| |contradiction].
  - apply Hcur.
  - destruct Hcur as (_ & w & _ & Hh). unfold holder_ok in Hh.
    destruct (phases c !! h) as [p|] eqn:Hp; [|contradiction].
    pose proof (steps_left_none _ h p Hrem Hp) as Hf.
    destruct p; contradiction.
Qed.

(** X15: No request blocks the others for ever: from every state that the
    threads can reach, they can all run to the end, also the ones whose
    request raises; the lock is then free and every thread has
    its result. *)
Theorem every_request_can_finish (c : config) :
  rtc (thread_step float_of_str ws) (init_config (length ws) st0) c ->
  exists c',
    rtc (thread_step float_of_str ws) c c'
    /\ locked c' = false
    /\ length (phases c') = length ws
    /\ forall i, (i < length ws)%nat ->
         exists r, phases c' !! i = Some (Finished r).
Proof.
  remember (remaining c) as n eqn:Hn. revert c Hn.
  induction n as [n IH] using lt_wf_ind. intros c Hn Hreach.
  destruct (Nat.eq_dec n 0%nat) as [->|Hpos].
  - exists c. split; [apply rtc_refl|].
    split; [now apply all_finished_unlocked|].
    destruct (reachable_serialized float_of_str ws st0 c Hreach)
      as (done & cur & Hlen & _).
    split; [exact Hlen|]. intros i Hi.
    destruct (lookup_lt_is_Some_2 (phases c) i) as [p Hp]; [lia|].
    pose proof (steps_left_none _ i p (eq_sym Hn) Hp) as Hf.
    destruct p; try contradiction. eauto.
  - destruct (thread_progress c Hreach) as (c1 & Hstep & Hless); [lia|].
    destruct (IH (remaining c1) ltac:(lia) c1 eq_refl) as (c' & Hrtc & Hrest).
    + eapply rtc_r; eassumption.
    + exists c'. split; [|exact Hrest]. eapply rtc_l; eassumption.
Qed.

End Progress.

Lemma every_request_can_finish_witness :
  exists c',
    rtc (thread_step no_float_parser two_requests)
      (init_config 2 initial_prev) c'
    /\ locked c' = false
    /\ length (phases c') = 2%nat
    /\ forall i, (i < 2)%nat ->
         exists r, phases c' !! i = Some (Finished r).
Proof.
  apply (every_request_can_finish no_float_parser two_requests initial_prev
           (init_config 2 initial_prev)).
  apply rtc_refl.
Defined.

(** ** The exceptions of the handler's own statements *)

Lemma int_to_float_raises (z : Z) (e : exn) :
  int_to_float z = Raise e -> e = OverflowError.
Proof. unfold int_to_float. destruct (Z2SF z); congruence. Qed.

Lemma rate_raises (cur prev : Z) (d : float) (e : exn) :
  float_truthy d = true -> rate cur prev d = Raise e -> e = OverflowError.
Proof.
  unfold rate, float_div, float_truthy. intros Hd H.
  destruct (int_to_float (cur - prev)) as [x|e'] eqn:E.
  - rewrite bind_Ok_l in H. destruct (d =? 0)%float; discriminate.
  - rewrite bind_Raise_l in H. injection H as <-.
    exact (int_to_float_raises _ _ E).
Qed.

(** The two rates of one kind raise [AttributeError] when the counter
    read answered [None] while counters are stored, and otherwise only
    [OverflowError]. *)
Lemma rate_pair_raises {A : Type} (prev : option A) (ts dt : option float)
    (obj : option A) (f1 f2 : A -> Z) (e : exn) :
  match rate_guard prev ts dt with
  | Some (p, d) =>
      c1 ← attr obj f1; a ← rate c1 (f1 p) d;
      c2 ← attr obj f2; b ← rate c2 (f2 p) d;
      Ok (Some a, Some b)
  | None => Ok (None, None)
  end = Raise e ->
  e = OverflowError
  \/ (e = AttributeError /\ obj = None /\ is_Some prev).
Proof.
  destruct (rate_guard prev ts dt) as [[p d]|] eqn:G; [|discriminate].
  pose proof (rate_guard_truthy _ _ _ _ _ G) as Hd.
  pose proof (rate_guard_prev _ _ _ _ _ G) as Hp.
  destruct obj as [cur|]; cbn [attr].
  - rewrite bind_Ok_l. intros H. left.
    destruct (rate (f1 cur) (f1 p) d) as [a|e1] eqn:E1.
    + rewrite !bind_Ok_l in H.
      destruct (rate (f2 cur) (f2 p) d) as [b|e2] eqn:E2; [discriminate|].
      rewrite bind_Raise_l in H. injection H as <-.
      exact (rate_raises _ _ _ _ Hd E2).
    + rewrite bind_Raise_l in H. injection H as <-.
      exact (rate_raises _ _ _ _ Hd E1).
  - rewrite bind_Raise_l. intros [= <-]. right. rewrite Hp. eauto.
Qed.

Lemma compute_rates_raises (st : RateState) (now : float)
    (net : option snetio) (disk : option sdiskio) (e : exn) :
  compute_rates st now net disk = Raise e ->
  e = OverflowError
  \/ (e = AttributeError
      /\ ((net = None /\ is_Some (prev_net st))
          \/ (disk = None /\ is_Some (prev_disk st)))).
Proof.
  unfold compute_rates. intros H.
  apply bind_Raise_inv in H as [H|(x & _ & H)].
  - apply rate_pair_raises in H as [H|(He & Hn & Hp)]; auto.
  - apply bind_Raise_inv in H as [H|(y & _ & H)]; [|discriminate].
    apply rate_pair_raises in H as [H|(He & Hn & Hp)]; auto.
Qed.

Lemma human_sizes_raises (t u a : Z) (e : exn) :
  human_sizes t u a = Raise e -> e = OverflowError.
Proof.
  unfold human_sizes. intros H.
  apply bind_Raise_inv in H as [H|(x & _ & H)];
    [apply bytes_to_human_int_raises in H; exact (int_to_float_raises _ _ H)|].
  apply bind_Raise_inv in H as [H|(y & _ & H)];
    [apply bytes_to_human_int_raises in H; exact (int_to_float_raises _ _ H)|].
  apply bind_Raise_inv in H as [H|(z & _ & H)];
    [apply bytes_to_human_int_raises in H; exact (int_to_float_raises _ _ H)|].
  discriminate.
Qed.

Section HandlerErrors.

Variable float_of_str : text -> result float.

(** X16: Once the reads of lines 101-122 have succeeded a request can
    only fail with [OverflowError] (an int too large for a float, or an
    infinite uptime), with [ValueError] (the uptime is [nan]), with
    [AttributeError] (a counter read answered [None] while counters of
    its kind are stored), or with the exception of a raising process
    enumeration.  The divisions of lines 135-140 never raise
    [ZeroDivisionError]: the guard lets no zero divisor through. *)
Theorem handler_raises_only (w : World) (st : RateState) (rd : CoreReads)
    (e : exn) :
  core_reads w = Ok rd ->
  (stats float_of_str w st).1 = Raise e ->
  e = OverflowError
  \/ (e = ValueError
      /\ Prim2SF (time_time_uptime w - boot_time w)%float = S754_nan)
  \/ (e = AttributeError
      /\ ((r_net_counters rd = None /\ is_Some (prev_net st))
          \/ (r_disk_io rd = None /\ is_Some (prev_disk st))))
  \/ process_iter w = Raise e.
Proof.
  intros Hrd. unfold stats. rewrite Hrd.
  destruct (compute_rates _ _ _ _) as [rates|e'] eqn:Hr; cbn [fst].
  - intros H. apply (compose_raises float_of_str) in H
      as [H|[H|[H|H]]].
    + auto.
    + unfold float_to_int in H.
      destruct (Prim2SF (time_time_uptime w - boot_time w)%float);
        try discriminate; injection H as <-; auto.
    + left. exact (human_sizes_raises _ _ _ _ H).
    + left. exact (human_sizes_raises _ _ _ _ H).
  - intros [= <-].
    destruct (compute_rates_raises _ _ _ _ _ Hr) as [H|H]; auto.
Qed.

End HandlerErrors.

Lemma handler_raises_only_witness :
  AttributeError = OverflowError
  \/ (AttributeError = ValueError
      /\ Prim2SF (time_time_uptime (with_counters None None later_host)
                  - boot_time (with_counters None None later_host))%float
         = S754_nan)
  \/ (AttributeError = AttributeError
      /\ ((@None snetio = None /\ is_Some (prev_net earlier_sample))
          \/ (@None sdiskio = None /\ is_Some (prev_disk earlier_sample))))
  \/ process_iter (with_counters None None later_host)
     = Raise AttributeError.
Proof.
  apply (handler_raises_only no_float_parser
           (with_counters None None later_host) earlier_sample _
           AttributeError eq_refl).
  vm_compute. reflexivity.
Defined.
